(** * RepRapFirmware, GCodes.cpp: resource locks, move hand-off, move
      synthesis, trigger arbitration and restore points.

    A shallow embedding of the parts of [src/GCodes/GCodes.cpp] that the
    specification's testable properties talk about, followed by the
    theorems that settle them.  Every definition names the source lines
    it follows.  Part I holds the definitions, Part II the lemmas and
    theorems. *)

From Stdlib Require Import ZArith NArith List Bool String Ascii Lia.
From Stdlib Require Import SpecFloat.
From Stdlib Require Import DecimalString.
From stdpp Require Import base decidable option list.

Local Open Scope nat_scope.

(* ===================================================================== *)
(** * Part I: definitions                                                 *)
(* ===================================================================== *)

(* --------------------------------------------------------------------- *)
(** ** Floating point: C [float] and [double] as IEEE binary32/binary64   *)
(* --------------------------------------------------------------------- *)

(** Values are [spec_float]s of the Standard Library, operations are its
    correctly rounded (nearest-even) ones at the given precision. *)

Module F32.

Definition prec : Z := 24.
Definition emax : Z := 128.
Definition float := spec_float.

Definition add : float -> float -> float := SFadd prec emax.
Definition sub : float -> float -> float := SFsub prec emax.
Definition mul : float -> float -> float := SFmul prec emax.
Definition div : float -> float -> float := SFdiv prec emax.
Definition opp : float -> float := SFopp.
Definition eqb : float -> float -> bool := SFeqb.
Definition ltb : float -> float -> bool := SFltb.
Definition leb : float -> float -> bool := SFleb.
Definition gtb (x y : float) : bool := SFltb y x.
Definition geb (x y : float) : bool := SFleb y x.
Definition neqb (x y : float) : bool := negb (SFeqb x y).

Definition isnan (x : float) : bool :=
  match x with S754_nan => true | _ => false end.

Definition zero : float := S754_zero false.

(** Neither a NaN nor an infinity. *)
Definition is_finite (x : float) : bool :=
  match x with
  | S754_zero _ | S754_finite _ _ _ => true
  | _ => false
  end.

(** Conversion of an integer, and of a dyadic number [m * 2^e]. *)
Definition of_Z (z : Z) : float := binary_normalize prec emax z 0 false.
Definition of_dyadic (m e : Z) : float := binary_normalize prec emax m e false.

(** [fsquare] of RRFLibraries. *)
Definition fsquare (x : float) : float := mul x x.

(** Modelled from the spec: [fastSqrtf] is declared in RRFLibraries, which
    is not among the sources; the spec describes its use as [sqrt(...)], so
    it is taken to be the correctly rounded square root. *)
Definition fastSqrtf : float -> float := SFsqrt prec emax.

(** Modelled from the spec: [min<float>] and [max<float>] are declared in
    RRFLibraries, which is not among the sources.  They are the usual
    comparisons, returning the first argument when it is a NaN. *)
Definition fmin (a b : float) : float := if isnan a || ltb a b then a else b.
Definition fmax (a b : float) : float := if isnan a || gtb a b then a else b.
Definition constrain (val vmin vmax : float) : float := fmax (fmin val vmax) vmin.

(** The integer nearest to [m / 2^k], ties to even. *)
Definition round_half_even (m : Z) (k : Z) : Z :=
  let d := Z.pow 2 k in
  let q := Z.div m d in
  let r := Z.modulo m d in
  match Z.compare (2 * r) d with
  | Lt => q
  | Gt => (q + 1)%Z
  | Eq => if Z.even q then q else (q + 1)%Z
  end.

(** [lrintf] in the default rounding mode.  The C standard leaves the
    result for a NaN or an infinity unspecified; the model returns 0. *)
Definition lrintf (x : float) : Z :=
  match x with
  | S754_finite s m e =>
      let a := if Z.leb 0 e then (Zpos m * Z.pow 2 e)%Z
               else round_half_even (Zpos m) (- e) in
      if s then (- a)%Z else a
  | _ => 0%Z
  end.

(** Conversion to an unsigned integer, truncating towards zero, as in
    [(unsigned int)x] for a non-negative [x]. *)
Definition truncate (x : float) : Z :=
  match x with
  | S754_finite s m e =>
      let a := if Z.leb 0 e then (Zpos m * Z.pow 2 e)%Z
               else Z.div (Zpos m) (Z.pow 2 (- e)) in
      if s then (- a)%Z else a
  | _ => 0%Z
  end.

(** [floor], as an integer. *)
Definition floorZ (x : float) : Z :=
  match x with
  | S754_finite s m e =>
      if Z.leb 0 e then (if s then - (Zpos m * Z.pow 2 e) else Zpos m * Z.pow 2 e)%Z
      else if s then (- ((Zpos m + Z.pow 2 (- e) - 1) / Z.pow 2 (- e)))%Z
           else (Zpos m / Z.pow 2 (- e))%Z
  | _ => 0%Z
  end.

(** Modelled from the spec: [Pi] and [TwoPi] are constants of RRFLibraries,
    which is not among the sources; they are the [float]s nearest to pi and
    to 2 pi. *)
Definition Pi : float := S754_finite false 13176795 (-22).
Definition TwoPi : float := S754_finite false 13176795 (-21).

End F32.

Module F64.

Definition prec : Z := 53.
Definition emax : Z := 1024.
Definition double := spec_float.

Definition add : double -> double -> double := SFadd prec emax.
Definition sub : double -> double -> double := SFsub prec emax.
Definition mul : double -> double -> double := SFmul prec emax.
Definition div : double -> double -> double := SFdiv prec emax.
Definition ltb : double -> double -> bool := SFltb.
Definition gtb (x y : double) : bool := SFltb y x.
Definition neqb (x y : double) : bool := negb (SFeqb x y).
Definition opp : double -> double := SFopp.

(** An integer or dyadic literal as a [double]. *)
Definition of_Z (z : Z) : double := binary_normalize prec emax z 0 false.
Definition of_dyadic (m e : Z) : double := binary_normalize prec emax m e false.

Definition zero : double := S754_zero false.
Definition one : double := of_Z 1.

(** The literal [0.02]: the [double] nearest to 2/100. *)
Definition c0_02 : double := SFdiv prec emax (of_Z 2) (of_Z 100).

(** The literal [0.8]. *)
Definition c0_8 : double := SFdiv prec emax (of_Z 8) (of_Z 10).

(** Promotion of a [float] to [double]: exact, the mantissa is renormalised. *)
Definition of_float (x : F32.float) : double :=
  match x with
  | S754_finite s m e => binary_normalize prec emax (cond_Zopp s (Zpos m)) e s
  | _ => x
  end.

(** Conversion of a [double] to [float], rounding to nearest even. *)
Definition to_float (x : double) : F32.float :=
  match x with
  | S754_finite s m e => binary_normalize F32.prec F32.emax (cond_Zopp s (Zpos m)) e s
  | _ => x
  end.

End F64.

(* --------------------------------------------------------------------- *)
(** ** Resource locking (GCodes.cpp, lines 4625-4716)                     *)
(* --------------------------------------------------------------------- *)

Module Locks.

(** A [GCodeBuffer] is identified by its address; the model uses a
    channel number for it.  [Resource] is [unsigned int] in the source. *)
Definition Channel := nat.
Definition Resource := nat.

(** [Bitmap<...>] values: bit [i] is [N.testbit b i]. *)
Definition ResourceBitmap := N.
Definition AxesBitmap := N.

Definition IsBitSet (b : N) (i : nat) : bool := N.testbit b (N.of_nat i).
Definition SetBit (b : N) (i : nat) : N := N.setbit b (N.of_nat i).
Definition ClearBit (b : N) (i : nat) : N := N.clearbit b (N.of_nat i).

(** Modelled from the spec: the resource numbers are declared in GCodes.h,
    which is not among the sources; the spec lists the resources as
    "Movement, FileSystem, ...", and they are numbered in that order. *)
Definition MoveResource : Resource := 0.
Definition FileSystemResource : Resource := 1.

(** One frame of a channel's machine-state stack.  Only the lock bitmap is
    read or written by the locking functions. *)
Record GCodeMachineState := mkFrame {
  lockedResources : ResourceBitmap
}.

(** The stack of frames of one channel: [latest] is what
    [gb.LatestMachineState()] returns, [hd previous] is what
    [LatestMachineState().GetPrevious()] returns ([nullptr] when the list
    is empty). *)
Record MachineStack := mkStack {
  latest : GCodeMachineState;
  previous : list GCodeMachineState
}.

(** The members of [GCodes] that the locking functions touch.
    [resourceOwners] is the array [const GCodeBuffer* resourceOwners[NumResources]];
    its length plays the role of [NumResources]. *)
Record LockState := mkLockState {
  resourceOwners : list (option Channel);
  machineState : Channel -> MachineStack;
  toBeHomed : AxesBitmap
}.

Definition NumResources (s : LockState) : nat := length (resourceOwners s).

(** [resourceOwners[r]]; [None] is [nullptr]. *)
Definition owner (s : LockState) (r : Resource) : option Channel :=
  default None (resourceOwners s !! r).

(** [resourceOwners[r] = o] *)
Definition setOwner (r : Resource) (o : option Channel) (s : LockState) : LockState :=
  {| resourceOwners := <[r := o]> (resourceOwners s);
     machineState := machineState s;
     toBeHomed := toBeHomed s |}.

(** [gb.LatestMachineState().lockedResources = f (...)] *)
Definition updLocked (gb : Channel) (f : ResourceBitmap -> ResourceBitmap)
    (s : LockState) : LockState :=
  {| resourceOwners := resourceOwners s;
     machineState := fun c =>
       if Nat.eqb c gb
       then {| latest := {| lockedResources := f (lockedResources (latest (machineState s c))) |};
               previous := previous (machineState s c) |}
       else machineState s c;
     toBeHomed := toBeHomed s |}.

(** [toBeHomed.Clear()] *)
Definition clearToBeHomed (s : LockState) : LockState :=
  {| resourceOwners := resourceOwners s;
     machineState := machineState s;
     toBeHomed := 0%N |}.

Definition ownedBy (s : LockState) (r : Resource) (gb : Channel) : bool :=
  bool_decide (owner s r = Some gb).

Definition isFree (s : LockState) (r : Resource) : bool :=
  bool_decide (owner s r = None).

(** Lines 4629-4644. *)
Definition LockResource (gb : Channel) (r : Resource) (s : LockState)
    : bool * LockState :=
  if ownedBy s r gb then (true, s)
  else if isFree s r then
    (true, updLocked gb (fun b => SetBit b r) (setOwner r (Some gb) s))
  else (false, s).

(** Lines 4647-4657.  The source notes that the bit of the previous owner
    is left set in its machine state. *)
Definition GrabResource (gb : Channel) (r : Resource) (s : LockState) : LockState :=
  if negb (ownedBy s r gb)
  then updLocked gb (fun b => SetBit b r) (setOwner r (Some gb) s)
  else s.

(** Lines 4660-4681. *)
Definition LockFileSystem (gb : Channel) := LockResource gb FileSystemResource.
Definition LockMovement (gb : Channel) := LockResource gb MoveResource.
Definition GrabMovement (gb : Channel) := GrabResource gb MoveResource.

(** Lines 4684-4694. *)
Definition UnlockResource (gb : Channel) (r : Resource) (s : LockState) : LockState :=
  if ownedBy s r gb
  then setOwner r None (updLocked gb (fun b => ClearBit b r) s)
  else s.

Definition UnlockMovement (gb : Channel) := UnlockResource gb MoveResource.

(** Lines 4701-4702: the bits of the parent frame, empty at top level. *)
Definition resourcesToKeep (gb : Channel) (s : LockState) : ResourceBitmap :=
  match previous (machineState s gb) with
  | [] => 0%N
  | mc :: _ => lockedResources mc
  end.

(** Lines 4705-4714: the body of the loop, for index [i]. *)
Definition UnlockAll_body (gb : Channel) (keep : ResourceBitmap)
    (s : LockState) (i : nat) : LockState :=
  if ownedBy s i gb && negb (IsBitSet keep i) then
    let s1 := if Nat.eqb i MoveResource then clearToBeHomed s else s in
    updLocked gb (fun b => ClearBit b i) (setOwner i None s1)
  else s.

(** Lines 4697-4716. *)
Definition UnlockAll (gb : Channel) (s : LockState) : LockState :=
  fold_left (UnlockAll_body gb (resourcesToKeep gb s)) (seq 0 (NumResources s)) s.

(** [gb] is recorded as the owner of [r]. *)
Definition owns (s : LockState) (gb : Channel) (r : Resource) : Prop :=
  owner s r = Some gb.

(** The lock bit of [r] in the current frame of [gb]. *)
Definition lockBit (s : LockState) (gb : Channel) (r : Resource) : bool :=
  IsBitSet (lockedResources (latest (machineState s gb))) r.

(** The resources [UnlockAll gb] releases from state [s]: owned by [gb]
    and not set in the parent frame. *)
Definition released (gb : Channel) (s : LockState) (i : nat) : bool :=
  ownedBy s i gb && negb (IsBitSet (resourcesToKeep gb s) i).

(** The state [t] of the loop of [UnlockAll gb], started in [s], once the
    indices below [k] have been handled. *)
Record UnlockAll_inv (gb : Channel) (s : LockState) (k : nat) (t : LockState) : Prop := {
  inv_len : NumResources t = NumResources s;
  inv_owner : forall i,
    owner t i = if (i <? k) && released gb s i then None else owner s i;
  inv_bit : forall c i,
    lockBit t c i =
    if Nat.eqb c gb && ((i <? k) && released gb s i) then false else lockBit s c i;
  inv_prev : forall c, previous (machineState t c) = previous (machineState s c);
  inv_home :
    toBeHomed t =
    if (MoveResource <? k) && released gb s MoveResource then 0%N else toBeHomed s
}.

(** Sequences of lock operations by arbitrary channels. *)
Inductive LockOp :=
| OpLock (gb : Channel) (r : Resource)
| OpUnlock (gb : Channel) (r : Resource)
| OpGrab (gb : Channel) (r : Resource)
| OpUnlockAll (gb : Channel).

Definition step (s : LockState) (op : LockOp) : LockState :=
  match op with
  | OpLock gb r => snd (LockResource gb r s)
  | OpUnlock gb r => UnlockResource gb r s
  | OpGrab gb r => GrabResource gb r s
  | OpUnlockAll gb => UnlockAll gb s
  end.

Definition run (ops : list LockOp) (s : LockState) : LockState :=
  fold_left step ops s.

(** The channel an operation is issued by. *)
Definition opChannel (op : LockOp) : Channel :=
  match op with
  | OpLock gb _ | OpUnlock gb _ | OpGrab gb _ | OpUnlockAll gb => gb
  end.

Definition isGrab (op : LockOp) : bool :=
  match op with OpGrab _ _ => true | _ => false end.

(** Example states.  [initial]: two resources, every channel at top level
    with no bits set.  [heldByOne]: channel 1 has locked Movement.
    [inMacro]: channel 1 runs a macro; it inherited FileSystem from the
    calling frame and locked Movement inside the macro, while homing
    (axes 0 and 2 still to be homed). *)
Definition idleStack : MachineStack :=
  {| latest := {| lockedResources := 0%N |}; previous := [] |}.

Definition initial : LockState :=
  {| resourceOwners := [None; None];
     machineState := fun _ => idleStack;
     toBeHomed := 0%N |}.

Definition heldByOne : LockState := snd (LockMovement 1 initial).

Definition inMacro : LockState :=
  {| resourceOwners := [Some 1; Some 1];
     machineState := fun c =>
       if Nat.eqb c 1
       then {| latest := {| lockedResources := 3%N |};
               previous := [ {| lockedResources := 2%N |} ] |}
       else idleStack;
     toBeHomed := 5%N |}.

Definition exampleOps : list LockOp :=
  [OpLock 1 MoveResource; OpLock 2 MoveResource; OpGrab 3 FileSystemResource;
   OpUnlock 2 MoveResource; OpUnlockAll 3].

(** Every owner has its lock bit set in its current frame. *)
Definition ownersHaveBits (s : LockState) : Prop :=
  forall r c, owner s r = Some c -> lockBit s c r = true.

(** Channel [gb] owns nothing. *)
Definition ownsNothing (s : LockState) (gb : Channel) : Prop :=
  forall r, owner s r <> Some gb.

End Locks.

(* --------------------------------------------------------------------- *)
(** ** The shared move record and its hand-off to the Move task          *)
(* --------------------------------------------------------------------- *)

Module Moves.
Import Locks.

Definition float := F32.float.

Definition X_AXIS : nat := 0.
Definition Y_AXIS : nat := 1.
Definition Z_AXIS : nat := 2.

Inductive MachineType := fff | cnc | laser.
Inductive SimulationMode := simOff | simDebug | simNormal | simPartial.
Inductive SegmentedMoveState := inactive | active | aborted.
Inductive LimitPositionResult :=
| lpOk | lpAdjusted | lpIntermediateUnreachable | lpAdjustedAndIntermediateUnreachable.

(** The states of a channel's state machine that the modelled code sets
    or tests. *)
Inductive GCodeState :=
| normal
| waitingForSpecialMoveToComplete
| waitingForSegmentedMoveToGo
| pausing1.

Definition noFilePosition : Z := 4294967295.

(** [unsigned int] arithmetic wraps modulo 2^32. *)
Definition u32 (z : Z) : Z := Z.modulo z 4294967296.

(** [a[i]] and [a[i] = v] on the fixed-size arrays of floats. *)
Definition at_ (a : list float) (i : nat) : float := nth i a F32.zero.
Definition upd (a : list float) (i : nat) (v : float) : list float := <[i := v]> a.

(** [struct RawMove] and [struct MoveState : public RawMove].  The structs
    are declared in RawMove.h, which is not among the sources; the fields
    are those that GCodes.cpp reads and writes.  The arc parameters, which
    are plain members of [MoveState] in the source, are grouped in
    [ArcState]. *)
Record RawMove := mkRawMove {
  coords : list float;
  initialUserC0 : float;
  initialUserC1 : float;
  feedRate : float;
  filePos : Z;
  proportionDone : float;
  cosXyAngle : float;
  tool : option nat;
  moveType : Z;
  applyM220M221 : bool;
  usePressureAdvance : bool;
  canPauseAfter : bool;
  hasPositiveExtrusion : bool;
  isCoordinated : bool;
  checkEndstops : bool;
  reduceAcceleration : bool;
  linearAxesMentioned : bool;
  rotationalAxesMentioned : bool;
  laserPwm : Z
}.

Record ArcState := mkArcState {
  arcCentre : list float;
  arcRadius : float;
  arcCurrentAngle : float;
  currentAngleSine : float;
  currentAngleCosine : float;
  arcAngleIncrement : float;
  angleIncrementSine : float;
  angleIncrementCosine : float;
  segmentsTillNextFullCalc : Z;
  arcAxis0 : nat;
  arcAxis1 : nat;
  xyPlane : bool
}.

Record MoveState := mkMoveState {
  raw : RawMove;
  currentUserPosition : list float;
  initialCoords : list float;
  doingArcMove : bool;
  arc : ArcState;
  segMoveState : SegmentedMoveState;
  totalSegments : Z;
  segmentsLeft : Z
}.

(** The members of [GCodes] that the modelled functions touch, with the
    state of the channels' state machines ([gb.GetState()]) and the two
    flags of [buildObjects] that the move functions test. *)
Record GCodes := mkGCodes {
  moveState : MoveState;
  segmentsLeftToStartAt : Z;
  firstSegmentFractionToSkip : float;
  moveFractionToSkip : float;
  restartInitialUserC0 : float;
  restartInitialUserC1 : float;
  locks : LockState;
  gbState : Channel -> GCodeState;
  updateUserPositionGb : option Channel;
  firstMoveSincePrintingResumed : bool;
  currentObjectCancelled : bool
}.

(** Field assignments. *)
Definition set_coords (v : list float) (r : RawMove) : RawMove :=
  {| coords := v;
     initialUserC0 := initialUserC0 r;
     initialUserC1 := initialUserC1 r;
     feedRate := feedRate r;
     filePos := filePos r;
     proportionDone := proportionDone r;
     cosXyAngle := cosXyAngle r;
     tool := tool r;
     moveType := moveType r;
     applyM220M221 := applyM220M221 r;
     usePressureAdvance := usePressureAdvance r;
     canPauseAfter := canPauseAfter r;
     hasPositiveExtrusion := hasPositiveExtrusion r;
     isCoordinated := isCoordinated r;
     checkEndstops := checkEndstops r;
     reduceAcceleration := reduceAcceleration r;
     linearAxesMentioned := linearAxesMentioned r;
     rotationalAxesMentioned := rotationalAxesMentioned r;
     laserPwm := laserPwm r |}.

Definition set_initialUserC0 (v : float) (r : RawMove) : RawMove :=
  {| coords := coords r;
     initialUserC0 := v;
     initialUserC1 := initialUserC1 r;
     feedRate := feedRate r;
     filePos := filePos r;
     proportionDone := proportionDone r;
     cosXyAngle := cosXyAngle r;
     tool := tool r;
     moveType := moveType r;
     applyM220M221 := applyM220M221 r;
     usePressureAdvance := usePressureAdvance r;
     canPauseAfter := canPauseAfter r;
     hasPositiveExtrusion := hasPositiveExtrusion r;
     isCoordinated := isCoordinated r;
     checkEndstops := checkEndstops r;
     reduceAcceleration := reduceAcceleration r;
     linearAxesMentioned := linearAxesMentioned r;
     rotationalAxesMentioned := rotationalAxesMentioned r;
     laserPwm := laserPwm r |}.

Definition set_initialUserC1 (v : float) (r : RawMove) : RawMove :=
  {| coords := coords r;
     initialUserC0 := initialUserC0 r;
     initialUserC1 := v;
     feedRate := feedRate r;
     filePos := filePos r;
     proportionDone := proportionDone r;
     cosXyAngle := cosXyAngle r;
     tool := tool r;
     moveType := moveType r;
     applyM220M221 := applyM220M221 r;
     usePressureAdvance := usePressureAdvance r;
     canPauseAfter := canPauseAfter r;
     hasPositiveExtrusion := hasPositiveExtrusion r;
     isCoordinated := isCoordinated r;
     checkEndstops := checkEndstops r;
     reduceAcceleration := reduceAcceleration r;
     linearAxesMentioned := linearAxesMentioned r;
     rotationalAxesMentioned := rotationalAxesMentioned r;
     laserPwm := laserPwm r |}.

Definition set_tool (v : option nat) (r : RawMove) : RawMove :=
  {| coords := coords r;
     initialUserC0 := initialUserC0 r;
     initialUserC1 := initialUserC1 r;
     feedRate := feedRate r;
     filePos := filePos r;
     proportionDone := proportionDone r;
     cosXyAngle := cosXyAngle r;
     tool := v;
     moveType := moveType r;
     applyM220M221 := applyM220M221 r;
     usePressureAdvance := usePressureAdvance r;
     canPauseAfter := canPauseAfter r;
     hasPositiveExtrusion := hasPositiveExtrusion r;
     isCoordinated := isCoordinated r;
     checkEndstops := checkEndstops r;
     reduceAcceleration := reduceAcceleration r;
     linearAxesMentioned := linearAxesMentioned r;
     rotationalAxesMentioned := rotationalAxesMentioned r;
     laserPwm := laserPwm r |}.

Definition set_laserPwm (v : Z) (r : RawMove) : RawMove :=
  {| coords := coords r;
     initialUserC0 := initialUserC0 r;
     initialUserC1 := initialUserC1 r;
     feedRate := feedRate r;
     filePos := filePos r;
     proportionDone := proportionDone r;
     cosXyAngle := cosXyAngle r;
     tool := tool r;
     moveType := moveType r;
     applyM220M221 := applyM220M221 r;
     usePressureAdvance := usePressureAdvance r;
     canPauseAfter := canPauseAfter r;
     hasPositiveExtrusion := hasPositiveExtrusion r;
     isCoordinated := isCoordinated r;
     checkEndstops := checkEndstops r;
     reduceAcceleration := reduceAcceleration r;
     linearAxesMentioned := linearAxesMentioned r;
     rotationalAxesMentioned := rotationalAxesMentioned r;
     laserPwm := v |}.

Definition set_filePos (v : Z) (r : RawMove) : RawMove :=
  {| coords := coords r;
     initialUserC0 := initialUserC0 r;
     initialUserC1 := initialUserC1 r;
     feedRate := feedRate r;
     filePos := v;
     proportionDone := proportionDone r;
     cosXyAngle := cosXyAngle r;
     tool := tool r;
     moveType := moveType r;
     applyM220M221 := applyM220M221 r;
     usePressureAdvance := usePressureAdvance r;
     canPauseAfter := canPauseAfter r;
     hasPositiveExtrusion := hasPositiveExtrusion r;
     isCoordinated := isCoordinated r;
     checkEndstops := checkEndstops r;
     reduceAcceleration := reduceAcceleration r;
     linearAxesMentioned := linearAxesMentioned r;
     rotationalAxesMentioned := rotationalAxesMentioned r;
     laserPwm := laserPwm r |}.

Definition set_proportionDone (v : float) (r : RawMove) : RawMove :=
  {| coords := coords r;
     initialUserC0 := initialUserC0 r;
     initialUserC1 := initialUserC1 r;
     feedRate := feedRate r;
     filePos := filePos r;
     proportionDone := v;
     cosXyAngle := cosXyAngle r;
     tool := tool r;
     moveType := moveType r;
     applyM220M221 := applyM220M221 r;
     usePressureAdvance := usePressureAdvance r;
     canPauseAfter := canPauseAfter r;
     hasPositiveExtrusion := hasPositiveExtrusion r;
     isCoordinated := isCoordinated r;
     checkEndstops := checkEndstops r;
     reduceAcceleration := reduceAcceleration r;
     linearAxesMentioned := linearAxesMentioned r;
     rotationalAxesMentioned := rotationalAxesMentioned r;
     laserPwm := laserPwm r |}.

Definition set_cosXyAngle (v : float) (r : RawMove) : RawMove :=
  {| coords := coords r;
     initialUserC0 := initialUserC0 r;
     initialUserC1 := initialUserC1 r;
     feedRate := feedRate r;
     filePos := filePos r;
     proportionDone := proportionDone r;
     cosXyAngle := v;
     tool := tool r;
     moveType := moveType r;
     applyM220M221 := applyM220M221 r;
     usePressureAdvance := usePressureAdvance r;
     canPauseAfter := canPauseAfter r;
     hasPositiveExtrusion := hasPositiveExtrusion r;
     isCoordinated := isCoordinated r;
     checkEndstops := checkEndstops r;
     reduceAcceleration := reduceAcceleration r;
     linearAxesMentioned := linearAxesMentioned r;
     rotationalAxesMentioned := rotationalAxesMentioned r;
     laserPwm := laserPwm r |}.

Definition set_moveType (v : Z) (r : RawMove) : RawMove :=
  {| coords := coords r;
     initialUserC0 := initialUserC0 r;
     initialUserC1 := initialUserC1 r;
     feedRate := feedRate r;
     filePos := filePos r;
     proportionDone := proportionDone r;
     cosXyAngle := cosXyAngle r;
     tool := tool r;
     moveType := v;
     applyM220M221 := applyM220M221 r;
     usePressureAdvance := usePressureAdvance r;
     canPauseAfter := canPauseAfter r;
     hasPositiveExtrusion := hasPositiveExtrusion r;
     isCoordinated := isCoordinated r;
     checkEndstops := checkEndstops r;
     reduceAcceleration := reduceAcceleration r;
     linearAxesMentioned := linearAxesMentioned r;
     rotationalAxesMentioned := rotationalAxesMentioned r;
     laserPwm := laserPwm r |}.

Definition set_applyM220M221 (v : bool) (r : RawMove) : RawMove :=
  {| coords := coords r;
     initialUserC0 := initialUserC0 r;
     initialUserC1 := initialUserC1 r;
     feedRate := feedRate r;
     filePos := filePos r;
     proportionDone := proportionDone r;
     cosXyAngle := cosXyAngle r;
     tool := tool r;
     moveType := moveType r;
     applyM220M221 := v;
     usePressureAdvance := usePressureAdvance r;
     canPauseAfter := canPauseAfter r;
     hasPositiveExtrusion := hasPositiveExtrusion r;
     isCoordinated := isCoordinated r;
     checkEndstops := checkEndstops r;
     reduceAcceleration := reduceAcceleration r;
     linearAxesMentioned := linearAxesMentioned r;
     rotationalAxesMentioned := rotationalAxesMentioned r;
     laserPwm := laserPwm r |}.

Definition set_usePressureAdvance (v : bool) (r : RawMove) : RawMove :=
  {| coords := coords r;
     initialUserC0 := initialUserC0 r;
     initialUserC1 := initialUserC1 r;
     feedRate := feedRate r;
     filePos := filePos r;
     proportionDone := proportionDone r;
     cosXyAngle := cosXyAngle r;
     tool := tool r;
     moveType := moveType r;
     applyM220M221 := applyM220M221 r;
     usePressureAdvance := v;
     canPauseAfter := canPauseAfter r;
     hasPositiveExtrusion := hasPositiveExtrusion r;
     isCoordinated := isCoordinated r;
     checkEndstops := checkEndstops r;
     reduceAcceleration := reduceAcceleration r;
     linearAxesMentioned := linearAxesMentioned r;
     rotationalAxesMentioned := rotationalAxesMentioned r;
     laserPwm := laserPwm r |}.

Definition set_canPauseAfter (v : bool) (r : RawMove) : RawMove :=
  {| coords := coords r;
     initialUserC0 := initialUserC0 r;
     initialUserC1 := initialUserC1 r;
     feedRate := feedRate r;
     filePos := filePos r;
     proportionDone := proportionDone r;
     cosXyAngle := cosXyAngle r;
     tool := tool r;
     moveType := moveType r;
     applyM220M221 := applyM220M221 r;
     usePressureAdvance := usePressureAdvance r;
     canPauseAfter := v;
     hasPositiveExtrusion := hasPositiveExtrusion r;
     isCoordinated := isCoordinated r;
     checkEndstops := checkEndstops r;
     reduceAcceleration := reduceAcceleration r;
     linearAxesMentioned := linearAxesMentioned r;
     rotationalAxesMentioned := rotationalAxesMentioned r;
     laserPwm := laserPwm r |}.

Definition set_isCoordinated (v : bool) (r : RawMove) : RawMove :=
  {| coords := coords r;
     initialUserC0 := initialUserC0 r;
     initialUserC1 := initialUserC1 r;
     feedRate := feedRate r;
     filePos := filePos r;
     proportionDone := proportionDone r;
     cosXyAngle := cosXyAngle r;
     tool := tool r;
     moveType := moveType r;
     applyM220M221 := applyM220M221 r;
     usePressureAdvance := usePressureAdvance r;
     canPauseAfter := canPauseAfter r;
     hasPositiveExtrusion := hasPositiveExtrusion r;
     isCoordinated := v;
     checkEndstops := checkEndstops r;
     reduceAcceleration := reduceAcceleration r;
     linearAxesMentioned := linearAxesMentioned r;
     rotationalAxesMentioned := rotationalAxesMentioned r;
     laserPwm := laserPwm r |}.

Definition set_checkEndstops (v : bool) (r : RawMove) : RawMove :=
  {| coords := coords r;
     initialUserC0 := initialUserC0 r;
     initialUserC1 := initialUserC1 r;
     feedRate := feedRate r;
     filePos := filePos r;
     proportionDone := proportionDone r;
     cosXyAngle := cosXyAngle r;
     tool := tool r;
     moveType := moveType r;
     applyM220M221 := applyM220M221 r;
     usePressureAdvance := usePressureAdvance r;
     canPauseAfter := canPauseAfter r;
     hasPositiveExtrusion := hasPositiveExtrusion r;
     isCoordinated := isCoordinated r;
     checkEndstops := v;
     reduceAcceleration := reduceAcceleration r;
     linearAxesMentioned := linearAxesMentioned r;
     rotationalAxesMentioned := rotationalAxesMentioned r;
     laserPwm := laserPwm r |}.

Definition set_reduceAcceleration (v : bool) (r : RawMove) : RawMove :=
  {| coords := coords r;
     initialUserC0 := initialUserC0 r;
     initialUserC1 := initialUserC1 r;
     feedRate := feedRate r;
     filePos := filePos r;
     proportionDone := proportionDone r;
     cosXyAngle := cosXyAngle r;
     tool := tool r;
     moveType := moveType r;
     applyM220M221 := applyM220M221 r;
     usePressureAdvance := usePressureAdvance r;
     canPauseAfter := canPauseAfter r;
     hasPositiveExtrusion := hasPositiveExtrusion r;
     isCoordinated := isCoordinated r;
     checkEndstops := checkEndstops r;
     reduceAcceleration := v;
     linearAxesMentioned := linearAxesMentioned r;
     rotationalAxesMentioned := rotationalAxesMentioned r;
     laserPwm := laserPwm r |}.

Definition set_linearAxesMentioned (v : bool) (r : RawMove) : RawMove :=
  {| coords := coords r;
     initialUserC0 := initialUserC0 r;
     initialUserC1 := initialUserC1 r;
     feedRate := feedRate r;
     filePos := filePos r;
     proportionDone := proportionDone r;
     cosXyAngle := cosXyAngle r;
     tool := tool r;
     moveType := moveType r;
     applyM220M221 := applyM220M221 r;
     usePressureAdvance := usePressureAdvance r;
     canPauseAfter := canPauseAfter r;
     hasPositiveExtrusion := hasPositiveExtrusion r;
     isCoordinated := isCoordinated r;
     checkEndstops := checkEndstops r;
     reduceAcceleration := reduceAcceleration r;
     linearAxesMentioned := v;
     rotationalAxesMentioned := rotationalAxesMentioned r;
     laserPwm := laserPwm r |}.

Definition set_rotationalAxesMentioned (v : bool) (r : RawMove) : RawMove :=
  {| coords := coords r;
     initialUserC0 := initialUserC0 r;
     initialUserC1 := initialUserC1 r;
     feedRate := feedRate r;
     filePos := filePos r;
     proportionDone := proportionDone r;
     cosXyAngle := cosXyAngle r;
     tool := tool r;
     moveType := moveType r;
     applyM220M221 := applyM220M221 r;
     usePressureAdvance := usePressureAdvance r;
     canPauseAfter := canPauseAfter r;
     hasPositiveExtrusion := hasPositiveExtrusion r;
     isCoordinated := isCoordinated r;
     checkEndstops := checkEndstops r;
     reduceAcceleration := reduceAcceleration r;
     linearAxesMentioned := linearAxesMentioned r;
     rotationalAxesMentioned := v;
     laserPwm := laserPwm r |}.

Definition set_raw (v : RawMove) (m : MoveState) : MoveState :=
  {| raw := v;
     currentUserPosition := currentUserPosition m;
     initialCoords := initialCoords m;
     doingArcMove := doingArcMove m;
     arc := arc m;
     segMoveState := segMoveState m;
     totalSegments := totalSegments m;
     segmentsLeft := segmentsLeft m |}.

Definition set_currentUserPosition (v : list float) (m : MoveState) : MoveState :=
  {| raw := raw m;
     currentUserPosition := v;
     initialCoords := initialCoords m;
     doingArcMove := doingArcMove m;
     arc := arc m;
     segMoveState := segMoveState m;
     totalSegments := totalSegments m;
     segmentsLeft := segmentsLeft m |}.

Definition set_initialCoords (v : list float) (m : MoveState) : MoveState :=
  {| raw := raw m;
     currentUserPosition := currentUserPosition m;
     initialCoords := v;
     doingArcMove := doingArcMove m;
     arc := arc m;
     segMoveState := segMoveState m;
     totalSegments := totalSegments m;
     segmentsLeft := segmentsLeft m |}.

Definition set_doingArcMove (v : bool) (m : MoveState) : MoveState :=
  {| raw := raw m;
     currentUserPosition := currentUserPosition m;
     initialCoords := initialCoords m;
     doingArcMove := v;
     arc := arc m;
     segMoveState := segMoveState m;
     totalSegments := totalSegments m;
     segmentsLeft := segmentsLeft m |}.

Definition set_arc (v : ArcState) (m : MoveState) : MoveState :=
  {| raw := raw m;
     currentUserPosition := currentUserPosition m;
     initialCoords := initialCoords m;
     doingArcMove := doingArcMove m;
     arc := v;
     segMoveState := segMoveState m;
     totalSegments := totalSegments m;
     segmentsLeft := segmentsLeft m |}.

Definition set_segMoveState (v : SegmentedMoveState) (m : MoveState) : MoveState :=
  {| raw := raw m;
     currentUserPosition := currentUserPosition m;
     initialCoords := initialCoords m;
     doingArcMove := doingArcMove m;
     arc := arc m;
     segMoveState := v;
     totalSegments := totalSegments m;
     segmentsLeft := segmentsLeft m |}.

Definition set_totalSegments (v : Z) (m : MoveState) : MoveState :=
  {| raw := raw m;
     currentUserPosition := currentUserPosition m;
     initialCoords := initialCoords m;
     doingArcMove := doingArcMove m;
     arc := arc m;
     segMoveState := segMoveState m;
     totalSegments := v;
     segmentsLeft := segmentsLeft m |}.

Definition set_segmentsLeft (v : Z) (m : MoveState) : MoveState :=
  {| raw := raw m;
     currentUserPosition := currentUserPosition m;
     initialCoords := initialCoords m;
     doingArcMove := doingArcMove m;
     arc := arc m;
     segMoveState := segMoveState m;
     totalSegments := totalSegments m;
     segmentsLeft := v |}.

Definition with_moveState (v : MoveState) (s : GCodes) : GCodes :=
  {| moveState := v;
     segmentsLeftToStartAt := segmentsLeftToStartAt s;
     firstSegmentFractionToSkip := firstSegmentFractionToSkip s;
     moveFractionToSkip := moveFractionToSkip s;
     restartInitialUserC0 := restartInitialUserC0 s;
     restartInitialUserC1 := restartInitialUserC1 s;
     locks := locks s;
     gbState := gbState s;
     updateUserPositionGb := updateUserPositionGb s;
     firstMoveSincePrintingResumed := firstMoveSincePrintingResumed s;
     currentObjectCancelled := currentObjectCancelled s |}.

Definition with_segmentsLeftToStartAt (v : Z) (s : GCodes) : GCodes :=
  {| moveState := moveState s;
     segmentsLeftToStartAt := v;
     firstSegmentFractionToSkip := firstSegmentFractionToSkip s;
     moveFractionToSkip := moveFractionToSkip s;
     restartInitialUserC0 := restartInitialUserC0 s;
     restartInitialUserC1 := restartInitialUserC1 s;
     locks := locks s;
     gbState := gbState s;
     updateUserPositionGb := updateUserPositionGb s;
     firstMoveSincePrintingResumed := firstMoveSincePrintingResumed s;
     currentObjectCancelled := currentObjectCancelled s |}.

Definition with_firstSegmentFractionToSkip (v : float) (s : GCodes) : GCodes :=
  {| moveState := moveState s;
     segmentsLeftToStartAt := segmentsLeftToStartAt s;
     firstSegmentFractionToSkip := v;
     moveFractionToSkip := moveFractionToSkip s;
     restartInitialUserC0 := restartInitialUserC0 s;
     restartInitialUserC1 := restartInitialUserC1 s;
     locks := locks s;
     gbState := gbState s;
     updateUserPositionGb := updateUserPositionGb s;
     firstMoveSincePrintingResumed := firstMoveSincePrintingResumed s;
     currentObjectCancelled := currentObjectCancelled s |}.

Definition with_moveFractionToSkip (v : float) (s : GCodes) : GCodes :=
  {| moveState := moveState s;
     segmentsLeftToStartAt := segmentsLeftToStartAt s;
     firstSegmentFractionToSkip := firstSegmentFractionToSkip s;
     moveFractionToSkip := v;
     restartInitialUserC0 := restartInitialUserC0 s;
     restartInitialUserC1 := restartInitialUserC1 s;
     locks := locks s;
     gbState := gbState s;
     updateUserPositionGb := updateUserPositionGb s;
     firstMoveSincePrintingResumed := firstMoveSincePrintingResumed s;
     currentObjectCancelled := currentObjectCancelled s |}.

Definition with_locks (v : LockState) (s : GCodes) : GCodes :=
  {| moveState := moveState s;
     segmentsLeftToStartAt := segmentsLeftToStartAt s;
     firstSegmentFractionToSkip := firstSegmentFractionToSkip s;
     moveFractionToSkip := moveFractionToSkip s;
     restartInitialUserC0 := restartInitialUserC0 s;
     restartInitialUserC1 := restartInitialUserC1 s;
     locks := v;
     gbState := gbState s;
     updateUserPositionGb := updateUserPositionGb s;
     firstMoveSincePrintingResumed := firstMoveSincePrintingResumed s;
     currentObjectCancelled := currentObjectCancelled s |}.

Definition with_gbState (v : Channel -> GCodeState) (s : GCodes) : GCodes :=
  {| moveState := moveState s;
     segmentsLeftToStartAt := segmentsLeftToStartAt s;
     firstSegmentFractionToSkip := firstSegmentFractionToSkip s;
     moveFractionToSkip := moveFractionToSkip s;
     restartInitialUserC0 := restartInitialUserC0 s;
     restartInitialUserC1 := restartInitialUserC1 s;
     locks := locks s;
     gbState := v;
     updateUserPositionGb := updateUserPositionGb s;
     firstMoveSincePrintingResumed := firstMoveSincePrintingResumed s;
     currentObjectCancelled := currentObjectCancelled s |}.

Definition with_updateUserPositionGb (v : option Channel) (s : GCodes) : GCodes :=
  {| moveState := moveState s;
     segmentsLeftToStartAt := segmentsLeftToStartAt s;
     firstSegmentFractionToSkip := firstSegmentFractionToSkip s;
     moveFractionToSkip := moveFractionToSkip s;
     restartInitialUserC0 := restartInitialUserC0 s;
     restartInitialUserC1 := restartInitialUserC1 s;
     locks := locks s;
     gbState := gbState s;
     updateUserPositionGb := v;
     firstMoveSincePrintingResumed := firstMoveSincePrintingResumed s;
     currentObjectCancelled := currentObjectCancelled s |}.

Definition with_firstMoveSincePrintingResumed (v : bool) (s : GCodes) : GCodes :=
  {| moveState := moveState s;
     segmentsLeftToStartAt := segmentsLeftToStartAt s;
     firstSegmentFractionToSkip := firstSegmentFractionToSkip s;
     moveFractionToSkip := moveFractionToSkip s;
     restartInitialUserC0 := restartInitialUserC0 s;
     restartInitialUserC1 := restartInitialUserC1 s;
     locks := locks s;
     gbState := gbState s;
     updateUserPositionGb := updateUserPositionGb s;
     firstMoveSincePrintingResumed := v;
     currentObjectCancelled := currentObjectCancelled s |}.


(** Configuration and collaborators: what the modelled code obtains from
    the platform, the kinematics, the Move task, the tool list, the C
    library and headers that are not among the sources. *)
Record Env := mkEnv {
  numVisibleAxes : nat;
  numExtruders : nat;
  ExtruderToLogicalDrive : nat -> nat;
  fileGCode : Channel;
  queuedGCode : Channel;
  GetFilePosition : Channel -> Z;              (* gb.GetFilePosition() *)
  machineType : MachineType;
  simulationMode : SimulationMode;
  axesVirtuallyHomed : AxesBitmap;
  currentTool : option nat;                    (* reprap.GetCurrentTool() *)
  (* kinematics: LimitPosition(coords, initialCoords, numVisibleAxes,
     axesHomed, isCoordinated, limitAxes) gives its verdict and the
     possibly adjusted coords *)
  LimitPosition : list float -> option (list float) -> AxesBitmap -> bool
                  -> LimitPositionResult * list float;
  (* the Move task *)
  WaitingForAllMovesFinished : bool;
  IsCodeQueueIdle : bool;
  inMainTask : bool;                           (* GetCurrentTask() == GetMainTask() *)
  MoveGetCurrentUserPosition : list float -> Z -> list float;
  (* coordinate transforms, which depend on the tool list *)
  ToolOffsetTransform : list float -> list float -> option AxesBitmap -> list float;
  ToolOffsetInverseTransform : list float -> list float -> list float;
  coordinateRotation : Channel -> bool;        (* g68Angle != 0.0 && gb.DoingCoordinateRotation() *)
  RotateCoordinates : bool -> list float -> list float;  (* true: by -g68Angle *)
  g68AngleRadians : float;                     (* g68Angle * DegreesToRadians *)
  GetAxisMapping : option nat -> nat -> AxesBitmap;
  axisScaleFactors : nat -> float;
  (* RawMove.h *)
  SetDefaults : MoveState -> MoveState;
  GetProportionDone : MoveState -> float;
  SegmentsPerFulArcCalculation : Z;
  (* C library *)
  sinf : float -> float;
  cosf : float -> float;
  atan2f : float -> float -> float;
  (* the kinematics: GetSegmentationType() and the segment limits *)
  useSegmentation : bool;
  useZSegmentation : bool;
  useG0Segmentation : bool;
  reciprocalMinSegmentLength : float;          (* GetReciprocalMinSegmentLength() *)
  segmentsPerSecond : float;                   (* GetSegmentsPerSecond() *)
  StepClockRate : Z;
  (* mesh bed compensation *)
  IsUsingMesh : bool;
  meshAxis0 : nat;                             (* grid.GetAxisNumber(0) *)
  meshAxis1 : nat;
  GetMinimumSegments : float -> float -> Z;    (* heightMap.GetMinimumSegments *)
  (* other members of GCodes and of the platform that the builders read *)
  doingManualBedProbe : bool;
  nanoDLP : Channel -> bool;                   (* compatibility == Compatibility::NanoDLP *)
  DoingFileMacro : bool;
  linearAxes : AxesBitmap;
  rotationalAxes : AxesBitmap;
  axisLetters : nat -> ascii;
  GetCurrentToolOffset : nat -> float;
  GetWorkplaceOffset : nat -> float;
  CheckEnoughAxesHomed : AxesBitmap -> bool;   (* true: insufficient axes homed *)
  GetCurrentAxisMapping : nat -> AxesBitmap;
  currentBabyStepOffsets : nat -> float;
  toolOffset : nat -> float;                   (* Tool::GetOffset(reprap.GetCurrentTool(), axis) *)
  LoadExtrusionAndFeedrateFromGCode : Channel -> bool -> RawMove -> option string * RawMove;
  laserPowerSticky : bool;
  startPointCoords : list float;               (* buildObjects.GetInitialPosition().moveCoords *)
  startPointFeedRate : float;
  (* Configuration.h *)
  MaxArcDeviation : float;
  MinArcSegmentsPerSec : float;
  MinArcSegmentLength : float;
  MaxArcSegmentLength : float
}.

(** *** Writes, in program order *)

(** The assignments made by the hand-off functions. *)
Inductive Update :=
| SetCanPauseAfter (b : bool)
| SetFilePos (p : Z)
| SetSegMoveState (x : SegmentedMoveState)
| SetCoord (i : nat) (v : float)
| SetTotalSegments (n : Z)
| SetSegmentsLeft (n : Z)
| SetDoingArcMove (b : bool)
| SetCheckEndstops (b : bool)
| SetReduceAcceleration (b : bool)
| SetMoveType (t : Z)
| SetApplyM220M221 (b : bool)
| SetSegmentsLeftToStartAt (n : Z)
| SetFirstSegmentFractionToSkip (x : float)
| SetMoveFractionToSkip (x : float)
| SetState (gb : Channel) (st : GCodeState).

(** What a function does, in program order: assignments, the memory
    barrier [__DMB()], and calls into collaborators. *)
Inductive Event :=
| EvWrite (u : Update)
| EvDMB
| EvMoveAvailable                 (* reprap.GetMove().MoveAvailable() *)
| EvMotionCommanded (gb : Channel)
| EvMotionStopped (gb : Channel)
| EvSetLaserPwm (v : Z).

Definition onRaw (f : RawMove -> RawMove) (s : GCodes) : GCodes :=
  with_moveState (set_raw (f (raw (moveState s))) (moveState s)) s.

Definition onMove (f : MoveState -> MoveState) (s : GCodes) : GCodes :=
  with_moveState (f (moveState s)) s.

Definition apply_update (u : Update) (s : GCodes) : GCodes :=
  match u with
  | SetCanPauseAfter b => onRaw (set_canPauseAfter b) s
  | SetFilePos p => onRaw (set_filePos p) s
  | SetSegMoveState x => onMove (set_segMoveState x) s
  | SetCoord i v => onRaw (fun r => set_coords (upd (coords r) i v) r) s
  | SetTotalSegments n => onMove (set_totalSegments n) s
  | SetSegmentsLeft n => onMove (set_segmentsLeft n) s
  | SetDoingArcMove b => onMove (set_doingArcMove b) s
  | SetCheckEndstops b => onRaw (set_checkEndstops b) s
  | SetReduceAcceleration b => onRaw (set_reduceAcceleration b) s
  | SetMoveType t => onRaw (set_moveType t) s
  | SetApplyM220M221 b => onRaw (set_applyM220M221 b) s
  | SetSegmentsLeftToStartAt n => with_segmentsLeftToStartAt n s
  | SetFirstSegmentFractionToSkip x => with_firstSegmentFractionToSkip x s
  | SetMoveFractionToSkip x => with_moveFractionToSkip x s
  | SetState gb st =>
      with_gbState (fun c => if Nat.eqb c gb then st else gbState s c) s
  end.

Definition apply_event (s : GCodes) (e : Event) : GCodes :=
  match e with
  | EvWrite u => apply_update u s
  | _ => s
  end.

(** The state reached from [s] once the events of [t] have happened. *)
Definition replay (t : list Event) (s : GCodes) : GCodes := fold_left apply_event t s.

Definition writesSegmentsLeft (e : Event) : bool :=
  match e with EvWrite (SetSegmentsLeft _) => true | _ => false end.

(** A computation reads and writes the state and logs what it does. *)
Definition M (A : Type) : Type := GCodes -> A * GCodes * list Event.

Definition ret {A} (a : A) : M A := fun s => (a, s, []).

Definition bind {A B} (c : M A) (k : A -> M B) : M B :=
  fun s =>
    let '(a, s1, t1) := c s in
    let '(b, s2, t2) := k a s1 in
    (b, s2, t1 ++ t2).

Definition get : M GCodes := fun s => (s, s, []).
Definition write (u : Update) : M unit := fun s => (tt, apply_update u s, [EvWrite u]).
Definition emit (e : Event) : M unit := fun s => (tt, s, [e]).
(** A change of state that is not among the logged assignments (the lock
    table, the user position). *)
Definition modify (f : GCodes -> GCodes) : M unit := fun s => (tt, f s, []).

Definition result {A} (x : A * GCodes * list Event) : A := fst (fst x).
Definition final {A} (x : A * GCodes * list Event) : GCodes := snd (fst x).
Definition trace {A} (x : A * GCodes * list Event) : list Event := snd x.

Declare Scope gcodes_scope.
Delimit Scope gcodes_scope with gcodes.
Notation "x <- c ;; k" := (bind c (fun x => k))
  (at level 100, c at next level, right associativity) : gcodes_scope.
Notation "c ;; k" := (bind c (fun _ => k))
  (at level 100, right associativity) : gcodes_scope.
Local Open Scope gcodes_scope.

(** [for (i in l) body(i)] *)
Fixpoint forM (l : list nat) (body : nat -> M unit) : M unit :=
  match l with
  | [] => ret tt
  | i :: rest => body i ;; forM rest body
  end.

(** *** Publishing a move (lines 2565-2598) *)

(** Lines 2565-2577. *)
Definition ClearMove : M unit :=
  write (SetSegmentsLeft 0) ;;
  write (SetSegMoveState inactive) ;;
  write (SetDoingArcMove false) ;;
  write (SetCheckEndstops false) ;;
  write (SetReduceAcceleration false) ;;
  write (SetMoveType 0) ;;
  write (SetApplyM220M221 false) ;;
  write (SetMoveFractionToSkip F32.zero).

(** Lines 2582-2588. *)
Definition NewSingleSegmentMoveAvailable : M unit :=
  write (SetTotalSegments 1) ;;
  emit EvDMB ;;
  write (SetSegmentsLeft 1) ;;
  emit EvMoveAvailable.

(** Lines 2592-2598. *)
Definition NewMoveAvailable : M unit :=
  s <- get ;;
  let sl := totalSegments (moveState s) in
  emit EvDMB ;;
  write (SetSegmentsLeft sl) ;;
  emit EvMoveAvailable.

(** Lines 2383-2429. *)
Definition FinaliseMove (env : Env) (gb : Channel) : M unit :=
  s <- get ;;
  write (SetCanPauseAfter (negb (checkEndstops (raw (moveState s)))
                           && negb (doingArcMove (moveState s)))) ;;
  write (SetFilePos (if Nat.eqb gb (fileGCode env)
                     then GetFilePosition env gb else noFilePosition)) ;;
  emit (EvMotionCommanded gb) ;;
  if currentObjectCancelled s then
    match machineType env with
    | laser => emit (EvSetLaserPwm 0)
    | _ => ret tt
    end
  else
    let n := totalSegments (moveState s) in
    if Z.ltb 1 n then
      write (SetSegMoveState active) ;;
      write (SetState gb waitingForSegmentedMoveToGo) ;;
      forM (seq 0 (numExtruders env)) (fun extruder =>
        s1 <- get ;;
        let d := ExtruderToLogicalDrive env extruder in
        write (SetCoord d (F32.div (at_ (coords (raw (moveState s1))) d) (F32.of_Z n)))) ;;
      if F32.neqb (moveFractionToSkip s) F32.zero then
        let prod := F32.mul (F32.of_Z n) (moveFractionToSkip s) in
        let fseg := F32.floorZ prod in
        write (SetSegmentsLeftToStartAt (u32 (n - u32 fseg))) ;;
        write (SetFirstSegmentFractionToSkip
                 (F32.sub (F32.mul (moveFractionToSkip s) (F32.of_Z n)) (F32.of_Z fseg))) ;;
        NewMoveAvailable
      else
        write (SetSegmentsLeftToStartAt n) ;;
        write (SetFirstSegmentFractionToSkip (moveFractionToSkip s)) ;;
        NewMoveAvailable
    else
      write (SetSegMoveState inactive) ;;
      write (SetSegmentsLeftToStartAt n) ;;
      write (SetFirstSegmentFractionToSkip (moveFractionToSkip s)) ;;
      NewMoveAvailable.

(** Lines 4142-4152. *)
Definition UpdateCurrentUserPosition (env : Env) (gb : Channel) (m : MoveState) : MoveState :=
  let cs := MoveGetCurrentUserPosition env (coords (raw m)) 0 in
  let m1 := set_raw (set_coords cs (raw m)) m in
  let up := ToolOffsetInverseTransform env cs (currentUserPosition m1) in
  let up' := if coordinateRotation env gb then RotateCoordinates env true up else up in
  set_currentUserPosition up' m1.

(** Lines 1411-1449. *)
Definition LockMovementAndWaitForStandstill (env : Env) (gb : Channel) : M bool :=
  s <- get ;;
  let lk := LockMovement gb (locks s) in
  modify (with_locks (snd lk)) ;;
  if negb (fst lk) then ret false
  else if negb (Z.eqb (segmentsLeft (moveState s)) 0) then ret false
  else if negb (WaitingForAllMovesFinished env) then ret false
  else if negb (Nat.eqb gb (queuedGCode env)) && negb (IsCodeQueueIdle env) then ret false
  else
    emit (EvMotionStopped gb) ;;
    (if inMainTask env
     then modify (onMove (UpdateCurrentUserPosition env gb))
     else modify (with_updateUserPositionGb (Some gb))) ;;
    ret true.

(** *** Taking segments (lines 2453-2563) *)

(** Lines 2470-2473 and 2551-2554: the extrusion of the segment is reduced
    by the fraction to be skipped; [1.0 - firstSegmentFractionToSkip] is a
    [double]. *)
Definition skipExtrusion (env : Env) (fraction : float) (cs : list float) : list float :=
  fold_left
    (fun cs extruder =>
       let d := ExtruderToLogicalDrive env extruder in
       upd cs d (F64.to_float
                   (F64.mul (F64.of_float (at_ cs d))
                            (F64.sub F64.one (F64.of_float fraction)))))
    (seq 0 (numExtruders env)) cs.

(** Lines 2487-2509: the angle of the next arc segment. *)
Definition nextArcAngle (env : Env) (m : MoveState) : MoveState :=
  if doingArcMove m then
    let a := arc m in
    let angle := F32.add (arcCurrentAngle a) (arcAngleIncrement a) in
    let full := Z.eqb (segmentsTillNextFullCalc a) 0 in
    let newCosine :=
      if full then cosf env angle
      else F32.sub (F32.mul (currentAngleCosine a) (angleIncrementCosine a))
                   (F32.mul (currentAngleSine a) (angleIncrementSine a)) in
    let newSine :=
      if full then sinf env angle
      else F32.add (F32.mul (currentAngleSine a) (angleIncrementCosine a))
                   (F32.mul (currentAngleCosine a) (angleIncrementSine a)) in
    let a' :=
      {| arcCentre := arcCentre a;
         arcRadius := arcRadius a;
         arcCurrentAngle := angle;
         currentAngleSine := newSine;
         currentAngleCosine := newCosine;
         arcAngleIncrement := arcAngleIncrement a;
         angleIncrementSine := angleIncrementSine a;
         angleIncrementCosine := angleIncrementCosine a;
         segmentsTillNextFullCalc :=
           if full then SegmentsPerFulArcCalculation env
           else u32 (segmentsTillNextFullCalc a - 1);
         arcAxis0 := arcAxis0 a;
         arcAxis1 := arcAxis1 a;
         xyPlane := xyPlane a |} in
    set_raw (set_cosXyAngle
               (if xyPlane a then angleIncrementCosine a else F32.of_Z 1) (raw m))
            (set_arc a' m)
  else m.

(** Lines 2511-2530: the loop over the visible axes; it advances
    [moveState.initialCoords] and fills the coordinates of the copy [m]. *)
Definition segmentEndpoint (env : Env) (m : MoveState) (ic_mc : list float * list float)
    (drive : nat) : list float * list float :=
  let '(ic, mc) := ic_mc in
  let a := arc m in
  let axisMap0 := GetAxisMapping env (tool (raw m)) (arcAxis0 a) in
  let axisMap1 := GetAxisMapping env (tool (raw m)) (arcAxis1 a) in
  let v :=
    if doingArcMove m && IsBitSet axisMap1 drive then
      F32.add (at_ (arcCentre a) drive)
              (F32.mul (F32.mul (arcRadius a) (axisScaleFactors env drive)) (currentAngleSine a))
    else if doingArcMove m && IsBitSet axisMap0 drive then
      F32.add (at_ (arcCentre a) drive)
              (F32.mul (F32.mul (arcRadius a) (axisScaleFactors env drive)) (currentAngleCosine a))
    else
      let movementToDo :=
        F32.div (F32.sub (at_ (coords (raw m)) drive) (at_ ic drive))
                (F32.of_Z (segmentsLeft m)) in
      F32.add (at_ ic drive) movementToDo in
  (upd ic drive v, upd mc drive v).

(** One pass through the body of [while (true)]; [fuel] bounds the number
    of passes that end in [continue]. *)
Fixpoint ReadMove_loop (env : Env) (fuel : nat) (s : GCodes) : option RawMove * GCodes :=
  let ms := moveState s in
  let m := raw ms in                                   (* m = moveState *)
  if Z.eqb (segmentsLeft ms) 1 then
    let m1 :=
      if Z.eqb (segmentsLeftToStartAt s) 1 && F32.neqb (firstSegmentFractionToSkip s) F32.zero
      then set_coords (skipExtrusion env (firstSegmentFractionToSkip s) (coords m)) m
      else m in
    let m2 := set_proportionDone (F32.of_Z 1) m1 in
    let m3 := if doingArcMove ms then set_canPauseAfter true m2 else m2 in
    (Some m3, final (ClearMove s))
  else
    let ms1 := nextArcAngle env ms in
    let '(ic, mc) :=
      fold_left (segmentEndpoint env ms1) (seq 0 (numVisibleAxes env))
                (initialCoords ms1, coords m) in
    let ms2 := set_initialCoords ic ms1 in
    if Z.ltb (segmentsLeftToStartAt s) (segmentsLeft ms2) then
      (* this segment was printed before the pause: skip it *)
      let s' := with_moveState (set_segmentsLeft (u32 (segmentsLeft ms2 - 1)) ms2) s in
      match fuel with
      | O => (None, s')
      | S fuel' => ReadMove_loop env fuel' s'
      end
    else
      let '(lp, mc') := LimitPosition env mc None (axesVirtuallyHomed env) true in
      match lp with
      | lpOk =>
          let mc'' :=
            if Z.eqb (segmentsLeftToStartAt s) (segmentsLeft ms2)
               && F32.neqb (firstSegmentFractionToSkip s) F32.zero
            then skipExtrusion env (firstSegmentFractionToSkip s) mc'
            else mc' in
          let ms3 := set_segmentsLeft (u32 (segmentsLeft ms2 - 1)) ms2 in
          (Some (set_proportionDone (GetProportionDone env ms3) (set_coords mc'' m)),
           with_moveState ms3 s)
      | _ =>
          (None,
           with_moveState
             (set_segmentsLeft 0 (set_doingArcMove false (set_segMoveState aborted ms2))) s)
      end.

(** Lines 2453-2563.  [None] is the result [false]: nothing was copied. *)
Definition ReadMove (env : Env) (s : GCodes) : option RawMove * GCodes :=
  if Z.eqb (segmentsLeft (moveState s)) 0 then (None, s)
  else ReadMove_loop env (Z.to_nat (segmentsLeft (moveState s))) s.

(** *** Properties of computations, used to state the theorems *)

(** The final state of [c] is what its logged assignments produce, and
    every event it logs satisfies [P]. *)
Definition logsOnly {A} (P : Event -> bool) (c : M A) : Prop :=
  forall s, final (c s) = replay (trace (c s)) s
            /\ forallb P (trace (c s)) = true.

(** Events that leave the segment counters alone. *)
Definition keepsCounters (e : Event) : bool :=
  match e with
  | EvWrite (SetSegmentsLeft _) | EvWrite (SetTotalSegments _) => false
  | _ => true
  end.

(** Events that leave [canPauseAfter], [doingArcMove] and [checkEndstops]
    alone. *)
Definition keepsPauseFlags (e : Event) : bool :=
  match e with
  | EvWrite (SetCanPauseAfter _) | EvWrite (SetDoingArcMove _)
  | EvWrite (SetCheckEndstops _) => false
  | _ => true
  end.

(** A move of an arc is in flight: what [FinaliseMove] leaves behind for an
    arc, and what [ReadMove] keeps until the last segment has been taken. *)
Definition ArcInFlight (s : GCodes) : Prop :=
  doingArcMove (moveState s) = true
  /\ canPauseAfter (raw (moveState s)) = false
  /\ (1 <= segmentsLeft (moveState s) < 4294967296)%Z.

(** [c] ends by publishing [n] segments: everything it logs before the
    barrier leaves the segment counters alone, and the barrier, the
    assignment to [segmentsLeft] and the notification of the Move task are
    the last three things it does. *)
Definition Publishes {A} (n : Z) (c : M A) : Prop :=
  forall s, totalSegments (moveState s) = n ->
    exists pre,
      forallb keepsCounters pre = true
      /\ trace (c s) = pre ++ [EvDMB; EvWrite (SetSegmentsLeft n); EvMoveAvailable]
      /\ final (c s) = replay (trace (c s)) s.

(** What [ReadMove] may answer while an arc is in flight in [s0]: the copy
    of the last segment, which allows a pause, with nothing left in flight;
    or the copy of an earlier segment, which forbids a pause, with the arc
    still in flight and fewer segments left; or nothing, the move having
    been aborted. *)
Definition arcOutcome (s0 : GCodes) (r : option RawMove * GCodes) : Prop :=
  match r with
  | (Some m, s') =>
      (segmentsLeft (moveState s') = 0%Z /\ canPauseAfter m = true)
      \/ (ArcInFlight s'
          /\ (segmentsLeft (moveState s') < segmentsLeft (moveState s0))%Z
          /\ canPauseAfter m = false)
  | (None, s') =>
      segMoveState (moveState s') = aborted /\ segmentsLeft (moveState s') = 0%Z
  end.

(** Events that leave [totalSegments] alone. *)
Definition keepsTotal (e : Event) : bool :=
  match e with
  | EvWrite (SetTotalSegments _) => false
  | _ => true
  end.

(** What [ReadMove] may answer while a move is in flight in [s0]: a copy
    of the move record for the next segment to execute, with fewer segments
    left, none of them a segment that was printed before a pause; or
    nothing, the move having been aborted and dropped. *)
Definition readOutcome (s0 : GCodes) (r : option RawMove * GCodes) : Prop :=
  match r with
  | (Some m, s') =>
      (0 <= segmentsLeft (moveState s') < segmentsLeft (moveState s0))%Z
      /\ (segmentsLeft (moveState s') < Z.max 1 (segmentsLeftToStartAt s0))%Z
      /\ feedRate m = feedRate (raw (moveState s0))
      /\ filePos m = filePos (raw (moveState s0))
      /\ moveType m = moveType (raw (moveState s0))
      /\ (doingArcMove (moveState s0) = false ->
          canPauseAfter m = canPauseAfter (raw (moveState s0)))
  | (None, s') =>
      segMoveState (moveState s') = aborted
      /\ segmentsLeft (moveState s') = 0%Z
      /\ doingArcMove (moveState s') = false
  end.

(** The Move task taking segments until none is left, at most [fuel]
    times: the copies it was given, and the state it leaves. *)
Fixpoint drain (env : Env) (fuel : nat) (s : GCodes) : list RawMove * GCodes :=
  match fuel with
  | O => ([], s)
  | S fuel' =>
      match ReadMove env s with
      | (Some m, s') =>
          let '(ms, s'') := drain env fuel' s' in (m :: ms, s'')
      | (None, s') => ([], s')
      end
  end.

(** What [ReadMove] keeps of the move while handing out segments: the
    commanded end point in [moveState.coords] and the fraction to skip;
    and what the copy of the last segment holds. *)
Definition readKeeps (s0 : GCodes) (r : option RawMove * GCodes) : Prop :=
  match r with
  | (Some m, s') =>
      coords (raw (moveState s')) = coords (raw (moveState s0))
      /\ firstSegmentFractionToSkip s' = firstSegmentFractionToSkip s0
      /\ (segmentsLeft (moveState s') = 0%Z ->
          segMoveState (moveState s') = inactive
          /\ proportionDone m = F32.of_Z 1
          /\ (F32.neqb (firstSegmentFractionToSkip s0) F32.zero = false ->
              coords m = coords (raw (moveState s0))))
  | (None, s') => segMoveState (moveState s') = aborted
  end.

(** The only events of a move that is dropped because its object has been
    cancelled: the pause flag and file position of the move record, the
    note that motion was commanded, and the laser being turned off. *)
Definition droppedMoveEvent (e : Event) : bool :=
  match e with
  | EvWrite (SetCanPauseAfter _) | EvWrite (SetFilePos _)
  | EvMotionCommanded _ | EvSetLaserPwm _ => true
  | _ => false
  end.

(** The fields by which the Move task and the pause logic see a move:
    a computation that fails must leave them as they were. *)
Definition sameMoveInFlight (s s' : GCodes) : Prop :=
  segmentsLeft (moveState s') = segmentsLeft (moveState s)
  /\ totalSegments (moveState s') = totalSegments (moveState s)
  /\ doingArcMove (moveState s') = doingArcMove (moveState s)
  /\ segMoveState (moveState s') = segMoveState (moveState s)
  /\ locks s' = locks s
  /\ gbState s' = gbState s.

(** *** Straight moves (DoStraightMove, lines 1885-2021) *)

(** How a move command ends: [return false] (call again), [return true]
    with [err] set, or [return true] with [err == nullptr]. *)
Inductive MoveOutcome :=
| NotFinished
| MoveError (err : string)
| MoveQueued.

(** What lines 1652-1883 of [DoStraightMove] have established when the
    move is set up: the axes the command mentions and the user position
    saved at line 1766.  The move type, the coordination flag, the new user
    position, the extrusion and the feed rate are in [moveState] by then. *)
Record StraightMove := mkStraightMove {
  axesMentioned : AxesBitmap;
  initialUserPosition : list float
}.

Definition IsEmpty (b : N) : bool := N.eqb b 0.
Definition IsNonEmpty (b : N) : bool := negb (N.eqb b 0).
Definition Intersects (a b : N) : bool := negb (N.eqb (N.land a b) 0).

(** Lines 1919-1959: the position-limit check and its two recovery tries.
    Gives the error, if any, and the move record as the check leaves it:
    with the limited coordinates, the user position made to reflect them,
    and the coordination flag. *)
Definition limitStraightMove (env : Env) (ms : MoveState) : option string * MoveState :=
  let effectiveAxesHomed :=
    if doingManualBedProbe env then ClearBit (axesVirtuallyHomed env) Z_AXIS
    else axesVirtuallyHomed env in
  let '(lp, cs) :=
    LimitPosition env (coords (raw ms)) (Some (initialCoords ms)) effectiveAxesHomed
                  (isCoordinated (raw ms)) in
  let ms1 := set_raw (set_coords cs (raw ms)) ms in
  let unreachable := Some "G0/G1: target position not reachable from current position"%string in
  let retryUncoordinated (m : MoveState) : option string * MoveState :=
    let r := raw m in
    if isCoordinated r
       && (match machineType env with
           | fff => negb (hasPositiveExtrusion r)
           | laser => Z.eqb (laserPwm r) 0
           | cnc => false
           end)
    then
      let '(lp2, cs2) :=
        LimitPosition env (coords r) (Some (initialCoords m)) effectiveAxesHomed false in
      let m2 := set_raw (set_coords cs2 r) m in
      match lp2 with
      | lpOk => (None, set_raw (set_isCoordinated false (raw m2)) m2)
      | _ => (unreachable, m2)
      end
    else (unreachable, m) in
  let adjusted (andUnreachable : bool) : option string * MoveState :=
    match machineType env with
    | fff =>
        let ms2 :=
          set_currentUserPosition
            (ToolOffsetInverseTransform env (coords (raw ms1)) (currentUserPosition ms1)) ms1 in
        if andUnreachable then retryUncoordinated ms2 else (None, ms2)
    | _ => (Some "G0/G1: target position outside machine limits"%string, ms1)
    end in
  match lp with
  | lpAdjusted => adjusted false
  | lpAdjustedAndIntermediateUnreachable => adjusted true
  | lpIntermediateUnreachable => retryUncoordinated ms1
  | lpOk => (None, ms1)
  end.

(** Lines 1983-1988. *)
Definition straightMoveLength (env : Env) (sm : StraightMove) (ms : MoveState) : float :=
  let d (axis : nat) :=
    F32.fsquare (F32.sub (at_ (currentUserPosition ms) axis)
                         (at_ (initialUserPosition sm) axis)) in
  let xy := F32.add (d X_AXIS) (d Y_AXIS) in
  F32.fastSqrtf (if useZSegmentation env then F32.add xy (d Z_AXIS) else xy).

(** Lines 1978-1995: the segments the kinematics asks for. *)
Definition kinematicsSegments (env : Env) (sm : StraightMove) (ms : MoveState) : Z :=
  let r := raw ms in
  if useSegmentation env
     && (match simulationMode env with simNormal => false | _ => true end)
     && (hasPositiveExtrusion r || isCoordinated r || useG0Segmentation env)
  then
    let moveLength := straightMoveLength env sm ms in
    let moveTime :=
      F32.div moveLength (F32.mul (feedRate r) (F32.of_Z (StepClockRate env))) in
    u32 (Z.max 1 (F32.lrintf
                    (F32.fmin (F32.mul moveLength (reciprocalMinSegmentLength env))
                              (F32.mul moveTime (segmentsPerSecond env)))))
  else 1%Z.

(** Lines 1996-2011: the segments the mesh asks for, if more. *)
Definition meshSegments (env : Env) (sm : StraightMove) (ms : MoveState) (n : Z) : Z :=
  if IsUsingMesh env
     && (isCoordinated (raw ms) || match machineType env with fff => true | _ => false end)
  then
    let d (axis : nat) :=
      F32.sub (at_ (currentUserPosition ms) axis) (at_ (initialUserPosition sm) axis) in
    let minMeshSegments :=
      Z.max 1 (GetMinimumSegments env (d (meshAxis0 env)) (d (meshAxis1 env))) in
    if Z.ltb n minMeshSegments then minMeshSegments else n
  else n.

(** Lines 2014-2020: the end of the function, common to all three cases. *)
Definition finishStraightMove (env : Env) (gb : Channel) (sm : StraightMove) : M MoveOutcome :=
  write (SetDoingArcMove false) ;;
  modify (onRaw (fun r =>
    set_rotationalAxesMentioned (Intersects (axesMentioned sm) (rotationalAxes env))
      (set_linearAxesMentioned (Intersects (axesMentioned sm) (linearAxes env)) r))) ;;
  FinaliseMove env gb ;;
  modify (fun s => with_locks (UnlockAll gb (locks s)) s) ;;
  ret MoveQueued.

(** Lines 1899-1974: the tool-offset transform of the new user position,
    the position-limit check and the pressure-advance flag.  Gives the
    error, if any, and the move record as these lines leave it. *)
Definition prepareStraightMove (env : Env) (gb : Channel) (sm : StraightMove)
    (ms : MoveState) : option string * MoveState :=
  let userPos :=
    if coordinateRotation env gb
    then RotateCoordinates env false (currentUserPosition ms)
    else currentUserPosition ms in
  let ms1 :=
    set_raw (set_coords
               (ToolOffsetTransform env userPos (coords (raw ms)) (Some (axesMentioned sm)))
               (raw ms)) ms in
  let '(err, ms2) := limitStraightMove env ms1 in
  match err with
  | Some e => (Some e, ms2)
  | None =>
      (None,
       set_raw (set_usePressureAdvance
                  (hasPositiveExtrusion (raw ms2)
                   && IsNonEmpty (ClearBit (axesMentioned sm) Z_AXIS))
                  (raw ms2)) ms2)
  end.

(** Lines 1885-2021 of [DoStraightMove]. *)
Definition DoStraightMove (env : Env) (gb : Channel) (sm : StraightMove) : M MoveOutcome :=
  s <- get ;;
  let ms := moveState s in
  if negb (Z.eqb (moveType (raw ms)) 0) then
    (* a raw motor move: a single segment, and wait for it to complete *)
    write (SetTotalSegments 1) ;;
    write (SetState gb waitingForSpecialMoveToComplete) ;;
    finishStraightMove env gb sm
  else if IsEmpty (axesMentioned sm) then
    write (SetTotalSegments 1) ;;
    finishStraightMove env gb sm
  else
    let '(err, ms3) := prepareStraightMove env gb sm ms in
    modify (with_moveState ms3) ;;
    match err with
    | Some e => ret (MoveError e)
    | None =>
        (if nanoDLP env gb && negb (DoingFileMacro env)
         then write (SetState gb waitingForSpecialMoveToComplete) else ret tt) ;;
        write (SetTotalSegments (meshSegments env sm ms3 (kinematicsSegments env sm ms3))) ;;
        finishStraightMove env gb sm
    end.

(** *** Arc moves (DoArcMove, lines 2028-2380) *)

(** The decoded G2/G3 command and the machine state of its channel:
    [arcParam c] is [Some d] when [gb.Seen(c)], with [d] what
    [gb.GetDistance()] then returns; [laserS] is the S parameter, converted
    by [ConvertLaserPwm]. *)
Record ArcCommand := mkArcCommand {
  arcParam : ascii -> option float;
  selectedPlane : nat;
  axesRelative : bool;
  g53Active : bool;
  runningSystemMacro : bool;
  laserS : option Z
}.

(** Lines 2032-2033: the axes of the selected plane (XY, ZX or YZ). *)
Definition planeAxis0 (cmd : ArcCommand) : nat :=
  nth (selectedPlane cmd) [X_AXIS; Z_AXIS; Y_AXIS] X_AXIS.
Definition planeAxis1 (cmd : ArcCommand) : nat := (planeAxis0 cmd + 1) mod 3.

(** Lines 2048-2067 (and 2069-2088): the end point along one axis of the
    plane. *)
Definition arcEndpoint (env : Env) (cmd : ArcCommand) (axis : nat) (initialUser : float)
    : float :=
  match arcParam cmd (axisLetters env axis) with
  | Some d =>
      if axesRelative cmd then F32.add d initialUser
      else if g53Active cmd then F32.add d (GetCurrentToolOffset env axis)
      else if negb (runningSystemMacro cmd) then F32.add d (GetWorkplaceOffset env axis)
      else d
  | None => initialUser
  end.

Definition radiusTooSmall : string := "G2/G3: radius is too small to reach endpoint".

(** Lines 2100-2136: the offsets of the arc centre when a radius is given.
    The result is the error message, or [hDivD], [iParam] and [jParam].
    The test against the tolerance is done in [double], as [-0.02] is a
    [double] literal. *)
Definition arcOffsetsFromRadius (clockwise : bool) (rParam deltaAxis0 deltaAxis1 : float)
    : string + (float * float * float) :=
  let dSquared := F32.add (F32.fsquare deltaAxis0) (F32.fsquare deltaAxis1) in
  if F32.eqb dSquared F32.zero then
    inl "G2/G3: distance between start and end points must not be zero when specifying a radius"%string
  else
    let hSquared := F32.sub (F32.fsquare rParam) (F32.div dSquared (F32.of_Z 4)) in
    let perpendicular : string + float :=
      if F32.geb hSquared F32.zero then
        inr (F32.fastSqrtf (F32.div hSquared dSquared))
      else if F64.ltb (F64.of_float hSquared)
                      (F64.mul (F64.opp F64.c0_02) (F64.of_float (F32.fsquare rParam)))
      then inl radiusTooSmall
      else inr F32.zero in
    match perpendicular with
    | inl e => inl e
    | inr h =>
        let hDivD :=
          if (clockwise && F32.ltb rParam F32.zero)
             || (negb clockwise && F32.gtb rParam F32.zero)
          then F32.opp h else h in
        inr (hDivD,
             F32.add (F32.div deltaAxis0 (F32.of_Z 2)) (F32.mul deltaAxis1 hDivD),
             F32.sub (F32.div deltaAxis1 (F32.of_Z 2)) (F32.mul deltaAxis0 hDivD))
    end.

(** Lines 2090-2163: [iParam] and [jParam], from R or from I, J, K. *)
Definition arcOffsets (cmd : ArcCommand) (clockwise : bool)
    (initialUserC0 initialUserC1 newAxisPos0 newAxisPos1 : float) : string + (float * float) :=
  match arcParam cmd "R"%char with
  | Some rParam =>
      match arcOffsetsFromRadius clockwise rParam
              (F32.sub newAxisPos0 initialUserC0) (F32.sub newAxisPos1 initialUserC1) with
      | inl e => inl e
      | inr (_, iParam, jParam) => inr (iParam, jParam)
      end
  | None =>
      let iParam := default F32.zero (arcParam cmd (ascii_of_nat (73 + planeAxis0 cmd))) in
      let jParam := default F32.zero (arcParam cmd (ascii_of_nat (73 + planeAxis1 cmd))) in
      if F32.eqb iParam F32.zero && F32.eqb jParam F32.zero
      then inl "G2/G3: no I J K or R parameter"%string
      else inr (iParam, jParam)
  end.

(** Line 2168. *)
Definition userArcCentre (initialUserC0 initialUserC1 iParam jParam : float) : float * float :=
  (F32.add initialUserC0 iParam, F32.add initialUserC1 jParam).

(** Line 2176. *)
Definition wholeCircle (initialUserC0 initialUserC1 newAxisPos0 newAxisPos1 : float) : bool :=
  F32.eqb initialUserC0 newAxisPos0 && F32.eqb initialUserC1 newAxisPos1.

(** Line 2215. *)
Definition finalTheta (atan2 : float -> float -> float) (centre : float * float)
    (newAxisPos0 newAxisPos1 : float) : float :=
  atan2 (F32.sub newAxisPos1 (snd centre)) (F32.sub newAxisPos0 (fst centre)).

(** Line 2217. *)
Definition initialTheta (atan2 : float -> float -> float) (iParam jParam : float) : float :=
  atan2 (F32.opp jParam) (F32.opp iParam).

(** Lines 2336-2348. *)
Definition totalArc (clockwise whole : bool) (arcCurrentAngle theta : float) : float :=
  if whole then F32.TwoPi
  else
    let a := if clockwise then F32.sub arcCurrentAngle theta
             else F32.sub theta arcCurrentAngle in
    if F32.ltb a F32.zero then F32.add a F32.TwoPi else a.

(** Lines 2354-2359. *)
Definition arcSegments (env : Env) (arcRadius feedRate total : float) : Z :=
  let perSecond :=
    F64.to_float
      (F64.mul (F64.of_float (F32.mul feedRate (F32.of_Z (StepClockRate env))))
               (F64.div F64.one (F64.of_float (MinArcSegmentsPerSec env)))) in
  let arcSegmentLength :=
    F32.constrain
      (F32.fmin (F32.fastSqrtf (F32.mul (F32.mul (F32.of_Z 8) arcRadius) (MaxArcDeviation env)))
                perSecond)
      (MinArcSegmentLength env) (MaxArcSegmentLength env) in
  Z.max (u32 (F32.truncate
                (F64.to_float
                   (F64.add (F64.of_float (F32.div (F32.mul arcRadius total) arcSegmentLength))
                            F64.c0_8))))
        1.

(** Lines 2182-2205: the axes outside the plane that the command mentions. *)
Definition arcOtherAxis (env : Env) (cmd : ArcCommand) (moveFraction : float)
    (acc : list float * AxesBitmap) (axis : nat) : list float * AxesBitmap :=
  let '(pos, mentioned) := acc in
  if negb (Nat.eqb axis (planeAxis0 cmd)) && negb (Nat.eqb axis (planeAxis1 cmd)) then
    match arcParam cmd (axisLetters env axis) with
    | Some moveArg =>
        let v :=
          if axesRelative cmd then
            F64.to_float
              (F64.add (F64.of_float (at_ pos axis))
                       (F64.mul (F64.of_float moveArg)
                                (F64.sub F64.one (F64.of_float moveFraction))))
          else if g53Active cmd then F32.add moveArg (GetCurrentToolOffset env axis)
          else if runningSystemMacro cmd then moveArg
          else F32.add moveArg (GetWorkplaceOffset env axis) in
        (upd pos axis v, SetBit mentioned axis)
    | None => acc
    end
  else acc.

(** Lines 2256-2266: the arc centre for each axis that the axes of the
    plane are mapped to. *)
Definition arcCentreFor (env : Env) (cmd : ArcCommand) (centre : float * float)
    (acc : list float) (axis : nat) : list float :=
  let scaled (c : float) :=
    F32.sub (F32.add (F32.mul c (axisScaleFactors env axis)) (currentBabyStepOffsets env axis))
            (toolOffset env axis) in
  if IsBitSet (GetCurrentAxisMapping env (planeAxis0 cmd)) axis
  then upd acc axis (scaled (fst centre))
  else if IsBitSet (GetCurrentAxisMapping env (planeAxis1 cmd)) axis
  then upd acc axis (scaled (snd centre))
  else acc.

(** Lines 2434-2449. *)
Definition TravelToStartPoint (env : Env) (gb : Channel) : M bool :=
  ok <- LockMovementAndWaitForStandstill env gb ;;
  if negb ok then ret false
  else
    modify (onMove (fun m0 =>
      let m := SetDefaults env m0 in
      let ic := ToolOffsetTransform env (currentUserPosition m) (initialCoords m) None in
      let cs := ToolOffsetTransform env (startPointCoords env) (coords (raw m)) None in
      let r := raw m in
      set_initialCoords ic
        (set_raw {| coords := cs;
                    initialUserC0 := initialUserC0 r;
                    initialUserC1 := initialUserC1 r;
                    feedRate := startPointFeedRate env;
                    filePos := filePos r;
                    proportionDone := proportionDone r;
                    cosXyAngle := cosXyAngle r;
                    tool := currentTool env;
                    moveType := moveType r;
                    applyM220M221 := applyM220M221 r;
                    usePressureAdvance := usePressureAdvance r;
                    canPauseAfter := canPauseAfter r;
                    hasPositiveExtrusion := hasPositiveExtrusion r;
                    isCoordinated := isCoordinated r;
                    checkEndstops := checkEndstops r;
                    reduceAcceleration := reduceAcceleration r;
                    linearAxesMentioned := true;
                    rotationalAxesMentioned := true;
                    laserPwm := laserPwm r |} m))) ;;
    NewSingleSegmentMoveAvailable ;;
    ret true.

(** Lines 2244-2249: the default parameters of an arc move. *)
Definition arcMoveDefaults (env : Env) (r : RawMove) : RawMove :=
  set_isCoordinated true
    (set_tool (currentTool env)
       (set_moveType 0
          (set_reduceAcceleration false (set_checkEndstops false r)))).

(** Lines 2299-2314: the laser power of the move. *)
Definition arcLaserPwm (env : Env) (cmd : ArcCommand) (r : RawMove) : RawMove :=
  match machineType env with
  | laser =>
      match laserS cmd with
      | Some pwm => set_laserPwm pwm r
      | None => if laserPowerSticky env then r else set_laserPwm 0 r
      end
  | _ => r
  end.

(** Lines 2350-2376: the segments of the arc, the angle of each, and the
    hand-over of the move. *)
Definition commitArc (env : Env) (gb : Channel) (cmd : ArcCommand) (clockwise : bool)
    (mentioned : AxesBitmap) (total : float) : M MoveOutcome :=
  s <- get ;;
  let ms := moveState s in
  let a := arc ms in
  let n := arcSegments env (arcRadius a) (feedRate (raw ms)) total in
  write (SetTotalSegments n) ;;
  let inc0 := F32.div total (F32.of_Z n) in
  let inc := if clockwise then F32.opp inc0 else inc0 in
  modify (onMove (set_arc
    {| arcCentre := arcCentre a;
       arcRadius := arcRadius a;
       arcCurrentAngle := arcCurrentAngle a;
       currentAngleSine := currentAngleSine a;
       currentAngleCosine := currentAngleCosine a;
       arcAngleIncrement := inc;
       angleIncrementSine := sinf env inc;
       angleIncrementCosine := cosf env inc;
       segmentsTillNextFullCalc := 0;
       arcAxis0 := planeAxis0 cmd;
       arcAxis1 := planeAxis1 cmd;
       xyPlane := Nat.eqb (selectedPlane cmd) 0 |})) ;;
  write (SetDoingArcMove true) ;;
  modify (onRaw (fun r =>
    set_rotationalAxesMentioned (Intersects mentioned (rotationalAxes env))
      (set_linearAxesMentioned (Intersects mentioned (linearAxes env)) r))) ;;
  FinaliseMove env gb ;;
  modify (fun s => with_locks (UnlockAll gb (locks s)) s) ;;
  ret MoveQueued.

(** Lines 2035-2044: the start of the arc in the plane, in user
    coordinates. *)
Definition arcStart (cmd : ArcCommand) (s : GCodes) : float * float :=
  if F32.gtb (moveFractionToSkip s) F32.zero
  then (restartInitialUserC0 s, restartInitialUserC1 s)
  else (at_ (currentUserPosition (moveState s)) (planeAxis0 cmd),
        at_ (currentUserPosition (moveState s)) (planeAxis1 cmd)).

(** Lines 2047-2088: [newAxisPos]. *)
Definition arcTarget (env : Env) (cmd : ArcCommand) (s : GCodes) : float * float :=
  (arcEndpoint env cmd (planeAxis0 cmd) (fst (arcStart cmd s)),
   arcEndpoint env cmd (planeAxis1 cmd) (snd (arcStart cmd s))).

(** Lines 2171-2172: the new user position in the plane. *)
Definition arcUserPosition (env : Env) (cmd : ArcCommand) (s : GCodes) : list float :=
  upd (upd (currentUserPosition (moveState s)) (planeAxis0 cmd) (fst (arcTarget env cmd s)))
      (planeAxis1 cmd) (snd (arcTarget env cmd s)).

(** Line 2176, on the user position just set. *)
Definition arcWhole (env : Env) (cmd : ArcCommand) (s : GCodes) : bool :=
  wholeCircle (fst (arcStart cmd s)) (snd (arcStart cmd s))
              (at_ (arcUserPosition env cmd s) (planeAxis0 cmd))
              (at_ (arcUserPosition env cmd s) (planeAxis1 cmd)).

(** Lines 2028-2380. *)
Definition DoArcMove (env : Env) (gb : Channel) (cmd : ArcCommand) (clockwise : bool)
    : M MoveOutcome :=
  s <- get ;;
  let ms := moveState s in
  let axis0 := planeAxis0 cmd in
  let axis1 := planeAxis1 cmd in
  let c0 := fst (arcStart cmd s) in
  let c1 := snd (arcStart cmd s) in
  let ms0 := set_raw (set_initialUserC1 c1 (set_initialUserC0 c0 (raw ms))) ms in
  modify (with_moveState ms0) ;;
  let newAxisPos0 := fst (arcTarget env cmd s) in
  let newAxisPos1 := snd (arcTarget env cmd s) in
  match arcOffsets cmd clockwise c0 c1 newAxisPos0 newAxisPos1 with
  | inl e => ret (MoveError e)
  | inr (iParam, jParam) =>
      let centre := userArcCentre c0 c1 iParam jParam in
      let pos1 := arcUserPosition env cmd s in
      let whole := arcWhole env cmd s in
      let '(pos2, mentioned) :=
        fold_left (arcOtherAxis env cmd (moveFractionToSkip s)) (seq 0 (numVisibleAxes env))
                  (pos1, SetBit (SetBit 0%N axis0) axis1) in
      let ms1 :=
        set_currentUserPosition pos2
          (set_initialCoords
             (firstn (numVisibleAxes env) (coords (raw ms0))
              ++ skipn (numVisibleAxes env) (initialCoords ms0)) ms0) in
      modify (with_moveState ms1) ;;
      if CheckEnoughAxesHomed env mentioned then
        ret (MoveError "G2/G3: insufficient axes homed")
      else
        let theta0 := finalTheta (atan2f env) centre (at_ pos2 axis0) (at_ pos2 axis1) in
        let radius := F32.fastSqrtf (F32.add (F32.mul iParam iParam) (F32.mul jParam jParam)) in
        let angle0 := initialTheta (atan2f env) iParam jParam in
        let rotated := coordinateRotation env gb in
        let cs :=
          ToolOffsetTransform env
            (if rotated then RotateCoordinates env false pos2 else pos2)
            (coords (raw ms1)) (Some mentioned) in
        let centre' :=
          if rotated
          then let c := RotateCoordinates env false [fst centre; snd centre] in
               (at_ c 0, at_ c 1)
          else centre in
        let theta := if rotated then F32.sub theta0 (g68AngleRadians env) else theta0 in
        let angle := if rotated then F32.sub angle0 (g68AngleRadians env) else angle0 in
        let '(lp, cs') := LimitPosition env cs None (axesVirtuallyHomed env) true in
        let a := arc ms1 in
        let ms2 :=
          set_arc {| arcCentre := arcCentre a;
                     arcRadius := radius;
                     arcCurrentAngle := angle;
                     currentAngleSine := currentAngleSine a;
                     currentAngleCosine := currentAngleCosine a;
                     arcAngleIncrement := arcAngleIncrement a;
                     angleIncrementSine := angleIncrementSine a;
                     angleIncrementCosine := angleIncrementCosine a;
                     segmentsTillNextFullCalc := segmentsTillNextFullCalc a;
                     arcAxis0 := arcAxis0 a;
                     arcAxis1 := arcAxis1 a;
                     xyPlane := xyPlane a |}
                  (set_raw (set_coords cs' (raw ms1)) ms1) in
        modify (with_moveState ms2) ;;
        match lp with
        | lpOk =>
            let centres :=
              fold_left (arcCentreFor env cmd centre') (seq 0 (numVisibleAxes env))
                        (arcCentre (arc ms2)) in
            let '(err, r3) :=
              LoadExtrusionAndFeedrateFromGCode env gb true (arcMoveDefaults env (raw ms2)) in
            let a2 := arc ms2 in
            let ms3 :=
              set_arc {| arcCentre := centres;
                         arcRadius := arcRadius a2;
                         arcCurrentAngle := arcCurrentAngle a2;
                         currentAngleSine := currentAngleSine a2;
                         currentAngleCosine := currentAngleCosine a2;
                         arcAngleIncrement := arcAngleIncrement a2;
                         angleIncrementSine := angleIncrementSine a2;
                         angleIncrementCosine := angleIncrementCosine a2;
                         segmentsTillNextFullCalc := segmentsTillNextFullCalc a2;
                         arcAxis0 := arcAxis0 a2;
                         arcAxis1 := arcAxis1 a2;
                         xyPlane := xyPlane a2 |}
                      (set_raw r3 ms2) in
            modify (with_moveState ms3) ;;
            match err with
            | Some e => ret (MoveError e)
            | None =>
                if firstMoveSincePrintingResumed s && hasPositiveExtrusion r3 then
                  (* do not start a printing move from the wrong point *)
                  ok <- TravelToStartPoint env gb ;;
                  (if ok then modify (with_firstMoveSincePrintingResumed false) else ret tt) ;;
                  ret NotFinished
                else
                  (if firstMoveSincePrintingResumed s
                   then modify (with_firstMoveSincePrintingResumed false) else ret tt) ;;
                  modify (onRaw (fun r =>
                    set_usePressureAdvance (hasPositiveExtrusion r) (arcLaserPwm env cmd r))) ;;
                  commitArc env gb cmd clockwise mentioned (totalArc clockwise whole angle theta)
            end
        | _ => ret (MoveError "G2/G3: outside machine limits")
        end
  end.

(** *** Example configuration and states *)

Definition zeros (n : nat) : list float := repeat F32.zero n.

(** [atan2] on the arguments that the examples use, where one of the two
    is a zero: the values that Annex F of the C standard prescribes,
    rounded to [float].  Elsewhere a placeholder. *)
Definition atan2_axes (y x : float) : float :=
  match y, x with
  | S754_zero sy, S754_finite sx _ _ =>
      if sx then (if sy then F32.opp F32.Pi else F32.Pi) else y
  | S754_finite sy _ _, S754_zero _ =>
      if sy then S754_finite true 13176795 (-23) else S754_finite false 13176795 (-23)
  | _, _ => F32.zero
  end.

(** A Cartesian machine with three axes and one extruder (logical drive
    3), no tool offsets, no coordinate rotation and limits that accept
    every position.  [sinf] and [cosf] are placeholders: the examples
    that use this configuration do not depend on their values. *)
Definition machineEnv (segmented : bool) : Env :=
  {| numVisibleAxes := 3;
     numExtruders := 1;
     ExtruderToLogicalDrive := fun e => 3 + e;
     fileGCode := 0;
     queuedGCode := 7;
     GetFilePosition := fun _ => 1000%Z;
     machineType := fff;
     simulationMode := simOff;
     axesVirtuallyHomed := 7%N;
     currentTool := Some 0;
     LimitPosition := fun cs _ _ _ => (lpOk, cs);
     WaitingForAllMovesFinished := true;
     IsCodeQueueIdle := true;
     inMainTask := true;
     MoveGetCurrentUserPosition := fun cs _ => cs;
     ToolOffsetTransform := fun cin cout _ => firstn 3 cin ++ skipn 3 cout;
     ToolOffsetInverseTransform := fun cin cout => firstn 3 cin ++ skipn 3 cout;
     coordinateRotation := fun _ => false;
     RotateCoordinates := fun _ cs => cs;
     g68AngleRadians := F32.zero;
     GetAxisMapping := fun _ axis => N.shiftl 1 (N.of_nat axis);
     axisScaleFactors := fun _ => F32.of_Z 1;
     SetDefaults := fun m => m;
     GetProportionDone := fun m =>
       F32.div (F32.of_Z (u32 (totalSegments m - segmentsLeft m))) (F32.of_Z (totalSegments m));
     SegmentsPerFulArcCalculation := 8%Z;
     sinf := fun _ => F32.zero;
     cosf := fun _ => F32.of_Z 1;
     atan2f := atan2_axes;
     useSegmentation := segmented;
     useZSegmentation := false;
     useG0Segmentation := false;
     reciprocalMinSegmentLength := F32.of_Z 5;
     segmentsPerSecond := F32.of_Z 100;
     StepClockRate := 750000%Z;
     IsUsingMesh := false;
     meshAxis0 := 0;
     meshAxis1 := 1;
     GetMinimumSegments := fun _ _ => 1%Z;
     doingManualBedProbe := false;
     nanoDLP := fun _ => false;
     DoingFileMacro := false;
     linearAxes := 7%N;
     rotationalAxes := 0%N;
     axisLetters := fun a => nth a ["X"; "Y"; "Z"]%char "?"%char;
     GetCurrentToolOffset := fun _ => F32.zero;
     GetWorkplaceOffset := fun _ => F32.zero;
     CheckEnoughAxesHomed := fun _ => false;
     GetCurrentAxisMapping := fun axis => N.shiftl 1 (N.of_nat axis);
     currentBabyStepOffsets := fun _ => F32.zero;
     toolOffset := fun _ => F32.zero;
     LoadExtrusionAndFeedrateFromGCode := fun _ _ r => (None, r);
     laserPowerSticky := false;
     startPointCoords := zeros 3;
     startPointFeedRate := F32.of_Z 50;
     MaxArcDeviation := F32.of_dyadic 1 (-4);
     MinArcSegmentsPerSec := F32.of_Z 50;
     MinArcSegmentLength := F32.of_dyadic 1 (-3);
     MaxArcSegmentLength := F32.of_Z 2 |}.

Definition exampleEnv : Env := machineEnv false.

(** The same machine with a kinematics that segments straight moves:
    minimum segment length 0.2 mm, 100 segments per second. *)
Definition segmentingEnv : Env := machineEnv true.

Definition idleRawMove : RawMove :=
  {| coords := zeros 4;
     initialUserC0 := F32.zero;
     initialUserC1 := F32.zero;
     feedRate := F32.of_Z 50;
     filePos := noFilePosition;
     proportionDone := F32.zero;
     cosXyAngle := F32.of_Z 1;
     tool := Some 0;
     moveType := 0%Z;
     applyM220M221 := false;
     usePressureAdvance := false;
     canPauseAfter := true;
     hasPositiveExtrusion := false;
     isCoordinated := false;
     checkEndstops := false;
     reduceAcceleration := false;
     linearAxesMentioned := false;
     rotationalAxesMentioned := false;
     laserPwm := 0%Z |}.

Definition idleArc : ArcState :=
  {| arcCentre := zeros 3;
     arcRadius := F32.zero;
     arcCurrentAngle := F32.zero;
     currentAngleSine := F32.zero;
     currentAngleCosine := F32.zero;
     arcAngleIncrement := F32.zero;
     angleIncrementSine := F32.zero;
     angleIncrementCosine := F32.zero;
     segmentsTillNextFullCalc := 0%Z;
     arcAxis0 := 0;
     arcAxis1 := 1;
     xyPlane := true |}.

Definition idleMoveState : MoveState :=
  {| raw := idleRawMove;
     currentUserPosition := zeros 3;
     initialCoords := zeros 4;
     doingArcMove := false;
     arc := idleArc;
     segMoveState := inactive;
     totalSegments := 1%Z;
     segmentsLeft := 0%Z |}.

(** Nothing in flight, no locks held. *)
Definition idle : GCodes :=
  {| moveState := idleMoveState;
     segmentsLeftToStartAt := 0%Z;
     firstSegmentFractionToSkip := F32.zero;
     moveFractionToSkip := F32.zero;
     restartInitialUserC0 := F32.zero;
     restartInitialUserC1 := F32.zero;
     locks := Locks.initial;
     gbState := fun _ => normal;
     updateUserPositionGb := None;
     firstMoveSincePrintingResumed := false;
     currentObjectCancelled := false |}.

(** An arc of three segments has been set up and is about to be
    finalised; and the same arc once published by the file channel. *)
Definition arcReady : GCodes :=
  with_moveState (set_totalSegments 3 (set_doingArcMove true idleMoveState)) idle.

Definition arcPublished : GCodes := final (FinaliseMove exampleEnv 0 arcReady).

(** A single-segment move is in flight. *)
Definition moveInFlight : GCodes :=
  final (NewSingleSegmentMoveAvailable idle).

(** A coordinated travel move of 10 mm along X from the origin is about to
    be set up, at the feed rate [2^e] mm per step clock. *)
Definition travelX10 : StraightMove :=
  {| axesMentioned := 1%N; initialUserPosition := zeros 3 |}.

Definition readyX10 (e : Z) : GCodes :=
  with_moveState
    {| raw :=
         {| coords := zeros 4;
            initialUserC0 := F32.zero;
            initialUserC1 := F32.zero;
            feedRate := F32.of_dyadic 1 e;
            filePos := noFilePosition;
            proportionDone := F32.zero;
            cosXyAngle := F32.of_Z 1;
            tool := Some 0;
            moveType := 0%Z;
            applyM220M221 := false;
            usePressureAdvance := false;
            canPauseAfter := true;
            hasPositiveExtrusion := false;
            isCoordinated := true;
            checkEndstops := false;
            reduceAcceleration := false;
            linearAxesMentioned := false;
            rotationalAxesMentioned := false;
            laserPwm := 0%Z |};
       currentUserPosition := [F32.of_Z 10; F32.zero; F32.zero];
       initialCoords := zeros 4;
       doingArcMove := false;
       arc := idleArc;
       segMoveState := inactive;
       totalSegments := 1%Z;
       segmentsLeft := 0%Z |}
    idle.

(** A command that mentions no axis (G1 F3000). *)
Definition feedOnly : StraightMove :=
  {| axesMentioned := 0%N; initialUserPosition := zeros 3 |}.

(** G3 X10 I5 from the origin: a counter-clockwise semicircle. *)
Definition semicircle : ArcCommand :=
  {| arcParam := fun c =>
       if Ascii.eqb c "X" then Some (F32.of_Z 10)
       else if Ascii.eqb c "I" then Some (F32.of_Z 5)
       else None;
     selectedPlane := 0;
     axesRelative := false;
     g53Active := false;
     runningSystemMacro := false;
     laserS := None |}.

(** G2 I5 from the origin: start and end coincide. *)
Definition fullCircle : ArcCommand :=
  {| arcParam := fun c => if Ascii.eqb c "I" then Some (F32.of_Z 5) else None;
     selectedPlane := 0;
     axesRelative := false;
     g53Active := false;
     runningSystemMacro := false;
     laserS := None |}.

(** G2 X[x] R[r] from the origin, [x] and [r] given as dyadic numbers. *)
Definition radiusArc (xm xe rm re : Z) : ArcCommand :=
  {| arcParam := fun c =>
       if Ascii.eqb c "X" then Some (F32.of_dyadic xm xe)
       else if Ascii.eqb c "R" then Some (F32.of_dyadic rm re)
       else None;
     selectedPlane := 0;
     axesRelative := false;
     g53Active := false;
     runningSystemMacro := false;
     laserS := None |}.

(** The arc set up in [arcReady], its object having been cancelled. *)
Definition arcOfCancelledObject : GCodes :=
  {| moveState := moveState arcReady;
     segmentsLeftToStartAt := segmentsLeftToStartAt arcReady;
     firstSegmentFractionToSkip := firstSegmentFractionToSkip arcReady;
     moveFractionToSkip := moveFractionToSkip arcReady;
     restartInitialUserC0 := restartInitialUserC0 arcReady;
     restartInitialUserC1 := restartInitialUserC1 arcReady;
     locks := locks arcReady;
     gbState := gbState arcReady;
     updateUserPositionGb := updateUserPositionGb arcReady;
     firstMoveSincePrintingResumed := firstMoveSincePrintingResumed arcReady;
     currentObjectCancelled := true |}.
End Moves.

(* --------------------------------------------------------------------- *)
(** ** Trigger arbitration (CheckTriggers, lines 811-854)                 *)
(* --------------------------------------------------------------------- *)

Module Triggers.
Import Locks.

Inductive PauseState := notPaused | pausing | paused | resuming.

(** What [CheckTriggers] reads and writes: the pending triggers, the lock
    table, and the state of the trigger channel and of the print. *)
Record TriggerState := mkTriggerState {
  triggersPending : N;              (* TriggersBitmap *)
  locks : LockState;
  triggerDoingFile : bool;          (* triggerGCode->IsDoingFile() *)
  triggerStateNormal : bool;        (* triggerGCode->GetState() == GCodeState::normal *)
  isPrinting : bool;                (* reprap.GetPrintMonitor().IsPrinting() *)
  pauseState : PauseState
}.

(** The function that [CheckTriggers] calls at the end of a poll, if any.
    The state that [CheckTriggers] returns is the one in which the call is
    made; what the callee does is not part of the model.  (DoEmergencyStop
    goes on to [Reset()], which clears every pending trigger.) *)
Inductive TriggerAction :=
| CallDoEmergencyStop
| CallDoPause                       (* DoPause for the trigger channel, then SendAlert *)
| CallDoFileMacro (filename : string).

Definition with_pending (b : N) (s : TriggerState) : TriggerState :=
  {| triggersPending := b;
     locks := locks s;
     triggerDoingFile := triggerDoingFile s;
     triggerStateNormal := triggerStateNormal s;
     isPrinting := isPrinting s;
     pauseState := pauseState s |}.

Definition with_locks (l : LockState) (s : TriggerState) : TriggerState :=
  {| triggersPending := triggersPending s;
     locks := l;
     triggerDoingFile := triggerDoingFile s;
     triggerStateNormal := triggerStateNormal s;
     isPrinting := isPrinting s;
     pauseState := pauseState s |}.

(** [Bitmap::LowestSetBit()]: the number of trailing zero bits. *)
Fixpoint lowestSetBit_pos (p : positive) : nat :=
  match p with
  | xO q => S (lowestSetBit_pos q)
  | _ => 0
  end.

Definition LowestSetBit (b : N) : nat :=
  match b with
  | N0 => 0
  | Npos p => lowestSetBit_pos p
  end.

(** Line 381. *)
Definition IsTriggerBusy (s : TriggerState) : bool := triggerDoingFile s.

(** Lines 1006-1016, on a main board (not in expansion mode). *)
Definition IsReallyPrinting (s : TriggerState) : bool :=
  isPrinting s && match pauseState s with notPaused => true | _ => false end.

(** Lines 813-819: triggers whose condition is newly met become pending;
    [check i] is the answer of [triggers[i].Check()]. *)
Definition detectTriggers (MaxTriggers : nat) (check : nat -> bool) (pending : N) : N :=
  fold_left (fun b i => if negb (IsBitSet b i) && check i then SetBit b i else b)
            (seq 0 MaxTriggers) pending.

(** [filename.printf("trigger%u.g", n)] *)
Definition triggerFileName (n : nat) : string :=
  ("trigger" ++ NilEmpty.string_of_uint (Nat.to_uint n) ++ ".g")%string.

(** Lines 811-854. *)
Definition CheckTriggers (MaxTriggers : nat) (triggerGCode : Channel) (check : nat -> bool)
    (s0 : TriggerState) : option TriggerAction * TriggerState :=
  let s := with_pending (detectTriggers MaxTriggers check (triggersPending s0)) s0 in
  if negb (N.eqb (triggersPending s) 0) then
    let lowestTriggerPending := LowestSetBit (triggersPending s) in
    let cleared := with_pending (ClearBit (triggersPending s) lowestTriggerPending) s in
    if Nat.eqb lowestTriggerPending 0 then
      (Some CallDoEmergencyStop, cleared)
    else if negb (IsTriggerBusy s) && triggerStateNormal s then
      if Nat.eqb lowestTriggerPending 1 then
        if negb (IsReallyPrinting s) then
          (None, cleared)          (* ignore a pause trigger if not printing *)
        else
          let lk := LockMovement triggerGCode (locks s) in
          if fst lk then
            (Some CallDoPause,
             with_locks (snd lk)
               (with_pending (ClearBit (triggersPending s) lowestTriggerPending) s))
          else (None, with_locks (snd lk) s)
      else
        (Some (CallDoFileMacro (triggerFileName lowestTriggerPending)), cleared)
    else (None, s)
  else (None, s).

(** The trigger channel is able to start a pause or a macro. *)
Definition triggerIdle (s : TriggerState) : bool :=
  negb (IsTriggerBusy s) && triggerStateNormal s.

(** Example states: triggers 1, 3 and 5 pending (bitmap 42) during a
    print, with the trigger channel (6) idle; Movement is free, or held by
    the file channel (1). *)
Definition printingWith (pending : N) (l : LockState) : TriggerState :=
  {| triggersPending := pending;
     locks := l;
     triggerDoingFile := false;
     triggerStateNormal := true;
     isPrinting := true;
     pauseState := notPaused |}.

(** A pause trigger is pending while nothing is printing and the trigger
    channel is busy running a macro. *)
Definition busyNotPrinting : TriggerState :=
  {| triggersPending := 2%N;
     locks := Locks.initial;
     triggerDoingFile := true;
     triggerStateNormal := true;
     isPrinting := false;
     pauseState := notPaused |}.

End Triggers.

(* --------------------------------------------------------------------- *)
(** ** Restore points (lines 799-808 and 4156-4193)                       *)
(* --------------------------------------------------------------------- *)

Module Restore.
Import Locks.

Definition float := F32.float.

(** [class RestorePoint], declared in RestorePoint.h, which is not among
    the sources; the fields are those that GCodes.cpp reads and writes. *)
Record RestorePoint := mkRestorePoint {
  moveCoords : list float;
  feedRate : float;
  virtualExtruderPosition : float;
  filePos : Z;
  toolNumber : Z;
  fanSpeed : float;
  laserPwmOrIoBits : Z;
  initialUserC0 : float;
  initialUserC1 : float;
  proportionDone : float
}.

(** The members of [GCodes] and of its collaborators that saving and
    restoring a position read and write: the move record, the feed rate of
    each channel's current machine state, the virtual extruder position,
    the number of the current tool ([reprap.GetCurrentToolNumber()],
    changed by [reprap.SelectTool]), the default fan speed and the homed
    axes. *)
Record PrintState := mkPrintState {
  moveState : Moves.MoveState;
  channelFeedRate : Channel -> float;
  extruderPosition : float;
  currentToolNumber : Z;
  lastDefaultFanSpeed : float;
  axesHomed : AxesBitmap;
  axesVirtuallyHomed : AxesBitmap
}.

(** [for (axis < n) dst[axis] = src[axis]] *)
Definition copyAxes (n : nat) (src dst : list float) : list float :=
  fold_left (fun d axis => Moves.upd d axis (Moves.at_ src axis)) (seq 0 n) dst.

(** Lines 4156-4172.  [filePosition] is [gb.GetFilePosition()]. *)
Definition SavePosition (numVisibleAxes : nat) (filePosition : Z)
    (rp : RestorePoint) (gb : Channel) (s : PrintState) : RestorePoint :=
  {| moveCoords :=
       copyAxes numVisibleAxes (Moves.currentUserPosition (moveState s)) (moveCoords rp);
     feedRate := channelFeedRate s gb;
     virtualExtruderPosition := extruderPosition s;
     filePos := filePosition;
     toolNumber := currentToolNumber s;
     fanSpeed := lastDefaultFanSpeed s;
     laserPwmOrIoBits := Moves.laserPwm (Moves.raw (moveState s));
     initialUserC0 := initialUserC0 rp;
     initialUserC1 := initialUserC1 rp;
     proportionDone := proportionDone rp |}.

(** Lines 4175-4193.  [gb] is [None] for a null pointer. *)
Definition RestorePosition (numVisibleAxes : nat) (rp : RestorePoint)
    (gb : option Channel) (s : PrintState) : PrintState :=
  let ms := moveState s in
  let ms1 :=
    Moves.set_currentUserPosition
      (copyAxes numVisibleAxes (moveCoords rp) (Moves.currentUserPosition ms)) ms in
  let r :=
    Moves.set_laserPwm (laserPwmOrIoBits rp)
      (Moves.set_initialUserC1 (initialUserC1 rp)
         (Moves.set_initialUserC0 (initialUserC0 rp) (Moves.raw ms1))) in
  {| moveState := Moves.set_raw r ms1;
     channelFeedRate :=
       match gb with
       | Some g => fun c => if Nat.eqb c g then feedRate rp else channelFeedRate s c
       | None => channelFeedRate s
       end;
     extruderPosition := extruderPosition s;
     currentToolNumber := currentToolNumber s;
     lastDefaultFanSpeed := lastDefaultFanSpeed s;
     axesHomed := axesHomed s;
     axesVirtuallyHomed := axesVirtuallyHomed s |}.

(** Lines 799-808: ending a simulation restores the position from the
    simulation restore point, selects the tool recorded in it and sets the
    machine position from the user position. *)
Definition EndSimulation (env : Moves.Env) (simulationRestorePoint : RestorePoint)
    (gb : option Channel) (s : PrintState) : PrintState :=
  let s1 := RestorePosition (Moves.numVisibleAxes env) simulationRestorePoint gb s in
  let ms := moveState s1 in
  {| moveState :=
       Moves.set_raw
         (Moves.set_coords
            (Moves.ToolOffsetTransform env (Moves.currentUserPosition ms)
               (Moves.coords (Moves.raw ms)) None)
            (Moves.raw ms)) ms;
     channelFeedRate := channelFeedRate s1;
     extruderPosition := extruderPosition s1;
     currentToolNumber := toolNumber simulationRestorePoint;
     lastDefaultFanSpeed := lastDefaultFanSpeed s1;
     axesHomed := axesHomed s1;
     axesVirtuallyHomed := axesHomed s1 |}.

(** Example: the file channel (1) prints with tool 0 at (10, 20, 0.3); the
    position is saved; then the head is elsewhere, tool 1 is selected and
    the feed rate has changed. *)
Definition emptyRestorePoint : RestorePoint :=
  {| moveCoords := Moves.zeros 3;
     feedRate := F32.zero;
     virtualExtruderPosition := F32.zero;
     filePos := Moves.noFilePosition;
     toolNumber := (-1)%Z;
     fanSpeed := F32.zero;
     laserPwmOrIoBits := 0%Z;
     initialUserC0 := F32.zero;
     initialUserC1 := F32.zero;
     proportionDone := F32.zero |}.

Definition printingAt (x y z : float) (feed : float) (toolNo : Z) : PrintState :=
  {| moveState :=
       Moves.set_currentUserPosition [x; y; z] Moves.idleMoveState;
     channelFeedRate := fun _ => feed;
     extruderPosition := F32.zero;
     currentToolNumber := toolNo;
     lastDefaultFanSpeed := F32.zero;
     axesHomed := 7%N;
     axesVirtuallyHomed := 7%N |}.

Definition beforePause : PrintState :=
  printingAt (F32.of_Z 10) (F32.of_Z 20) (F32.of_dyadic 3 (-1)) (F32.of_Z 50) 0.

Definition afterToolChange : PrintState :=
  printingAt (F32.of_Z 100) (F32.of_Z 100) (F32.of_Z 5) (F32.of_Z 100) 1.

End Restore.

(* ===================================================================== *)
(** * Part II: lemmas and theorems                                        *)
(* ===================================================================== *)

Import Locks Moves.
Local Open Scope gcodes_scope.

(* --------------------------------------------------------------------- *)
(** ** Resource locking                                                   *)
(* --------------------------------------------------------------------- *)


Lemma owner_setOwner_eq s r o :
  r < NumResources s -> owner (setOwner r o s) r = o.
Proof.
  intros Hr. unfold owner, setOwner; simpl.
  rewrite list_lookup_insert_eq; [reflexivity | exact Hr].
Qed.

Lemma owner_setOwner_ne s r r' o :
  r <> r' -> owner (setOwner r o s) r' = owner s r'.
Proof.
  intros Hne. unfold owner, setOwner; simpl.
  rewrite list_lookup_insert_ne; [reflexivity | exact Hne].
Qed.

Lemma owner_out_of_range s r :
  NumResources s <= r -> owner s r = None.
Proof.
  intros Hr. unfold owner. rewrite lookup_ge_None_2; [reflexivity | exact Hr].
Qed.

Lemma owner_updLocked s gb f r :
  owner (updLocked gb f s) r = owner s r.
Proof. reflexivity. Qed.

Lemma NumResources_setOwner s r o :
  NumResources (setOwner r o s) = NumResources s.
Proof. unfold NumResources, setOwner; simpl. apply length_insert. Qed.

Lemma ownedBy_true s r gb : ownedBy s r gb = true <-> owner s r = Some gb.
Proof. unfold ownedBy. apply bool_decide_eq_true. Qed.

Lemma ownedBy_false s r gb : ownedBy s r gb = false <-> owner s r <> Some gb.
Proof. unfold ownedBy. apply bool_decide_eq_false. Qed.

Lemma isFree_true s r : isFree s r = true <-> owner s r = None.
Proof. unfold isFree. apply bool_decide_eq_true. Qed.

Lemma ownedBy_in_range s r gb : ownedBy s r gb = true -> r < NumResources s.
Proof.
  rewrite ownedBy_true. intros Ho.
  destruct (Nat.lt_ge_cases r (NumResources s)) as [Hlt | Hge]; [exact Hlt |].
  rewrite (owner_out_of_range _ _ Hge) in Ho. discriminate.
Qed.

Lemma IsBitSet_SetBit b i j :
  IsBitSet (SetBit b i) j = (Nat.eqb i j || IsBitSet b j).
Proof.
  unfold IsBitSet, SetBit. rewrite N.setbit_eqb.
  destruct (Nat.eqb_spec i j) as [-> | Hne].
  - rewrite N.eqb_refl. reflexivity.
  - destruct (N.eqb_spec (N.of_nat i) (N.of_nat j)) as [Heq | _]; [| reflexivity].
    apply Nat2N.inj in Heq. contradiction.
Qed.

Lemma IsBitSet_ClearBit b i j :
  IsBitSet (ClearBit b i) j = (IsBitSet b j && negb (Nat.eqb i j)).
Proof.
  unfold IsBitSet, ClearBit. rewrite N.clearbit_eqb.
  destruct (Nat.eqb_spec i j) as [-> | Hne].
  - rewrite N.eqb_refl. reflexivity.
  - destruct (N.eqb_spec (N.of_nat i) (N.of_nat j)) as [Heq | _]; [| reflexivity].
    apply Nat2N.inj in Heq. contradiction.
Qed.

(** What each primitive does to the owner table. *)

Lemma LockResource_owner gb r s r' :
  owner (snd (LockResource gb r s)) r' =
  if Nat.eqb r r' && isFree s r && (r <? NumResources s) then Some gb else owner s r'.
Proof.
  unfold LockResource.
  destruct (ownedBy s r gb) eqn:Hown; simpl.
  - apply ownedBy_true in Hown.
    assert (isFree s r = false) as ->.
    { unfold isFree. apply bool_decide_eq_false. congruence. }
    rewrite andb_false_r. reflexivity.
  - destruct (isFree s r) eqn:Hfree; simpl.
    + rewrite owner_updLocked.
      destruct (Nat.eqb_spec r r') as [<- | Hne]; simpl.
      * destruct (Nat.ltb_spec r (NumResources s)) as [Hlt | Hge].
        -- apply owner_setOwner_eq; exact Hlt.
        -- rewrite !owner_out_of_range; auto.
           rewrite NumResources_setOwner; exact Hge.
      * apply owner_setOwner_ne; exact Hne.
    + rewrite andb_false_r. reflexivity.
Qed.

Lemma UnlockResource_owner gb r s r' :
  owner (UnlockResource gb r s) r' =
  if Nat.eqb r r' && ownedBy s r gb then None else owner s r'.
Proof.
  unfold UnlockResource.
  destruct (ownedBy s r gb) eqn:Hown.
  - destruct (Nat.eqb_spec r r') as [<- | Hne]; simpl.
    + apply owner_setOwner_eq. apply (ownedBy_in_range _ _ _ Hown).
    + rewrite owner_setOwner_ne by exact Hne. reflexivity.
  - rewrite andb_false_r. reflexivity.
Qed.

Lemma GrabResource_owner gb r s r' :
  r < NumResources s ->
  owner (GrabResource gb r s) r' = if Nat.eqb r r' then Some gb else owner s r'.
Proof.
  intros Hr. unfold GrabResource.
  destruct (ownedBy s r gb) eqn:Hown; simpl.
  - apply ownedBy_true in Hown.
    destruct (Nat.eqb_spec r r') as [<- | Hne]; [exact Hown | reflexivity].
  - rewrite owner_updLocked.
    destruct (Nat.eqb_spec r r') as [<- | Hne].
    + apply owner_setOwner_eq; exact Hr.
    + apply owner_setOwner_ne; exact Hne.
Qed.

(** The loop of [UnlockAll], after the indices below [k] have been handled. *)

Lemma UnlockAll_inv_0 gb s : UnlockAll_inv gb s 0 s.
Proof.
  constructor; try reflexivity.
  - intros c i. simpl. rewrite andb_false_r. reflexivity.
Qed.

Lemma lockBit_updLocked_clear gb i s c j :
  lockBit (updLocked gb (fun b => ClearBit b i) s) c j =
  if Nat.eqb c gb && Nat.eqb i j then false else lockBit s c j.
Proof.
  unfold lockBit, updLocked; simpl.
  destruct (Nat.eqb c gb); simpl; [| reflexivity].
  rewrite IsBitSet_ClearBit. destruct (Nat.eqb i j); simpl.
  - apply andb_false_r.
  - apply andb_true_r.
Qed.

Lemma lockBit_updLocked_set gb i s c j :
  lockBit (updLocked gb (fun b => SetBit b i) s) c j =
  if Nat.eqb c gb && Nat.eqb i j then true else lockBit s c j.
Proof.
  unfold lockBit, updLocked; simpl.
  destruct (Nat.eqb c gb); simpl; [| reflexivity].
  rewrite IsBitSet_SetBit. destruct (Nat.eqb i j); reflexivity.
Qed.

Lemma previous_updLocked gb f s c :
  previous (machineState (updLocked gb f s) c) = previous (machineState s c).
Proof. unfold updLocked; simpl. destruct (Nat.eqb c gb); reflexivity. Qed.

Lemma UnlockAll_inv_step gb s k t :
  UnlockAll_inv gb s k t ->
  UnlockAll_inv gb s (S k) (UnlockAll_body gb (resourcesToKeep gb s) t k).
Proof.
  intros [Hlen Hown Hbit Hprev Hhome].
  assert (Hk : ownedBy t k gb = ownedBy s k gb).
  { unfold ownedBy. rewrite Hown, Nat.ltb_irrefl. reflexivity. }
  unfold UnlockAll_body. rewrite Hk.
  fold (released gb s k).
  destruct (released gb s k) eqn:Hrel.
  - assert (Hrange : k < NumResources s).
    { apply (ownedBy_in_range s k gb).
      unfold released in Hrel. apply andb_true_iff in Hrel. tauto. }
    set (t1 := if Nat.eqb k MoveResource then clearToBeHomed t else t).
    assert (Ht1o : forall i, owner t1 i = owner t i).
    { intros i. unfold t1. destruct (Nat.eqb k MoveResource); reflexivity. }
    assert (Ht1n : NumResources t1 = NumResources t).
    { unfold t1. destruct (Nat.eqb k MoveResource); reflexivity. }
    assert (Ht1m : machineState t1 = machineState t).
    { unfold t1. destruct (Nat.eqb k MoveResource); reflexivity. }
    constructor.
    + rewrite <- Hlen, <- Ht1n. unfold updLocked, NumResources; simpl.
      apply length_insert.
    + intros i. rewrite owner_updLocked.
      destruct (Nat.eqb_spec k i) as [<- | Hne].
      * rewrite owner_setOwner_eq by (rewrite Ht1n, Hlen; exact Hrange).
        rewrite Hrel. replace (k <? S k) with true; [reflexivity |].
        symmetry. apply Nat.ltb_lt. lia.
      * rewrite owner_setOwner_ne by exact Hne. rewrite Ht1o, Hown.
        replace (i <? S k) with (i <? k); [reflexivity |].
        destruct (Nat.ltb_spec i k), (Nat.ltb_spec i (S k)); try reflexivity; lia.
    + intros c i. rewrite lockBit_updLocked_clear.
      assert (Hlb : lockBit (setOwner k None t1) c i = lockBit t c i).
      { unfold lockBit, setOwner; simpl. rewrite Ht1m. reflexivity. }
      rewrite Hlb, Hbit.
      destruct (Nat.eqb c gb); simpl; [| reflexivity].
      destruct (Nat.eqb_spec k i) as [<- | Hne].
      * rewrite Hrel. replace (k <? S k) with true; [reflexivity |].
        symmetry. apply Nat.ltb_lt. lia.
      * replace (i <? S k) with (i <? k); [reflexivity |].
        destruct (Nat.ltb_spec i k), (Nat.ltb_spec i (S k)); try reflexivity; lia.
    + intros c. rewrite previous_updLocked. simpl. rewrite Ht1m. apply Hprev.
    + cbn [toBeHomed updLocked setOwner]. unfold t1.
      destruct (Nat.eqb_spec k MoveResource) as [-> | Hne];
        cbn [toBeHomed clearToBeHomed].
      * rewrite Hrel. replace (MoveResource <? S MoveResource) with true; [reflexivity |].
        symmetry. apply Nat.ltb_lt. lia.
      * rewrite Hhome.
        replace (MoveResource <? S k) with (MoveResource <? k); [reflexivity |].
        destruct (Nat.ltb_spec MoveResource k), (Nat.ltb_spec MoveResource (S k));
          try reflexivity; lia.
  - constructor.
    + exact Hlen.
    + intros i. rewrite Hown.
      destruct (Nat.eqb_spec i k) as [-> | Hne].
      * rewrite Hrel, !andb_false_r. reflexivity.
      * replace (i <? S k) with (i <? k); [reflexivity |].
        destruct (Nat.ltb_spec i k), (Nat.ltb_spec i (S k)); try reflexivity; lia.
    + intros c i. rewrite Hbit.
      destruct (Nat.eqb_spec i k) as [-> | Hne].
      * rewrite Hrel, !andb_false_r. reflexivity.
      * replace (i <? S k) with (i <? k); [reflexivity |].
        destruct (Nat.ltb_spec i k), (Nat.ltb_spec i (S k)); try reflexivity; lia.
    + exact Hprev.
    + rewrite Hhome.
      destruct (Nat.eqb_spec MoveResource k) as [<- | Hne].
      * rewrite Hrel, !andb_false_r. reflexivity.
      * replace (MoveResource <? S k) with (MoveResource <? k); [reflexivity |].
        destruct (Nat.ltb_spec MoveResource k), (Nat.ltb_spec MoveResource (S k));
          try reflexivity; lia.
Qed.

Lemma UnlockAll_inv_loop gb s k :
  UnlockAll_inv gb s k
    (fold_left (UnlockAll_body gb (resourcesToKeep gb s)) (seq 0 k) s).
Proof.
  induction k as [| k IH].
  - apply UnlockAll_inv_0.
  - rewrite seq_S, fold_left_app. simpl. apply UnlockAll_inv_step. exact IH.
Qed.

Lemma UnlockAll_inv_final gb s :
  UnlockAll_inv gb s (NumResources s) (UnlockAll gb s).
Proof. apply UnlockAll_inv_loop. Qed.

Lemma released_in_range gb s i : released gb s i = true -> i < NumResources s.
Proof.
  unfold released. intros H. apply andb_true_iff in H.
  apply (ownedBy_in_range s i gb). tauto.
Qed.

Lemma UnlockAll_owner gb s i :
  owner (UnlockAll gb s) i = if released gb s i then None else owner s i.
Proof.
  rewrite (inv_owner _ _ _ _ (UnlockAll_inv_final gb s)).
  destruct (released gb s i) eqn:Hrel.
  - apply released_in_range in Hrel. apply Nat.ltb_lt in Hrel. rewrite Hrel. reflexivity.
  - rewrite andb_false_r. reflexivity.
Qed.

Lemma NumResources_step s op : NumResources (step s op) = NumResources s.
Proof.
  destruct op as [gb r | gb r | gb r | gb]; simpl.
  - unfold LockResource.
    destruct (ownedBy s r gb); [reflexivity |].
    destruct (isFree s r); [| reflexivity]. simpl. apply NumResources_setOwner.
  - unfold UnlockResource. destruct (ownedBy s r gb); [| reflexivity].
    rewrite NumResources_setOwner. reflexivity.
  - unfold GrabResource. destruct (ownedBy s r gb); simpl; [reflexivity |].
    apply NumResources_setOwner.
  - apply (inv_len _ _ _ _ (UnlockAll_inv_final gb s)).
Qed.

Lemma NumResources_run ops s : NumResources (run ops s) = NumResources s.
Proof.
  revert s. induction ops as [| op ops IH]; intros s; [reflexivity |].
  unfold run in *. simpl. rewrite IH. apply NumResources_step.
Qed.

(** An operation of another channel that is not a grab cannot take a
    resource away from its owner. *)
Lemma step_keeps_owner s op c r :
  owns s c r -> opChannel op <> c -> isGrab op = false -> owns (step s op) c r.
Proof.
  unfold owns. intros Ho Hc Hg.
  destruct op as [gb r' | gb r' | gb r' | gb]; simpl in *; try discriminate.
  - rewrite LockResource_owner.
    destruct (Nat.eqb_spec r' r) as [-> | Hne]; simpl; [| exact Ho].
    assert (isFree s r = false) as ->.
    { unfold isFree. apply bool_decide_eq_false. congruence. }
    exact Ho.
  - rewrite UnlockResource_owner.
    destruct (Nat.eqb_spec r' r) as [-> | Hne]; simpl; [| exact Ho].
    assert (ownedBy s r gb = false) as ->.
    { apply ownedBy_false. rewrite Ho. congruence. }
    exact Ho.
  - rewrite UnlockAll_owner.
    assert (released gb s r = false) as ->.
    { unfold released. replace (ownedBy s r gb) with false; [reflexivity |].
      symmetry. apply ownedBy_false. rewrite Ho. congruence. }
    exact Ho.
Qed.

Lemma run_keeps_owner ops s c r :
  owns s c r ->
  Forall (fun op => opChannel op <> c /\ isGrab op = false) ops ->
  owns (run ops s) c r.
Proof.
  revert s. induction ops as [| op ops IH]; intros s Ho Hall; [exact Ho |].
  inversion Hall as [| ? ? [Hc Hg] Hrest]; subst.
  unfold run in *. simpl. apply IH; [| exact Hrest].
  apply step_keeps_owner; assumption.
Qed.



Example LockResource_contended :
  fst (LockResource 2 MoveResource heldByOne) = false
  /\ owner heldByOne MoveResource = Some 1
  /\ lockBit heldByOne 1 MoveResource = true.
Proof. vm_compute. auto. Qed.

Example run_exampleOps :
  owner (run exampleOps initial) MoveResource = Some 1
  /\ owner (run exampleOps initial) FileSystemResource = None.
Proof. vm_compute. auto. Qed.

(** C1.  Whatever sequence of LockResource, UnlockResource, GrabResource
    and UnlockAll calls the channels have made, a resource of the table has
    at most one owner; LockResource succeeds exactly when the resource is
    free or already owned by the caller, makes the caller the owner when it
    succeeds and changes nothing when it fails; UnlockResource clears the
    owner when the caller owns the resource and changes nothing otherwise;
    and no later sequence of LockResource, UnlockResource and UnlockAll
    calls by other channels takes the resource away from its owner. *)
Theorem lock_mutual_exclusion (ops : list LockOp) (s0 : LockState) (r : Resource) :
  r < NumResources s0 ->
  (forall c1 c2, owns (run ops s0) c1 r -> owns (run ops s0) c2 r -> c1 = c2)
  /\ (forall gb,
        (fst (LockResource gb r (run ops s0)) = true
           <-> owner (run ops s0) r = None \/ owner (run ops s0) r = Some gb)
        /\ (fst (LockResource gb r (run ops s0)) = true
              -> owns (snd (LockResource gb r (run ops s0))) gb r)
        /\ (fst (LockResource gb r (run ops s0)) = false
              -> snd (LockResource gb r (run ops s0)) = run ops s0))
  /\ (forall gb,
        (owns (run ops s0) gb r -> owner (UnlockResource gb r (run ops s0)) r = None)
        /\ (~ owns (run ops s0) gb r -> UnlockResource gb r (run ops s0) = run ops s0))
  /\ (forall c others,
        owns (run ops s0) c r ->
        Forall (fun op => opChannel op <> c /\ isGrab op = false) others ->
        owns (run others (run ops s0)) c r).
Proof.
  intros Hr.
  assert (Hr' : r < NumResources (run ops s0)) by (rewrite NumResources_run; exact Hr).
  set (s := run ops s0) in *. clearbody s.
  split; [| split; [| split]].
  - unfold owns. intros c1 c2 H1 H2. congruence.
  - intros gb. split; [| split].
    + unfold LockResource.
      destruct (ownedBy s r gb) eqn:Hown; simpl.
      * apply ownedBy_true in Hown. tauto.
      * apply ownedBy_false in Hown.
        destruct (isFree s r) eqn:Hfree; simpl.
        -- apply isFree_true in Hfree. tauto.
        -- apply bool_decide_eq_false in Hfree.
           split; [discriminate | intros [H | H]; contradiction].
    + intros Hok. unfold owns. rewrite LockResource_owner.
      rewrite Nat.eqb_refl. simpl.
      apply Nat.ltb_lt in Hr'. rewrite Hr', andb_true_r.
      destruct (isFree s r) eqn:Hfree; [reflexivity |].
      unfold LockResource in Hok.
      destruct (ownedBy s r gb) eqn:Hown.
      * apply ownedBy_true in Hown. exact Hown.
      * rewrite Hfree in Hok. discriminate.
    + unfold LockResource.
      destruct (ownedBy s r gb); [discriminate |].
      destruct (isFree s r); [discriminate | reflexivity].
  - intros gb. split.
    + intros Ho. rewrite UnlockResource_owner, Nat.eqb_refl.
      apply ownedBy_true in Ho. rewrite Ho. reflexivity.
    + intros Hno. unfold UnlockResource.
      apply ownedBy_false in Hno. rewrite Hno. reflexivity.
  - intros c others Ho Hall. apply run_keeps_owner; assumption.
Qed.

Lemma lock_mutual_exclusion_witness :
  MoveResource < NumResources initial
  /\ (forall c1 c2,
        owns (run exampleOps initial) c1 MoveResource ->
        owns (run exampleOps initial) c2 MoveResource -> c1 = c2).
Proof.
  assert (H : MoveResource < NumResources initial) by (vm_compute; lia).
  split; [exact H |].
  exact (proj1 (lock_mutual_exclusion exampleOps initial MoveResource H)).
Defined.

(** C3, as the spec states it, fails: after the auto-pause channel (2)
    grabs Movement from channel 1, the lock bit of Movement is still set in
    the current frame of channel 1, where the claim wants it cleared. *)
Lemma grab_leaves_old_owner_bit :
  owner heldByOne MoveResource = Some 1
  /\ owner (GrabResource 2 MoveResource heldByOne) MoveResource = Some 2
  /\ lockBit (GrabResource 2 MoveResource heldByOne) 1 MoveResource = true.
Proof. vm_compute. auto. Qed.

(** C3, amended.  GrabResource always completes and makes the grabbing
    channel the owner of the resource; when the channel was not the owner
    already, its lock bit is set in its current frame; the other entries of
    the owner table, and the whole machine-state stack of every other
    channel (the previous owner included, whose lock bit therefore stays
    set), are left as they were, as are the parent frames of the grabbing
    channel. *)
Theorem GrabResource_transfers (gb : Channel) (r : Resource) (s : LockState) :
  r < NumResources s ->
  owner (GrabResource gb r s) r = Some gb
  /\ (owner s r <> Some gb -> lockBit (GrabResource gb r s) gb r = true)
  /\ (forall r', r' <> r -> owner (GrabResource gb r s) r' = owner s r')
  /\ (forall c, c <> gb -> machineState (GrabResource gb r s) c = machineState s c)
  /\ previous (machineState (GrabResource gb r s) gb) = previous (machineState s gb).
Proof.
  intros Hr. split; [| split; [| split; [| split]]].
  - rewrite GrabResource_owner by exact Hr. rewrite Nat.eqb_refl. reflexivity.
  - intros Hno. apply ownedBy_false in Hno.
    unfold GrabResource. rewrite Hno. simpl.
    rewrite lockBit_updLocked_set, !Nat.eqb_refl. reflexivity.
  - intros r' Hne. rewrite GrabResource_owner by exact Hr.
    destruct (Nat.eqb_spec r r') as [-> | _]; [contradiction | reflexivity].
  - intros c Hc. unfold GrabResource.
    destruct (ownedBy s r gb); simpl; [reflexivity |].
    destruct (Nat.eqb_spec c gb) as [-> | _]; [contradiction | reflexivity].
  - unfold GrabResource.
    destruct (ownedBy s r gb); simpl; [reflexivity |].
    rewrite Nat.eqb_refl. reflexivity.
Qed.

Lemma GrabResource_transfers_witness :
  MoveResource < NumResources heldByOne
  /\ owner (GrabResource 2 MoveResource heldByOne) MoveResource = Some 2.
Proof.
  assert (H : MoveResource < NumResources heldByOne) by (vm_compute; lia).
  split; [exact H |].
  exact (proj1 (GrabResource_transfers 2 MoveResource heldByOne H)).
Defined.

Example UnlockAll_inMacro :
  owner (UnlockAll 1 inMacro) MoveResource = None
  /\ owner (UnlockAll 1 inMacro) FileSystemResource = Some 1
  /\ lockedResources (latest (machineState (UnlockAll 1 inMacro) 1)) = 2%N
  /\ toBeHomed (UnlockAll 1 inMacro) = 0%N.
Proof. vm_compute. auto. Qed.

(** C4.  UnlockAll called by a channel releases exactly the resources that
    the channel owns and whose bits are not set in its parent frame (none
    are kept at top level): for each of them the owner-table entry becomes
    empty and the channel's lock bit is cleared; every other owner-table
    entry and every other lock bit, of this and of every other channel, is
    unchanged, as are all parent frames; and the set of axes to be homed is
    cleared when Movement is among the released resources and is unchanged
    otherwise. *)
Theorem UnlockAll_releases_exactly (gb : Channel) (s : LockState) :
  (forall i,
      owner (UnlockAll gb s) i = if released gb s i then None else owner s i)
  /\ (forall c i,
        lockBit (UnlockAll gb s) c i =
        if Nat.eqb c gb && released gb s i then false else lockBit s c i)
  /\ (forall c,
        previous (machineState (UnlockAll gb s) c) = previous (machineState s c))
  /\ toBeHomed (UnlockAll gb s) =
     (if released gb s MoveResource then 0%N else toBeHomed s)
  /\ (forall i,
        released gb s i = true <->
        owner s i = Some gb /\ IsBitSet (resourcesToKeep gb s) i = false).
Proof.
  pose proof (UnlockAll_inv_final gb s) as [Hlen Hown Hbit Hprev Hhome].
  split; [| split; [| split; [| split]]].
  - apply UnlockAll_owner.
  - intros c i. rewrite Hbit.
    destruct (released gb s i) eqn:Hrel.
    + apply released_in_range in Hrel. apply Nat.ltb_lt in Hrel.
      rewrite Hrel. reflexivity.
    + rewrite !andb_false_r. reflexivity.
  - exact Hprev.
  - rewrite Hhome.
    destruct (released gb s MoveResource) eqn:Hrel.
    + apply released_in_range in Hrel. apply Nat.ltb_lt in Hrel.
      rewrite Hrel. reflexivity.
    + rewrite andb_false_r. reflexivity.
  - intros i. unfold released.
    rewrite andb_true_iff, negb_true_iff, ownedBy_true. tauto.
Qed.


(* --------------------------------------------------------------------- *)
(** ** Publishing a move and taking its segments                          *)
(* --------------------------------------------------------------------- *)


Lemma trace_bind {A B} (c : M A) (k : A -> M B) s :
  trace (bind c k s) = trace (c s) ++ trace (k (result (c s)) (final (c s))).
Proof.
  unfold bind, trace, result, final.
  destruct (c s) as [[a s1] t1]; simpl.
  destruct (k a s1) as [[b s2] t2]; reflexivity.
Qed.

Lemma final_bind {A B} (c : M A) (k : A -> M B) s :
  final (bind c k s) = final (k (result (c s)) (final (c s))).
Proof.
  unfold bind, trace, result, final.
  destruct (c s) as [[a s1] t1]; simpl.
  destruct (k a s1) as [[b s2] t2]; reflexivity.
Qed.

Lemma result_bind {A B} (c : M A) (k : A -> M B) s :
  result (bind c k s) = result (k (result (c s)) (final (c s))).
Proof.
  unfold bind, trace, result, final.
  destruct (c s) as [[a s1] t1]; simpl.
  destruct (k a s1) as [[b s2] t2]; reflexivity.
Qed.

Lemma replay_app t1 t2 s : replay (t1 ++ t2) s = replay t2 (replay t1 s).
Proof. unfold replay. apply fold_left_app. Qed.

Lemma logsOnly_ret {A} P (a : A) : logsOnly P (ret a).
Proof. intros s. split; reflexivity. Qed.

Lemma logsOnly_get P : logsOnly P get.
Proof. intros s. split; reflexivity. Qed.

Lemma logsOnly_write (P : Event -> bool) u : P (EvWrite u) = true -> logsOnly P (write u).
Proof. intros HP s. split; [reflexivity |]. simpl. rewrite HP. reflexivity. Qed.

Lemma logsOnly_emit (P : Event -> bool) e :
  P e = true -> (forall s, apply_event s e = s) -> logsOnly P (emit e).
Proof.
  intros HP He s. split.
  - simpl. unfold replay. simpl. rewrite He. reflexivity.
  - simpl. rewrite HP. reflexivity.
Qed.

Lemma logsOnly_bind {A B} P (c : M A) (k : A -> M B) :
  logsOnly P c -> (forall a, logsOnly P (k a)) -> logsOnly P (bind c k).
Proof.
  intros Hc Hk s.
  destruct (Hc s) as [Hc1 Hc2].
  destruct (Hk (result (c s)) (final (c s))) as [Hk1 Hk2].
  rewrite final_bind, trace_bind. split.
  - rewrite replay_app, <- Hc1. exact Hk1.
  - rewrite forallb_app, Hc2, Hk2. reflexivity.
Qed.

Lemma logsOnly_forM P l body :
  (forall i, logsOnly P (body i)) -> logsOnly P (forM l body).
Proof.
  intros Hb. induction l as [| i l IH]; simpl.
  - apply logsOnly_ret.
  - apply logsOnly_bind; [apply Hb | intros _; exact IH].
Qed.

(** What a list of events leaves alone. *)

Lemma replay_keeps (g : GCodes -> Prop) (P : Event -> bool) :
  (forall e s, P e = true -> g s -> g (apply_event s e)) ->
  forall t s, forallb P t = true -> g s -> g (replay t s).
Proof.
  intros Hstep t. induction t as [| e t IH]; intros s Hall Hg; [exact Hg |].
  simpl in Hall. apply andb_true_iff in Hall as [He Ht].
  unfold replay in *. simpl. apply IH; [exact Ht |]. apply Hstep; assumption.
Qed.

Lemma keepsCounters_step e s :
  keepsCounters e = true ->
  segmentsLeft (moveState (apply_event s e)) = segmentsLeft (moveState s)
  /\ totalSegments (moveState (apply_event s e)) = totalSegments (moveState s).
Proof.
  destruct e as [u | | | | |]; try (intros _; split; reflexivity).
  destruct u; simpl; try discriminate; intros _; split; reflexivity.
Qed.

Lemma replay_keepsCounters t s :
  forallb keepsCounters t = true ->
  segmentsLeft (moveState (replay t s)) = segmentsLeft (moveState s)
  /\ totalSegments (moveState (replay t s)) = totalSegments (moveState s).
Proof.
  intros Hall.
  apply (replay_keeps
           (fun x => segmentsLeft (moveState x) = segmentsLeft (moveState s)
                     /\ totalSegments (moveState x) = totalSegments (moveState s))
           keepsCounters); [| exact Hall | split; reflexivity].
  intros e x He [H1 H2]. destruct (keepsCounters_step e x He) as [H3 H4].
  rewrite H3, H4. split; assumption.
Qed.

Lemma keepsPauseFlags_step e s :
  keepsPauseFlags e = true ->
  canPauseAfter (raw (moveState (apply_event s e))) = canPauseAfter (raw (moveState s))
  /\ doingArcMove (moveState (apply_event s e)) = doingArcMove (moveState s).
Proof.
  destruct e as [u | | | | |]; try (intros _; split; reflexivity).
  destruct u; simpl; try discriminate; intros _; split; reflexivity.
Qed.

Lemma replay_keepsPauseFlags t s :
  forallb keepsPauseFlags t = true ->
  canPauseAfter (raw (moveState (replay t s))) = canPauseAfter (raw (moveState s))
  /\ doingArcMove (moveState (replay t s)) = doingArcMove (moveState s).
Proof.
  intros Hall.
  apply (replay_keeps
           (fun x => canPauseAfter (raw (moveState x)) = canPauseAfter (raw (moveState s))
                     /\ doingArcMove (moveState x) = doingArcMove (moveState s))
           keepsPauseFlags); [| exact Hall | split; reflexivity].
  intros e x He [H1 H2]. destruct (keepsPauseFlags_step e x He) as [H3 H4].
  rewrite H3, H4. split; assumption.
Qed.

Lemma bind_get {A} (k : GCodes -> M A) s : bind get k s = k s s.
Proof. unfold bind, get. destruct (k s s) as [[b s2] t2]. reflexivity. Qed.

Ltac logs :=
  repeat first
    [ apply logsOnly_bind
    | match goal with |- forall _, _ => intro end
    | apply logsOnly_get
    | apply logsOnly_ret
    | apply logsOnly_write; reflexivity
    | apply logsOnly_emit; [reflexivity | reflexivity]
    | apply logsOnly_forM
    | match goal with |- logsOnly _ (if ?b then _ else _) => destruct b end
    | match goal with |- logsOnly _ (match ?x with _ => _ end) => destruct x end ].

Lemma Publishes_NewMoveAvailable n : Publishes n NewMoveAvailable.
Proof.
  intros s Hn. exists []. unfold NewMoveAvailable.
  rewrite bind_get, Hn. repeat split.
Qed.

Lemma Publishes_bind {A B} n (c : M A) (k : A -> M B) :
  logsOnly keepsCounters c -> (forall a, Publishes n (k a)) -> Publishes n (bind c k).
Proof.
  intros Hc Hk s Hn.
  destruct (Hc s) as [Hc1 Hc2].
  destruct (replay_keepsCounters _ s Hc2) as [_ Htot].
  rewrite <- Hc1, Hn in Htot.
  destruct (Hk (result (c s)) (final (c s)) Htot) as (pre & Hpre & Htr & Hfin).
  exists (trace (c s) ++ pre).
  rewrite trace_bind, final_bind, Htr. repeat split.
  - rewrite forallb_app, Hc2, Hpre. reflexivity.
  - apply app_assoc.
  - rewrite Hfin, Htr, (replay_app (trace (c s))), <- Hc1. reflexivity.
Qed.

Ltac publishes :=
  repeat first
    [ apply Publishes_NewMoveAvailable
    | apply Publishes_bind; [logs |]
    | match goal with |- forall _, _ => intro end
    | match goal with |- Publishes _ (if ?b then _ else _) => destruct b end ].

(** [FinaliseMove], when the current object is not cancelled, publishes
    [totalSegments] segments. *)
Lemma FinaliseMove_publishes env gb s :
  currentObjectCancelled s = false ->
  exists pre,
    forallb keepsCounters pre = true
    /\ trace (FinaliseMove env gb s) =
       pre ++ [EvDMB; EvWrite (SetSegmentsLeft (totalSegments (moveState s)));
               EvMoveAvailable]
    /\ final (FinaliseMove env gb s) = replay (trace (FinaliseMove env gb s)) s.
Proof.
  intros Hc. unfold FinaliseMove. rewrite bind_get, Hc.
  match goal with
  | |- context [trace (?c s)] =>
      assert (HP : Publishes (totalSegments (moveState s)) c) by publishes
  end.
  apply HP. reflexivity.
Qed.

(** A cancelled object: nothing is published. *)
Lemma FinaliseMove_cancelled env gb s :
  currentObjectCancelled s = true ->
  forallb keepsCounters (trace (FinaliseMove env gb s)) = true
  /\ final (FinaliseMove env gb s) = replay (trace (FinaliseMove env gb s)) s.
Proof.
  intros Hc. unfold FinaliseMove. rewrite bind_get, Hc.
  match goal with
  | |- context [trace (?c s)] => assert (HL : logsOnly keepsCounters c) by logs
  end.
  destruct (HL s) as [H1 H2]. split; assumption.
Qed.

Lemma FinaliseMove_sound env gb s :
  final (FinaliseMove env gb s) = replay (trace (FinaliseMove env gb s)) s.
Proof.
  destruct (currentObjectCancelled s) eqn:Hc.
  - apply FinaliseMove_cancelled; exact Hc.
  - destruct (FinaliseMove_publishes env gb s Hc) as (pre & _ & _ & H). exact H.
Qed.

Lemma prefix_snoc_cases {A} (p l : list A) (x : A) :
  p `prefix_of` (l ++ [x]) -> p `prefix_of` l \/ p = l ++ [x].
Proof.
  intros [k Hk]. destruct k as [| y k _] using rev_ind.
  - right. rewrite app_nil_r in Hk. symmetry. exact Hk.
  - left. rewrite app_assoc in Hk. apply app_inj_tail in Hk as [Hl _].
    exists k. exact Hl.
Qed.

Lemma forallb_prefix {A} (P : A -> bool) (p l : list A) :
  p `prefix_of` l -> forallb P l = true -> forallb P p = true.
Proof.
  intros [k ->] H. rewrite forallb_app in H. apply andb_true_iff in H. tauto.
Qed.

Lemma FinaliseMove_pauseFlags env gb s :
  canPauseAfter (raw (moveState (final (FinaliseMove env gb s)))) =
    negb (checkEndstops (raw (moveState s))) && negb (doingArcMove (moveState s))
  /\ doingArcMove (moveState (final (FinaliseMove env gb s))) = doingArcMove (moveState s).
Proof.
  unfold FinaliseMove. rewrite bind_get, final_bind.
  change (final (write ?u s)) with (apply_update u s). cbv beta.
  match goal with
  | |- context [final (?c (apply_update ?u s))] =>
      assert (HL : logsOnly keepsPauseFlags c) by logs;
      destruct (HL (apply_update u s)) as [H1 H2];
      destruct (replay_keepsPauseFlags _ (apply_update u s) H2) as [H3 H4];
      rewrite <- H1 in H3, H4
  end.
  split; [rewrite H3 | rewrite H4]; reflexivity.
Qed.

Lemma u32_small z : (0 <= z < 4294967296)%Z -> u32 z = z.
Proof. intros H. unfold u32. apply Z.mod_small. exact H. Qed.

Lemma nextArcAngle_keeps env ms :
  doingArcMove (nextArcAngle env ms) = doingArcMove ms
  /\ canPauseAfter (raw (nextArcAngle env ms)) = canPauseAfter (raw ms)
  /\ segmentsLeft (nextArcAngle env ms) = segmentsLeft ms.
Proof.
  unfold nextArcAngle. destruct (doingArcMove ms) eqn:Hd; simpl; auto.
Qed.

Lemma ReadMove_loop_arc env fuel : forall s,
  ArcInFlight s ->
  (segmentsLeft (moveState s) <= Z.of_nat fuel + 1)%Z ->
  arcOutcome s (ReadMove_loop env fuel s).
Proof.
  induction fuel as [| fuel IH]; intros s (Harc & Hcp & Hlo & Hhi) Hfuel.
  - (* no pass may end in [continue]: exactly one segment is left *)
    assert (Hone : segmentsLeft (moveState s) = 1%Z) by lia.
    simpl. rewrite Hone. simpl. rewrite Harc. simpl. left. split; reflexivity.
  - simpl.
    destruct (Z.eqb_spec (segmentsLeft (moveState s)) 1) as [Hone | Hmore].
    + rewrite Harc. simpl. left. split; reflexivity.
    + destruct (nextArcAngle_keeps env (moveState s)) as (Hd1 & Hc1 & Hs1).
      destruct (fold_left (segmentEndpoint env (nextArcAngle env (moveState s)))
                  (seq 0 (numVisibleAxes env))
                  (initialCoords (nextArcAngle env (moveState s)),
                   coords (raw (moveState s)))) as [ic mc].
      cbn [segmentsLeft set_initialCoords]. rewrite Hs1.
      assert (Hdec : u32 (segmentsLeft (moveState s) - 1) = (segmentsLeft (moveState s) - 1)%Z)
        by (apply u32_small; lia).
      rewrite Hdec.
      destruct (Z.ltb_spec (segmentsLeftToStartAt s) (segmentsLeft (moveState s))) as [Hskip | Hgo].
      * (* skipped segment: go round the loop again *)
        match goal with
        | |- arcOutcome s (ReadMove_loop env fuel ?s1) =>
            assert (Hin : ArcInFlight s1)
              by (unfold ArcInFlight; cbn; rewrite Hd1, Hc1, Harc, Hcp;
                  repeat split; lia);
            assert (Hsl : segmentsLeft (moveState s1) = (segmentsLeft (moveState s) - 1)%Z)
              by reflexivity;
            pose proof (IH s1 Hin ltac:(rewrite Hsl; lia)) as Hout;
            destruct (ReadMove_loop env fuel s1) as [[m |] s']; simpl in *
        end.
        -- destruct Hout as [Hlast | (Hfl & Hlt & Hm)]; [left; exact Hlast |].
           right. repeat split; try assumption; try apply Hfl. lia.
        -- exact Hout.
      * destruct (LimitPosition env mc None (axesVirtuallyHomed env) true) as [lp mc'].
        destruct lp; simpl; try (split; reflexivity).
        right. unfold ArcInFlight; cbn. rewrite Hd1, Hc1, Harc, Hcp.
        repeat split; lia.
Qed.



Example arcPublished_flags :
  canPauseAfter (raw (moveState arcPublished)) = false
  /\ segmentsLeft (moveState arcPublished) = 3%Z
  /\ segmentsLeftToStartAt arcPublished = 3%Z.
Proof. vm_compute. auto. Qed.

(** The three segments of the example arc, as [ReadMove] hands them out:
    a pause is allowed after the last one only. *)
Example arcPublished_segments :
  let r1 := ReadMove exampleEnv arcPublished in
  let r2 := ReadMove exampleEnv (snd r1) in
  let r3 := ReadMove exampleEnv (snd r2) in
  let r4 := ReadMove exampleEnv (snd r3) in
  option_map canPauseAfter (fst r1) = Some false
  /\ option_map canPauseAfter (fst r2) = Some false
  /\ option_map canPauseAfter (fst r3) = Some true
  /\ fst r4 = None.
Proof. vm_compute. auto. Qed.

(** C2.  The publish functions write [segmentsLeft] last: in program order
    NewSingleSegmentMoveAvailable and NewMoveAvailable do nothing after the
    memory barrier but assign [segmentsLeft] and notify the Move task.
    FinaliseMove, unless the current object is cancelled, ends with exactly
    that barrier, assignment and notification, and nothing it logs before
    them touches the segment counters; so, started with no move in flight,
    at every point of its execution either [segmentsLeft] is still 0 or
    the state is already the final one: a reader polling [segmentsLeft]
    sees no partly written move.  And while a move is in flight
    LockMovementAndWaitForStandstill returns false without writing
    anything to the move record. *)
Theorem publish_is_last_write (env : Env) (gb : Channel) (s : GCodes) :
  trace (NewSingleSegmentMoveAvailable s) =
    [EvWrite (SetTotalSegments 1); EvDMB; EvWrite (SetSegmentsLeft 1); EvMoveAvailable]
  /\ trace (NewMoveAvailable s) =
       [EvDMB; EvWrite (SetSegmentsLeft (totalSegments (moveState s))); EvMoveAvailable]
  /\ final (FinaliseMove env gb s) = replay (trace (FinaliseMove env gb s)) s
  /\ (currentObjectCancelled s = false ->
      exists pre,
        forallb keepsCounters pre = true
        /\ trace (FinaliseMove env gb s) =
             pre ++ [EvDMB; EvWrite (SetSegmentsLeft (totalSegments (moveState s)));
                     EvMoveAvailable])
  /\ (segmentsLeft (moveState s) = 0%Z ->
      forall p, p `prefix_of` trace (FinaliseMove env gb s) ->
        segmentsLeft (moveState (replay p s)) = 0%Z
        \/ replay p s = final (FinaliseMove env gb s))
  /\ (segmentsLeft (moveState s) <> 0%Z ->
      result (LockMovementAndWaitForStandstill env gb s) = false
      /\ trace (LockMovementAndWaitForStandstill env gb s) = []
      /\ moveState (final (LockMovementAndWaitForStandstill env gb s)) = moveState s).
Proof.
  split; [reflexivity |].
  split; [unfold NewMoveAvailable; rewrite bind_get; reflexivity |].
  split; [apply FinaliseMove_sound |].
  split; [| split].
  - intros Hc. destruct (FinaliseMove_publishes env gb s Hc) as (pre & H1 & H2 & _).
    exists pre. split; assumption.
  - intros Hidle p Hp.
    destruct (currentObjectCancelled s) eqn:Hc.
    + left. destruct (FinaliseMove_cancelled env gb s Hc) as [Hall _].
      pose proof (forallb_prefix _ _ _ Hp Hall) as Hpall.
      destruct (replay_keepsCounters p s Hpall) as [Hsl _].
      rewrite Hsl. exact Hidle.
    + destruct (FinaliseMove_publishes env gb s Hc) as (pre & Hpre & Htr & Hfin).
      rewrite Hfin, Htr. rewrite Htr in Hp.
      set (w := EvWrite (SetSegmentsLeft (totalSegments (moveState s)))) in *.
      change (pre ++ [EvDMB; w; EvMoveAvailable])
        with (pre ++ [EvDMB; w] ++ [EvMoveAvailable]) in Hp |- *.
      rewrite app_assoc in Hp |- *.
      apply prefix_snoc_cases in Hp as [Hp | ->]; [| right; reflexivity].
      change (pre ++ [EvDMB; w]) with (pre ++ [EvDMB] ++ [w]) in Hp |- *.
      rewrite app_assoc in Hp |- *.
      apply prefix_snoc_cases in Hp as [Hp | ->].
      * left.
        assert (Hall : forallb keepsCounters (pre ++ [EvDMB]) = true)
          by (rewrite forallb_app, Hpre; reflexivity).
        pose proof (forallb_prefix _ _ _ Hp Hall) as Hpall.
        destruct (replay_keepsCounters p s Hpall) as [Hsl _].
        rewrite Hsl. exact Hidle.
      * right. rewrite (replay_app _ [EvMoveAvailable]). reflexivity.
  - intros Hbusy. unfold LockMovementAndWaitForStandstill.
    rewrite bind_get.
    destruct (LockMovement gb (locks s)) as [ok lk] eqn:Hlk.
    apply Z.eqb_neq in Hbusy.
    destruct ok; simpl; rewrite ?Hbusy; simpl; repeat split.
Qed.

Lemma publish_is_last_write_witness :
  currentObjectCancelled arcReady = false
  /\ exists pre,
       forallb keepsCounters pre = true
       /\ trace (FinaliseMove exampleEnv 0 arcReady) =
            pre ++ [EvDMB; EvWrite (SetSegmentsLeft (totalSegments (moveState arcReady)));
                    EvMoveAvailable].
Proof.
  assert (H : currentObjectCancelled arcReady = false) by reflexivity.
  split; [exact H |].
  exact (proj1 (proj2 (proj2 (proj2 (publish_is_last_write exampleEnv 0 arcReady)))) H).
Defined.

(** C10.  FinaliseMove publishes an arc move with [canPauseAfter] false
    (and [segmentsLeft] equal to [totalSegments]); and as long as the arc is
    in flight, ReadMove either hands out the copy of the last segment, the
    one taken when [segmentsLeft] is 1, with [canPauseAfter] true and
    nothing left in flight, or hands out the copy of an earlier segment
    with [canPauseAfter] false and leaves the arc in flight with fewer
    segments, or aborts the move and hands out nothing. *)
Theorem arc_pause_only_after_last_segment (env : Env) (gb : Channel) (s : GCodes) :
  (doingArcMove (moveState s) = true ->
   currentObjectCancelled s = false ->
   (1 <= totalSegments (moveState s) < 4294967296)%Z ->
   canPauseAfter (raw (moveState (final (FinaliseMove env gb s)))) = false
   /\ segmentsLeft (moveState (final (FinaliseMove env gb s))) = totalSegments (moveState s)
   /\ ArcInFlight (final (FinaliseMove env gb s)))
  /\ (ArcInFlight s -> arcOutcome s (ReadMove env s))
  /\ (ArcInFlight s -> segmentsLeft (moveState s) = 1%Z ->
      exists m, fst (ReadMove env s) = Some m /\ canPauseAfter m = true)
  /\ (ArcInFlight s -> forall m, fst (ReadMove env s) = Some m ->
      canPauseAfter m = true -> segmentsLeft (moveState (snd (ReadMove env s))) = 0%Z).
Proof.
  split; [| split; [| split]].
  - intros Harc Hc Hn.
    destruct (FinaliseMove_pauseFlags env gb s) as [Hcp Hd].
    rewrite Harc in Hcp, Hd. rewrite andb_false_r in Hcp.
    destruct (FinaliseMove_publishes env gb s Hc) as (pre & Hpre & Htr & Hfin).
    assert (Hsl : segmentsLeft (moveState (final (FinaliseMove env gb s)))
                  = totalSegments (moveState s)).
    { rewrite Hfin, Htr, replay_app. reflexivity. }
    split; [exact Hcp |]. split; [exact Hsl |].
    unfold ArcInFlight. rewrite Hd, Hcp, Hsl. repeat split; lia.
  - intros Hin. unfold ReadMove.
    destruct Hin as (Harc & Hcp & Hlo & Hhi).
    destruct (Z.eqb_spec (segmentsLeft (moveState s)) 0) as [Hz | _]; [lia |].
    apply ReadMove_loop_arc; [repeat split; assumption | lia].
  - intros (Harc & Hcp & Hlo & Hhi) Hone. unfold ReadMove. rewrite Hone. simpl.
    rewrite Hone, Harc. simpl. eexists. split; reflexivity.
  - intros Hin m Hm Htrue.
    assert (Hout : arcOutcome s (ReadMove env s)).
    { unfold ReadMove.
      destruct Hin as (Harc & Hcp & Hlo & Hhi).
      destruct (Z.eqb_spec (segmentsLeft (moveState s)) 0) as [Hz | _]; [lia |].
      apply ReadMove_loop_arc; [repeat split; assumption | lia]. }
    destruct (ReadMove env s) as [[m' |] s']; simpl in *; [| discriminate].
    injection Hm as ->.
    destruct Hout as [[Hz _] | (_ & _ & Hf)]; [exact Hz | congruence].
Qed.

Lemma arc_pause_only_after_last_segment_witness :
  ArcInFlight arcPublished /\ arcOutcome arcPublished (ReadMove exampleEnv arcPublished).
Proof.
  assert (H : ArcInFlight arcPublished).
  { unfold ArcInFlight. vm_compute. repeat split; discriminate. }
  split; [exact H |].
  exact (proj1 (proj2 (arc_pause_only_after_last_segment exampleEnv 0 arcPublished)) H).
Defined.


(* --------------------------------------------------------------------- *)
(** ** Straight moves                                                     *)
(* --------------------------------------------------------------------- *)


Lemma keepsTotal_step e s :
  keepsTotal e = true ->
  totalSegments (moveState (apply_event s e)) = totalSegments (moveState s).
Proof.
  destruct e as [u | | | | |]; try (intros _; reflexivity).
  destruct u; simpl; try discriminate; intros _; reflexivity.
Qed.

Lemma replay_keepsTotal t s :
  forallb keepsTotal t = true ->
  totalSegments (moveState (replay t s)) = totalSegments (moveState s).
Proof.
  intros Hall.
  apply (replay_keeps
           (fun x => totalSegments (moveState x) = totalSegments (moveState s))
           keepsTotal); [| exact Hall | reflexivity].
  intros e x He H. rewrite (keepsTotal_step e x He). exact H.
Qed.

Lemma FinaliseMove_totalSegments env gb s :
  totalSegments (moveState (final (FinaliseMove env gb s))) = totalSegments (moveState s).
Proof.
  assert (HL : forall s, forallb keepsTotal (trace (FinaliseMove env gb s)) = true).
  { intros s0. unfold FinaliseMove. rewrite bind_get.
    match goal with
    | |- context [trace (?c s0)] => assert (HL : logsOnly keepsTotal c) by logs
    end.
    apply HL. }
  rewrite FinaliseMove_sound. apply replay_keepsTotal. apply HL.
Qed.

Lemma FinaliseMove_segmentsLeft env gb s :
  currentObjectCancelled s = false ->
  segmentsLeft (moveState (final (FinaliseMove env gb s))) = totalSegments (moveState s).
Proof.
  intros Hc.
  destruct (FinaliseMove_publishes env gb s Hc) as (pre & Hpre & Htr & Hfin).
  rewrite Hfin, Htr, replay_app. reflexivity.
Qed.

Lemma finishStraightMove_spec env gb sm s :
  result (finishStraightMove env gb sm s) = MoveQueued
  /\ totalSegments (moveState (final (finishStraightMove env gb sm s)))
     = totalSegments (moveState s)
  /\ (currentObjectCancelled s = false ->
      segmentsLeft (moveState (final (finishStraightMove env gb sm s)))
      = totalSegments (moveState s)).
Proof.
  unfold finishStraightMove.
  rewrite !result_bind, !final_bind. cbv beta.
  change (final (write ?u ?x)) with (apply_update u x).
  change (final (modify ?f ?x)) with (f x).
  change (final (ret ?a ?x)) with x.
  change (result (ret ?a ?x)) with a.
  cbn [moveState with_locks].
  split; [reflexivity |]. split.
  - rewrite FinaliseMove_totalSegments. reflexivity.
  - intros Hc. rewrite FinaliseMove_segmentsLeft; [reflexivity | exact Hc].
Qed.


Example travelX10_length :
  straightMoveLength segmentingEnv travelX10 (moveState (readyX10 (-20))) = F32.of_Z 10
  /\ straightMoveLength segmentingEnv travelX10 (moveState (readyX10 (-11))) = F32.of_Z 10.
Proof. vm_compute. auto. Qed.

Example feedOnly_single_segment :
  totalSegments (moveState (final (DoStraightMove segmentingEnv 0 feedOnly (readyX10 (-20)))))
  = 1%Z.
Proof. vm_compute. reflexivity. Qed.

(** C5, as the spec states it, fails.  On the same segmenting kinematics
    (minimum segment length 0.2 mm, 100 segments per second) two travel
    moves of the same path length, 10 mm, are committed with different
    segment counts, 50 at a low feed rate and 3 at a high one: the count is
    not a function of the path length and of a per-kinematics segment
    length, so no length S makes both equal to ceil(L/S); and 50 is
    10/0.2 rounded to nearest, not a ceiling by a maximum length. *)
Lemma straight_segments_not_ceil :
  totalSegments (moveState (final (DoStraightMove segmentingEnv 0 travelX10 (readyX10 (-20)))))
    = 50%Z
  /\ totalSegments (moveState (final (DoStraightMove segmentingEnv 0 travelX10 (readyX10 (-11)))))
    = 3%Z
  /\ forall claimed : Z,
       ~ (totalSegments
            (moveState (final (DoStraightMove segmentingEnv 0 travelX10 (readyX10 (-20)))))
          = claimed
          /\ totalSegments
               (moveState (final (DoStraightMove segmentingEnv 0 travelX10 (readyX10 (-11)))))
             = claimed).
Proof.
  assert (H1 : totalSegments
                 (moveState (final (DoStraightMove segmentingEnv 0 travelX10 (readyX10 (-20)))))
               = 50%Z) by (vm_compute; reflexivity).
  assert (H2 : totalSegments
                 (moveState (final (DoStraightMove segmentingEnv 0 travelX10 (readyX10 (-11)))))
               = 3%Z) by (vm_compute; reflexivity).
  split; [exact H1 |]. split; [exact H2 |].
  intros claimed [Ha Hb]. rewrite H1 in Ha. rewrite H2 in Hb. congruence.
Qed.

(** C5, amended.  A straight move that mentions no axes is committed with
    [totalSegments] equal to 1 (and, unless the current object is
    cancelled, published with [segmentsLeft] equal to 1).  An ordinary
    straight move (move type 0) that mentions axes and passes the
    position-limit check is committed with the count the kinematics asks
    for, raised to the minimum the mesh asks for when bed compensation is
    in use.  The kinematics asks for 1 segment when it does not segment
    this move, and otherwise for the nearest integer (lrintf, ties to even)
    to the smaller of path length times the reciprocal of the minimum
    segment length and best-case move time times segments per second,
    clamped to at least 1; the path length is measured after the user
    position has been limited. *)
Theorem straight_move_segments (env : Env) (gb : Channel) (sm : StraightMove) (s : GCodes) :
  (IsEmpty (axesMentioned sm) = true ->
     result (DoStraightMove env gb sm s) = MoveQueued
     /\ totalSegments (moveState (final (DoStraightMove env gb sm s))) = 1%Z
     /\ (currentObjectCancelled s = false ->
         segmentsLeft (moveState (final (DoStraightMove env gb sm s))) = 1%Z))
  /\ (moveType (raw (moveState s)) = 0%Z ->
      IsEmpty (axesMentioned sm) = false ->
      fst (prepareStraightMove env gb sm (moveState s)) = None ->
      result (DoStraightMove env gb sm s) = MoveQueued
      /\ totalSegments (moveState (final (DoStraightMove env gb sm s))) =
           meshSegments env sm (snd (prepareStraightMove env gb sm (moveState s)))
             (kinematicsSegments env sm (snd (prepareStraightMove env gb sm (moveState s)))))
  /\ (forall m,
        useSegmentation env
        && (match simulationMode env with simNormal => false | _ => true end)
        && (hasPositiveExtrusion (raw m) || isCoordinated (raw m) || useG0Segmentation env)
        = false ->
        kinematicsSegments env sm m = 1%Z)
  /\ (forall m,
        useSegmentation env
        && (match simulationMode env with simNormal => false | _ => true end)
        && (hasPositiveExtrusion (raw m) || isCoordinated (raw m) || useG0Segmentation env)
        = true ->
        let L := straightMoveLength env sm m in
        let T := F32.div L (F32.mul (feedRate (raw m)) (F32.of_Z (StepClockRate env))) in
        let n := F32.lrintf (F32.fmin (F32.mul L (reciprocalMinSegmentLength env))
                                      (F32.mul T (segmentsPerSecond env))) in
        (n < 4294967296)%Z ->
        kinematicsSegments env sm m = Z.max 1 n)
  /\ (forall m n,
        (n <= meshSegments env sm m n)%Z
        /\ (IsUsingMesh env = false -> meshSegments env sm m n = n)).
Proof.
  split; [| split; [| split; [| split]]].
  - intros Hempty. unfold DoStraightMove. rewrite bind_get, Hempty.
    destruct (negb (moveType (raw (moveState s)) =? 0)%Z).
    + rewrite !result_bind, !final_bind. cbv beta.
      change (final (write ?u ?x)) with (apply_update u x).
      match goal with
      | |- context [finishStraightMove env gb sm ?s1] =>
          destruct (finishStraightMove_spec env gb sm s1) as (Hr & Ht & Hs)
      end.
      split; [exact Hr |]. split; [rewrite Ht; reflexivity |].
      intros Hc. rewrite Hs; [reflexivity | exact Hc].
    + rewrite !result_bind, !final_bind. cbv beta.
      change (final (write ?u ?x)) with (apply_update u x).
      match goal with
      | |- context [finishStraightMove env gb sm ?s1] =>
          destruct (finishStraightMove_spec env gb sm s1) as (Hr & Ht & Hs)
      end.
      split; [exact Hr |]. split; [rewrite Ht; reflexivity |].
      intros Hc. rewrite Hs; [reflexivity | exact Hc].
  - intros Htype Haxes Hok. unfold DoStraightMove.
    rewrite bind_get, Htype, Haxes.
    change (negb (0 =? 0)%Z) with false. cbv iota.
    destruct (prepareStraightMove env gb sm (moveState s)) as [err ms3].
    simpl in Hok. subst err. cbn [snd]. cbv beta iota.
    rewrite !result_bind, !final_bind. cbv beta.
    change (final (modify ?f ?x)) with (f x).
    match goal with
    | |- context [finishStraightMove env gb sm ?s1] =>
        destruct (finishStraightMove_spec env gb sm s1) as (Hr & Ht & _)
    end.
    split; [exact Hr |]. rewrite Ht. reflexivity.
  - intros m Hoff. unfold kinematicsSegments. rewrite Hoff. reflexivity.
  - intros m Hon L T n Hn. unfold kinematicsSegments. rewrite Hon.
    fold L. fold T. fold n. apply u32_small. lia.
  - intros m n. unfold meshSegments. split.
    + destruct (IsUsingMesh env && _); [| lia].
      match goal with |- context [Z.ltb n ?k] => destruct (Z.ltb_spec n k) end; lia.
    + intros ->. reflexivity.
Qed.

Lemma straight_move_segments_witness :
  IsEmpty (axesMentioned feedOnly) = true
  /\ totalSegments
       (moveState (final (DoStraightMove segmentingEnv 0 feedOnly (readyX10 (-20))))) = 1%Z.
Proof.
  assert (H : IsEmpty (axesMentioned feedOnly) = true) by reflexivity.
  split; [exact H |].
  exact (proj1 (proj2 (proj1 (straight_move_segments segmentingEnv 0 feedOnly
                                (readyX10 (-20))) H))).
Defined.

(* --------------------------------------------------------------------- *)
(** ** Arc moves                                                          *)
(* --------------------------------------------------------------------- *)

Lemma F32_sub_self x : F32.is_finite x = true -> F32.sub x x = F32.zero.
Proof.
  destruct x as [s | s | | s m e]; try discriminate; intros _.
  - destruct s; reflexivity.
  - unfold F32.sub, SFsub. rewrite Z.sub_diag. reflexivity.
Qed.

Lemma F32_eqb_signed_zero (negate : bool) (s : bool) :
  F32.eqb (if negate then F32.opp (S754_zero s) else S754_zero s) F32.zero = true.
Proof. destruct negate, s; reflexivity. Qed.

Example semicircle_queued :
  result (DoArcMove exampleEnv 0 semicircle false idle) = MoveQueued
  /\ totalSegments (moveState (final (DoArcMove exampleEnv 0 semicircle false idle))) = 10%Z
  /\ arcCentre (arc (moveState (final (DoArcMove exampleEnv 0 semicircle false idle))))
     = [F32.of_Z 5; F32.zero; F32.zero]
  /\ arcAngleIncrement (arc (moveState (final (DoArcMove exampleEnv 0 semicircle false idle))))
     = F32.div F32.Pi (F32.of_Z 10).
Proof. vm_compute. auto. Qed.

Example fullCircle_queued :
  arcWhole exampleEnv fullCircle idle = true
  /\ result (DoArcMove exampleEnv 0 fullCircle true idle) = MoveQueued
  /\ totalSegments (moveState (final (DoArcMove exampleEnv 0 fullCircle true idle))) = 20%Z
  /\ arcAngleIncrement (arc (moveState (final (DoArcMove exampleEnv 0 fullCircle true idle))))
     = F32.opp (F32.div F32.TwoPi (F32.of_Z 20)).
Proof. vm_compute. auto. Qed.

Example radius_semicircle :
  arcOffsetsFromRadius true (F32.of_Z 5) (F32.of_Z 10) F32.zero
  = inr (F32.zero, F32.of_Z 5, F32.zero).
Proof. vm_compute. reflexivity. Qed.

Example radius_much_too_short :
  arcOffsetsFromRadius true (F32.of_Z 4) (F32.of_dyadic 65 (-3)) F32.zero
  = inl radiusTooSmall.
Proof. vm_compute. reflexivity. Qed.

(** C6, as the spec states it, fails in its first part.  With R = 4 and
    the end point 8.0625 away from the start, the squared chord is
    65.00390625, more than 4 R^2 = 64, yet no error is returned: the
    perpendicular is clamped to zero and the arc is queued. *)
Lemma radius_slightly_short_is_accepted :
  F32.gtb (F32.add (F32.fsquare (F32.of_dyadic 129 (-4))) (F32.fsquare F32.zero))
          (F32.mul (F32.of_Z 4) (F32.fsquare (F32.of_Z 4))) = true
  /\ arcOffsetsFromRadius true (F32.of_Z 4) (F32.of_dyadic 129 (-4)) F32.zero
     = inr (F32.zero, F32.of_dyadic 129 (-5), F32.zero)
  /\ result (DoArcMove exampleEnv 0 (radiusArc 129 (-4) 4 0) true idle) = MoveQueued
  /\ segmentsLeft (moveState (final (DoArcMove exampleEnv 0 (radiusArc 129 (-4) 4 0) true idle)))
     = 9%Z.
Proof. vm_compute. auto. Qed.

(** C6, amended.  For a radius-specified arc whose start and end points
    differ, with hSquared = R^2 - dSquared/4 as the code computes it: the
    "radius is too small to reach endpoint" error is returned exactly when
    hSquared is negative and below -0.02 R^2 (the radius more than about
    1% too short), and then DoArcMove returns that error without logging
    any write and without changing the segment counters, so no move is
    committed; a negative hSquared within the tolerance is clamped,
    hDivD being zero; and when dSquared/4 equals R^2 (a 180-degree arc)
    the offsets are computed with hDivD equal to zero. *)
Theorem radius_arc_tolerance (clockwise : bool) (rParam d0 d1 : float) :
  F32.eqb (F32.add (F32.fsquare d0) (F32.fsquare d1)) F32.zero = false ->
  (arcOffsetsFromRadius clockwise rParam d0 d1 = inl radiusTooSmall
   <-> F32.geb (F32.sub (F32.fsquare rParam)
                        (F32.div (F32.add (F32.fsquare d0) (F32.fsquare d1)) (F32.of_Z 4)))
               F32.zero = false
       /\ F64.ltb (F64.of_float
                     (F32.sub (F32.fsquare rParam)
                        (F32.div (F32.add (F32.fsquare d0) (F32.fsquare d1)) (F32.of_Z 4))))
                  (F64.mul (F64.opp F64.c0_02) (F64.of_float (F32.fsquare rParam))) = true)
  /\ (F32.geb (F32.sub (F32.fsquare rParam)
                       (F32.div (F32.add (F32.fsquare d0) (F32.fsquare d1)) (F32.of_Z 4)))
              F32.zero = false ->
      F64.ltb (F64.of_float
                 (F32.sub (F32.fsquare rParam)
                    (F32.div (F32.add (F32.fsquare d0) (F32.fsquare d1)) (F32.of_Z 4))))
              (F64.mul (F64.opp F64.c0_02) (F64.of_float (F32.fsquare rParam))) = false ->
      exists hDivD iParam jParam,
        arcOffsetsFromRadius clockwise rParam d0 d1 = inr (hDivD, iParam, jParam)
        /\ F32.eqb hDivD F32.zero = true)
  /\ (F32.div (F32.add (F32.fsquare d0) (F32.fsquare d1)) (F32.of_Z 4) = F32.fsquare rParam ->
      F32.is_finite (F32.fsquare rParam) = true ->
      exists hDivD iParam jParam,
        arcOffsetsFromRadius clockwise rParam d0 d1 = inr (hDivD, iParam, jParam)
        /\ F32.eqb hDivD F32.zero = true)
  /\ (forall env gb cmd s e,
        arcParam cmd "R"%char = Some rParam ->
        d0 = F32.sub (fst (arcTarget env cmd s)) (fst (arcStart cmd s)) ->
        d1 = F32.sub (snd (arcTarget env cmd s)) (snd (arcStart cmd s)) ->
        arcOffsetsFromRadius clockwise rParam d0 d1 = inl e ->
        result (DoArcMove env gb cmd clockwise s) = MoveError e
        /\ trace (DoArcMove env gb cmd clockwise s) = []
        /\ segmentsLeft (moveState (final (DoArcMove env gb cmd clockwise s)))
           = segmentsLeft (moveState s)
        /\ totalSegments (moveState (final (DoArcMove env gb cmd clockwise s)))
           = totalSegments (moveState s)).
Proof.
  intros Hd.
  set (dSquared := F32.add (F32.fsquare d0) (F32.fsquare d1)) in *.
  set (hSquared := F32.sub (F32.fsquare rParam) (F32.div dSquared (F32.of_Z 4))).
  split; [| split; [| split]].
  - unfold arcOffsetsFromRadius. fold dSquared. rewrite Hd. fold hSquared.
    destruct (F32.geb hSquared F32.zero).
    + split; [discriminate | intros [H _]; discriminate].
    + destruct (F64.ltb (F64.of_float hSquared) _).
      * split; [intros _; split; reflexivity | reflexivity].
      * split; [discriminate | intros [_ H]; discriminate].
  - intros Hneg Htol.
    unfold arcOffsetsFromRadius. fold dSquared. rewrite Hd. fold hSquared.
    rewrite Hneg, Htol.
    do 3 eexists. split; [reflexivity |].
    apply (F32_eqb_signed_zero _ false).
  - intros Heq Hfin.
    unfold arcOffsetsFromRadius. fold dSquared. rewrite Hd.
    rewrite Heq, (F32_sub_self _ Hfin).
    change (F32.geb F32.zero F32.zero) with true. cbv iota.
    assert (Hz : exists sz, F32.fastSqrtf (F32.div F32.zero dSquared) = S754_zero sz).
    { destruct dSquared as [sd | sd | | sd md ed] eqn:Hds.
      - discriminate Hd.
      - rewrite <- Heq in Hfin. discriminate Hfin.
      - rewrite <- Heq in Hfin. discriminate Hfin.
      - exists sd. reflexivity. }
    destruct Hz as [sz Hz]. rewrite Hz.
    do 3 eexists. split; [reflexivity |].
    apply F32_eqb_signed_zero.
  - intros env gb cmd s e HR Hd0 Hd1 Herr.
    unfold DoArcMove. rewrite bind_get.
    rewrite result_bind, trace_bind, final_bind. cbv beta.
    change (final (modify ?f ?x)) with (f x).
    change (trace (modify ?f ?x)) with (@nil Event).
    unfold arcOffsets. rewrite HR, <- Hd0, <- Hd1, Herr.
    repeat split.
Qed.

Lemma radius_arc_tolerance_witness :
  F32.eqb (F32.add (F32.fsquare (F32.of_dyadic 65 (-3))) (F32.fsquare F32.zero)) F32.zero
  = false
  /\ (arcOffsetsFromRadius true (F32.of_Z 4) (F32.of_dyadic 65 (-3)) F32.zero
      = inl radiusTooSmall
      <-> F32.geb (F32.sub (F32.fsquare (F32.of_Z 4))
                     (F32.div (F32.add (F32.fsquare (F32.of_dyadic 65 (-3)))
                                       (F32.fsquare F32.zero)) (F32.of_Z 4)))
                  F32.zero = false
          /\ F64.ltb (F64.of_float
                        (F32.sub (F32.fsquare (F32.of_Z 4))
                           (F32.div (F32.add (F32.fsquare (F32.of_dyadic 65 (-3)))
                                             (F32.fsquare F32.zero)) (F32.of_Z 4))))
                     (F64.mul (F64.opp F64.c0_02) (F64.of_float (F32.fsquare (F32.of_Z 4))))
             = true).
Proof.
  assert (H : F32.eqb (F32.add (F32.fsquare (F32.of_dyadic 65 (-3))) (F32.fsquare F32.zero))
                      F32.zero = false) by (vm_compute; reflexivity).
  split; [exact H |].
  exact (proj1 (radius_arc_tolerance true (F32.of_Z 4) (F32.of_dyadic 65 (-3)) F32.zero H)).
Defined.

Lemma apply_event_arc e s : arc (moveState (apply_event s e)) = arc (moveState s).
Proof.
  destruct e as [u | | | | |]; try reflexivity.
  destruct u; reflexivity.
Qed.

Lemma replay_arc t s : arc (moveState (replay t s)) = arc (moveState s).
Proof.
  revert s. induction t as [| e t IH]; intros s; [reflexivity |].
  unfold replay in *. simpl. rewrite IH. apply apply_event_arc.
Qed.

Lemma FinaliseMove_arc env gb s :
  arc (moveState (final (FinaliseMove env gb s))) = arc (moveState s).
Proof. rewrite FinaliseMove_sound. apply replay_arc. Qed.

(** What [commitArc] leaves behind. *)
Lemma commitArc_spec env gb cmd clockwise mentioned total s :
  result (commitArc env gb cmd clockwise mentioned total s) = MoveQueued
  /\ totalSegments (moveState (final (commitArc env gb cmd clockwise mentioned total s)))
     = arcSegments env (arcRadius (arc (moveState s))) (feedRate (raw (moveState s))) total
  /\ arcAngleIncrement
       (arc (moveState (final (commitArc env gb cmd clockwise mentioned total s))))
     = (if clockwise
        then F32.opp
               (F32.div total
                  (F32.of_Z (arcSegments env (arcRadius (arc (moveState s)))
                               (feedRate (raw (moveState s))) total)))
        else F32.div total
               (F32.of_Z (arcSegments env (arcRadius (arc (moveState s)))
                            (feedRate (raw (moveState s))) total)))
  /\ doingArcMove (moveState (final (commitArc env gb cmd clockwise mentioned total s))) = true
  /\ canPauseAfter
       (raw (moveState (final (commitArc env gb cmd clockwise mentioned total s)))) = false.
Proof.
  unfold commitArc. rewrite bind_get.
  rewrite !result_bind, !final_bind. cbv beta.
  change (final (write ?u ?x)) with (apply_update u x).
  change (final (modify ?f ?x)) with (f x).
  change (final (ret ?a ?x)) with x.
  change (result (ret ?a ?x)) with a.
  cbn [moveState with_locks].
  match goal with
  | |- context [FinaliseMove env gb ?s1] =>
      pose proof (FinaliseMove_totalSegments env gb s1) as Ht;
      pose proof (FinaliseMove_arc env gb s1) as Ha;
      destruct (FinaliseMove_pauseFlags env gb s1) as [Hp Hd]
  end.
  split; [reflexivity |].
  split; [rewrite Ht; reflexivity |].
  split; [rewrite Ha; destruct clockwise; reflexivity |].
  split; [rewrite Hd; reflexivity |].
  rewrite Hp. cbn. apply andb_false_r.
Qed.

(** A queued arc turns by the total angle over its segments: the angle of
    one segment is the total angle divided by the number of segments,
    negated for a clockwise arc; and a whole circle has the total angle
    [TwoPi]. *)
Lemma DoArcMove_angle env gb cmd clockwise s :
  result (DoArcMove env gb cmd clockwise s) = MoveQueued ->
  exists angle theta,
    arcAngleIncrement (arc (moveState (final (DoArcMove env gb cmd clockwise s))))
    = (if clockwise
       then F32.opp
              (F32.div (totalArc clockwise (arcWhole env cmd s) angle theta)
                 (F32.of_Z (totalSegments
                              (moveState (final (DoArcMove env gb cmd clockwise s))))))
       else F32.div (totalArc clockwise (arcWhole env cmd s) angle theta)
              (F32.of_Z (totalSegments
                           (moveState (final (DoArcMove env gb cmd clockwise s)))))).
Proof.
  unfold DoArcMove. rewrite bind_get.
  rewrite result_bind, final_bind. cbv beta.
  change (final (modify ?f ?x)) with (f x).
  change (result (modify ?f ?x)) with tt.
  destruct (arcOffsets cmd clockwise _ _ _ _) as [e | [iParam jParam]];
    [discriminate |].
  destruct (fold_left (arcOtherAxis env cmd (moveFractionToSkip s)) _ _) as [pos2 mentioned].
  rewrite result_bind, final_bind. cbv beta.
  change (final (modify ?f ?x)) with (f x).
  destruct (CheckEnoughAxesHomed env mentioned); [discriminate |].
  destruct (LimitPosition env _ None (axesVirtuallyHomed env) true) as [lp cs'].
  rewrite result_bind, final_bind. cbv beta.
  change (final (modify ?f ?x)) with (f x).
  destruct lp; try discriminate.
  destruct (LoadExtrusionAndFeedrateFromGCode env gb true _) as [err r3].
  rewrite result_bind, final_bind. cbv beta.
  change (final (modify ?f ?x)) with (f x).
  destruct err as [e |]; [discriminate |].
  destruct (firstMoveSincePrintingResumed s && hasPositiveExtrusion r3).
  - rewrite !result_bind. discriminate.
  - intros _. rewrite !final_bind. cbv beta.
    match goal with
    | |- context [commitArc env gb cmd clockwise mentioned (totalArc _ _ ?a ?t) ?s1] =>
        destruct (commitArc_spec env gb cmd clockwise mentioned
                    (totalArc clockwise (arcWhole env cmd s) a t) s1)
          as (_ & Hn & Hinc & _);
        exists a, t
    end.
    rewrite Hinc, Hn. reflexivity.
Qed.

(** C7.  With [atan2] returning the values the C standard prescribes for a
    zero first argument (+0 for a positive second argument, -pi for -0 and
    a negative second argument): for the arc from (0,0) to (10,0) with
    I = 5, J = 0, counter-clockwise, the centre computed is (5,0), the arc
    is not a whole circle and the total angle computed is [Pi]; whenever
    the start and end points coincide the total angle is [TwoPi], and a
    whole circle that DoArcMove queues turns by [TwoPi] divided by the
    number of segments at each segment. *)
Theorem arc_total_angle (atan2 : float -> float -> float) :
  atan2 F32.zero (F32.of_Z 5) = F32.zero ->
  atan2 (F32.opp F32.zero) (F32.opp (F32.of_Z 5)) = F32.opp F32.Pi ->
  userArcCentre F32.zero F32.zero (F32.of_Z 5) F32.zero = (F32.of_Z 5, F32.zero)
  /\ wholeCircle F32.zero F32.zero (F32.of_Z 10) F32.zero = false
  /\ totalArc false (wholeCircle F32.zero F32.zero (F32.of_Z 10) F32.zero)
       (initialTheta atan2 (F32.of_Z 5) F32.zero)
       (finalTheta atan2 (userArcCentre F32.zero F32.zero (F32.of_Z 5) F32.zero)
                   (F32.of_Z 10) F32.zero)
     = F32.Pi
  /\ (forall clockwise angle theta, totalArc clockwise true angle theta = F32.TwoPi)
  /\ (forall env gb cmd clockwise s,
        arcWhole env cmd s = true ->
        result (DoArcMove env gb cmd clockwise s) = MoveQueued ->
        arcAngleIncrement (arc (moveState (final (DoArcMove env gb cmd clockwise s))))
        = (if clockwise
           then F32.opp
                  (F32.div F32.TwoPi
                     (F32.of_Z (totalSegments
                                  (moveState (final (DoArcMove env gb cmd clockwise s))))))
           else F32.div F32.TwoPi
                  (F32.of_Z (totalSegments
                               (moveState (final (DoArcMove env gb cmd clockwise s))))))).
Proof.
  intros Hpos Hneg.
  split; [reflexivity |]. split; [reflexivity |]. split; [| split].
  - unfold totalArc, initialTheta, finalTheta.
    change (wholeCircle F32.zero F32.zero (F32.of_Z 10) F32.zero) with false.
    change (F32.sub F32.zero
              (snd (userArcCentre F32.zero F32.zero (F32.of_Z 5) F32.zero)))
      with F32.zero.
    change (F32.sub (F32.of_Z 10)
              (fst (userArcCentre F32.zero F32.zero (F32.of_Z 5) F32.zero)))
      with (F32.of_Z 5).
    rewrite Hpos, Hneg. vm_compute. reflexivity.
  - reflexivity.
  - intros env gb cmd clockwise s Hwhole Hq.
    destruct (DoArcMove_angle env gb cmd clockwise s Hq) as (angle & theta & Hinc).
    rewrite Hwhole in Hinc. exact Hinc.
Qed.

Lemma arc_total_angle_witness :
  atan2_axes F32.zero (F32.of_Z 5) = F32.zero
  /\ atan2_axes (F32.opp F32.zero) (F32.opp (F32.of_Z 5)) = F32.opp F32.Pi
  /\ totalArc false (wholeCircle F32.zero F32.zero (F32.of_Z 10) F32.zero)
       (initialTheta atan2_axes (F32.of_Z 5) F32.zero)
       (finalTheta atan2_axes (userArcCentre F32.zero F32.zero (F32.of_Z 5) F32.zero)
                   (F32.of_Z 10) F32.zero)
     = F32.Pi.
Proof.
  assert (H1 : atan2_axes F32.zero (F32.of_Z 5) = F32.zero) by reflexivity.
  assert (H2 : atan2_axes (F32.opp F32.zero) (F32.opp (F32.of_Z 5)) = F32.opp F32.Pi)
    by reflexivity.
  split; [exact H1 |]. split; [exact H2 |].
  exact (proj1 (proj2 (proj2 (arc_total_angle atan2_axes H1 H2)))).
Defined.

(* --------------------------------------------------------------------- *)
(** ** Trigger arbitration                                                *)
(* --------------------------------------------------------------------- *)

Section TriggerFacts.
Import Triggers.

Lemma lowestSetBit_pos_set p :
  Pos.testbit p (N.of_nat (lowestSetBit_pos p)) = true.
Proof.
  induction p as [p IH | p IH |]; try reflexivity.
  cbn [lowestSetBit_pos]. rewrite Nat2N.inj_succ.
  destruct (N.of_nat (lowestSetBit_pos p)) as [| q] eqn:Hq; simpl.
  - exact IH.
  - rewrite Pos.pred_N_succ. exact IH.
Qed.

Lemma lowestSetBit_pos_below p i :
  i < lowestSetBit_pos p -> Pos.testbit p (N.of_nat i) = false.
Proof.
  revert i. induction p as [p IH | p IH |]; intros i Hi; simpl in Hi; try lia.
  destruct i as [| i]; [reflexivity |].
  rewrite Nat2N.inj_succ.
  assert (Hi' : i < lowestSetBit_pos p) by lia.
  specialize (IH i Hi').
  destruct (N.of_nat i) as [| q] eqn:Hq; simpl.
  - exact IH.
  - rewrite Pos.pred_N_succ. exact IH.
Qed.

(** [LowestSetBit] of a non-empty bitmap is a set bit, and no bit below it
    is set. *)
Lemma LowestSetBit_spec b :
  b <> 0%N ->
  IsBitSet b (LowestSetBit b) = true
  /\ forall i, i < LowestSetBit b -> IsBitSet b i = false.
Proof.
  destruct b as [| p]; [congruence | intros _]. split.
  - apply lowestSetBit_pos_set.
  - intros i Hi. apply lowestSetBit_pos_below. exact Hi.
Qed.

Lemma IsBitSet_zero i : IsBitSet 0 i = false.
Proof. unfold IsBitSet. apply N.bits_0. Qed.

(** What the detection loop leaves pending. *)
Lemma detectTriggers_spec MaxTriggers check pending i :
  IsBitSet (detectTriggers MaxTriggers check pending) i
  = (IsBitSet pending i || ((i <? MaxTriggers) && check i)).
Proof.
  unfold detectTriggers. induction MaxTriggers as [| k IH].
  - simpl. rewrite orb_false_r. reflexivity.
  - rewrite seq_S, fold_left_app. simpl.
    set (b := fold_left _ (seq 0 k) pending) in *.
    assert (Hstep : IsBitSet (if negb (IsBitSet b k) && check k then SetBit b k else b) i
                    = (IsBitSet b i || (Nat.eqb k i && check k))).
    { destruct (negb (IsBitSet b k) && check k) eqn:Hc.
      - apply andb_true_iff in Hc as [_ Hck]. rewrite Hck, andb_true_r.
        rewrite IsBitSet_SetBit. apply orb_comm.
      - destruct (Nat.eqb_spec k i) as [<- | Hne]; simpl.
        + destruct (IsBitSet b k) eqn:Hb; simpl in *; [reflexivity |].
          rewrite Hc. reflexivity.
        + rewrite orb_false_r. reflexivity. }
    rewrite Hstep, IH.
    destruct (Nat.eqb_spec k i) as [<- | Hne].
    + replace (k <? k) with false by (symmetry; apply Nat.ltb_irrefl).
      replace (k <? S k) with true by (symmetry; apply Nat.ltb_lt; lia).
      simpl. rewrite orb_false_r. reflexivity.
    + replace (i <? S k) with (i <? k); [simpl; rewrite orb_false_r; reflexivity |].
      destruct (Nat.ltb_spec i k), (Nat.ltb_spec i (S k)); try reflexivity; lia.
Qed.

Example arbitration_1_3_5 :
  fst (CheckTriggers 16 6 (fun _ => false) (printingWith 42 Locks.initial)) = Some CallDoPause
  /\ triggersPending (snd (CheckTriggers 16 6 (fun _ => false) (printingWith 42 Locks.initial)))
     = 40%N
  /\ CheckTriggers 16 6 (fun _ => false) (printingWith 42 heldByOne)
     = (None, printingWith 42 heldByOne).
Proof. vm_compute. auto. Qed.

(** A pause trigger that arrives while nothing is printing is not
    discarded while the trigger channel is busy: it stays pending. *)
Lemma pause_trigger_kept_while_busy :
  IsReallyPrinting busyNotPrinting = false
  /\ IsBitSet (triggersPending busyNotPrinting) 1 = true
  /\ CheckTriggers 16 6 (fun _ => false) busyNotPrinting = (None, busyNotPrinting).
Proof. vm_compute. auto. Qed.

(** One poll of CheckTriggers.  With [pend] the pending triggers after
    detection and [low] the lowest of them: the call made, if any, is the
    one for trigger [low], whose bit is then cleared; no other bit
    changes; trigger 0 calls DoEmergencyStop whatever the state of the
    trigger channel and of the print; triggers 1 and above are left
    pending while the trigger channel is busy; with the channel idle, a
    pause trigger is dropped when not really printing, calls DoPause once
    Movement has been locked for the trigger channel, and otherwise stays
    pending with every other bit; a higher trigger calls DoFileMacro on
    "trigger<low>.g". *)
Theorem CheckTriggers_arbitration (MaxTriggers : nat) (triggerGCode : Channel)
    (check : nat -> bool) (s0 : TriggerState) :
  let pend := detectTriggers MaxTriggers check (triggersPending s0) in
  let s := with_pending pend s0 in
  let low := LowestSetBit pend in
  let r := CheckTriggers MaxTriggers triggerGCode check s0 in
  (pend = 0%N -> r = (None, s))
  /\ (pend <> 0%N ->
      IsBitSet pend low = true
      /\ (forall i, i < low -> IsBitSet pend i = false)
      /\ (forall i, i <> low ->
            IsBitSet (triggersPending (snd r)) i = IsBitSet pend i)
      /\ (fst r <> None -> IsBitSet (triggersPending (snd r)) low = false)
      /\ (low = 0 -> r = (Some CallDoEmergencyStop, with_pending (ClearBit pend 0) s))
      /\ (low <> 0 -> triggerIdle s0 = false -> r = (None, s))
      /\ (low = 1 -> triggerIdle s0 = true -> IsReallyPrinting s0 = false ->
            r = (None, with_pending (ClearBit pend 1) s))
      /\ (low = 1 -> triggerIdle s0 = true -> IsReallyPrinting s0 = true ->
            fst (LockMovement triggerGCode (locks s0)) = true ->
            r = (Some CallDoPause,
                 with_locks (snd (LockMovement triggerGCode (locks s0)))
                   (with_pending (ClearBit pend 1) s)))
      /\ (low = 1 -> triggerIdle s0 = true -> IsReallyPrinting s0 = true ->
            fst (LockMovement triggerGCode (locks s0)) = false ->
            r = (None, s))
      /\ (2 <= low -> triggerIdle s0 = true ->
            r = (Some (CallDoFileMacro (triggerFileName low)),
                 with_pending (ClearBit pend low) s))).
Proof.
  intros pend s low r. split.
  - intros Hz. unfold r, CheckTriggers.
    change (detectTriggers MaxTriggers check (triggersPending s0)) with pend.
    cbv zeta. cbn [triggersPending with_pending]. unfold s. rewrite Hz. reflexivity.
  - intros Hnz.
    destruct (LowestSetBit_spec pend Hnz) as [Hset Hbelow]. fold low in Hset, Hbelow.
    assert (Hne : negb (N.eqb pend 0) = true).
    { apply negb_true_iff. apply N.eqb_neq. exact Hnz. }
    assert (Hr : r =
      if Nat.eqb low 0 then (Some CallDoEmergencyStop, with_pending (ClearBit pend low) s)
      else if triggerIdle s0 then
        if Nat.eqb low 1 then
          if negb (IsReallyPrinting s0) then (None, with_pending (ClearBit pend low) s)
          else if fst (LockMovement triggerGCode (locks s0))
               then (Some CallDoPause,
                     with_locks (snd (LockMovement triggerGCode (locks s0)))
                       (with_pending (ClearBit pend low) s))
               else (None, with_locks (snd (LockMovement triggerGCode (locks s0))) s)
        else (Some (CallDoFileMacro (triggerFileName low)),
              with_pending (ClearBit pend low) s)
      else (None, s)).
    { unfold r, CheckTriggers.
      change (detectTriggers MaxTriggers check (triggersPending s0)) with pend.
      cbv zeta. cbn [triggersPending with_pending]. rewrite Hne. reflexivity. }
    assert (Hfail : fst (LockMovement triggerGCode (locks s0)) = false ->
                    with_locks (snd (LockMovement triggerGCode (locks s0))) s = s).
    { unfold LockMovement, LockResource.
      destruct (ownedBy (locks s0) MoveResource triggerGCode); [discriminate |].
      destruct (isFree (locks s0) MoveResource); [discriminate |].
      intros _. reflexivity. }
    split; [exact Hset |]. split; [exact Hbelow |].
    split; [| split; [| split; [| split; [| split; [| split; [| split]]]]]].
    + intros i Hi. rewrite Hr.
      repeat match goal with
             | |- context [if ?b then _ else _] => destruct b
             end;
        cbn [snd triggersPending with_pending with_locks];
        try reflexivity;
        rewrite IsBitSet_ClearBit;
        (destruct (Nat.eqb_spec low i) as [-> | _]; [contradiction |]);
        apply andb_true_r.
    + rewrite Hr.
      repeat match goal with
             | |- context [if ?b then _ else _] => destruct b
             end;
        cbn [fst snd triggersPending with_pending with_locks];
        intros Hact; try (exfalso; apply Hact; reflexivity);
        rewrite IsBitSet_ClearBit, Nat.eqb_refl; apply andb_false_r.
    + intros Hlow. rewrite Hr, Hlow. reflexivity.
    + intros Hlow Hbusy. rewrite Hr, Hbusy.
      destruct (Nat.eqb_spec low 0); [contradiction | reflexivity].
    + intros Hlow Hidle Hnp. rewrite Hr, Hlow, Hidle, Hnp. reflexivity.
    + intros Hlow Hidle Hp Hlk. rewrite Hr, Hlow, Hidle, Hp, Hlk. reflexivity.
    + intros Hlow Hidle Hp Hlk. rewrite Hr, Hlow, Hidle, Hp, Hlk. simpl.
      rewrite (Hfail Hlk). reflexivity.
    + intros Hlow Hidle. rewrite Hr, Hidle.
      destruct (Nat.eqb_spec low 0); [lia |].
      destruct (Nat.eqb_spec low 1); [lia | reflexivity].
Qed.

Lemma CheckTriggers_arbitration_witness :
  detectTriggers 16 (fun _ => false) (triggersPending (printingWith 42 Locks.initial)) <> 0%N
  /\ IsBitSet (detectTriggers 16 (fun _ => false)
                 (triggersPending (printingWith 42 Locks.initial)))
              (LowestSetBit (detectTriggers 16 (fun _ => false)
                               (triggersPending (printingWith 42 Locks.initial)))) = true.
Proof.
  assert (H : detectTriggers 16 (fun _ => false)
                (triggersPending (printingWith 42 Locks.initial)) <> 0%N)
    by (vm_compute; discriminate).
  split; [exact H |].
  exact (proj1 (proj2 (CheckTriggers_arbitration 16 6 (fun _ => false)
                         (printingWith 42 Locks.initial)) H)).
Defined.

(** An emergency-stop trigger wins the poll: if trigger 0 is pending, or
    its condition is detected in this poll, CheckTriggers calls
    DoEmergencyStop, whatever else is pending and whatever the trigger
    channel is doing. *)
Theorem CheckTriggers_emergency_first (MaxTriggers : nat) (triggerGCode : Channel)
    (check : nat -> bool) (s0 : TriggerState) :
  IsBitSet (triggersPending s0) 0 = true \/ (0 < MaxTriggers /\ check 0 = true) ->
  fst (CheckTriggers MaxTriggers triggerGCode check s0) = Some CallDoEmergencyStop.
Proof.
  intros H0.
  set (pend := detectTriggers MaxTriggers check (triggersPending s0)).
  assert (Hbit : IsBitSet pend 0 = true).
  { unfold pend. rewrite detectTriggers_spec.
    destruct H0 as [-> | [Hm Hc]]; [reflexivity |].
    rewrite Hc. apply Nat.ltb_lt in Hm. rewrite Hm. apply orb_true_r. }
  assert (Hnz : pend <> 0%N).
  { intros Hz. rewrite Hz, IsBitSet_zero in Hbit. discriminate. }
  destruct (LowestSetBit_spec pend Hnz) as [_ Hbelow].
  assert (Hlow : LowestSetBit pend = 0).
  { destruct (LowestSetBit pend) as [| k] eqn:Hk; [reflexivity |].
    rewrite (Hbelow 0) in Hbit by lia. discriminate. }
  unfold CheckTriggers.
  change (detectTriggers MaxTriggers check (triggersPending s0)) with pend.
  cbv zeta. cbn [triggersPending with_pending].
  apply N.eqb_neq in Hnz. rewrite Hnz, Hlow. reflexivity.
Qed.

Lemma CheckTriggers_emergency_first_witness :
  (IsBitSet (triggersPending busyNotPrinting) 0 = true
   \/ (0 < 16 /\ (fun i => Nat.eqb i 0) 0 = true))
  /\ fst (CheckTriggers 16 6 (fun i => Nat.eqb i 0) busyNotPrinting)
     = Some CallDoEmergencyStop.
Proof.
  assert (H : IsBitSet (triggersPending busyNotPrinting) 0 = true
              \/ (0 < 16 /\ (fun i => Nat.eqb i 0) 0 = true))
    by (right; split; [lia | reflexivity]).
  split; [exact H |].
  exact (CheckTriggers_emergency_first 16 6 (fun i => Nat.eqb i 0) busyNotPrinting H).
Defined.

End TriggerFacts.

(* --------------------------------------------------------------------- *)
(** ** Restore points                                                     *)
(* --------------------------------------------------------------------- *)

Section RestoreFacts.
Import Restore.

Lemma at_upd (a : list F32.float) (k i : nat) (v : F32.float) :
  Moves.at_ (Moves.upd a k v) i
  = if Nat.eqb k i && (k <? length a) then v else Moves.at_ a i.
Proof.
  unfold Moves.at_, Moves.upd.
  destruct (Nat.eqb_spec k i) as [-> | Hne]; simpl.
  - destruct (Nat.ltb_spec i (length a)) as [Hlt | Hge].
    + apply nth_lookup_Some with (d := F32.zero).
      apply list_lookup_insert_eq. exact Hlt.
    + rewrite list_insert_ge by exact Hge. reflexivity.
  - rewrite !nth_lookup, list_lookup_insert_ne by exact Hne. reflexivity.
Qed.

Lemma length_upd (a : list F32.float) k v : length (Moves.upd a k v) = length a.
Proof. unfold Moves.upd. apply length_insert. Qed.

Lemma length_copyAxes n src dst : length (copyAxes n src dst) = length dst.
Proof.
  unfold copyAxes. induction n as [| n IH]; [reflexivity |].
  rewrite seq_S, fold_left_app. simpl. rewrite length_upd. exact IH.
Qed.

(** The copy loop: the first [n] entries that exist come from [src], the
    others are left as they are. *)
Lemma copyAxes_at n src dst i :
  Moves.at_ (copyAxes n src dst) i
  = if (i <? n) && (i <? length dst) then Moves.at_ src i else Moves.at_ dst i.
Proof.
  induction n as [| n IH]; [reflexivity |].
  unfold copyAxes in *. rewrite seq_S, fold_left_app. simpl.
  rewrite at_upd. fold (copyAxes n src dst). rewrite length_copyAxes.
  unfold copyAxes. rewrite IH.
  destruct (Nat.eqb_spec n i) as [<- | Hne]; simpl.
  - replace (n <? S n) with true by (symmetry; apply Nat.ltb_lt; lia).
    replace (n <? n) with false by (symmetry; apply Nat.ltb_irrefl).
    simpl. destruct (n <? length dst); reflexivity.
  - replace (i <? S n) with (i <? n); [reflexivity |].
    destruct (Nat.ltb_spec i n), (Nat.ltb_spec i (S n)); try reflexivity; lia.
Qed.

(** RestorePosition does not select a tool: a position saved with tool 0
    and restored after tool 1 has been selected leaves tool 1 current,
    while the restore point still records tool 0. *)
Lemma restore_leaves_tool_number :
  currentToolNumber beforePause = 0%Z
  /\ toolNumber (SavePosition 3 0 emptyRestorePoint 1 beforePause) = 0%Z
  /\ currentToolNumber
       (RestorePosition 3 (SavePosition 3 0 emptyRestorePoint 1 beforePause) (Some 1)
          afterToolChange) = 1%Z.
Proof. vm_compute. auto. Qed.

(** Saving a position and restoring it later brings back, for the visible
    axes, the user coordinates at the time of saving, and gives the
    restoring channel the feed rate that the saving channel had; it also
    brings back the laser power.  The axes beyond the visible ones, the
    feed rates of other channels and the current tool number are left as
    they are at the time of restoring (the tool number at the time of
    saving is only recorded in the restore point); and the start of the
    current arc, [initialUserC0] and [initialUserC1], is taken from the
    restore point, where SavePosition does not store it. *)
Theorem save_restore_roundtrip (nv : nat) (filePosition : Z) (rp0 : RestorePoint)
    (gb gb' : Channel) (s0 s1 : PrintState) :
  (forall axis,
      axis < nv ->
      axis < length (moveCoords rp0) ->
      axis < length (Moves.currentUserPosition (moveState s1)) ->
      Moves.at_ (Moves.currentUserPosition
                   (moveState (RestorePosition nv (SavePosition nv filePosition rp0 gb s0)
                                 (Some gb') s1))) axis
      = Moves.at_ (Moves.currentUserPosition (moveState s0)) axis)
  /\ (forall axis,
        nv <= axis ->
        Moves.at_ (Moves.currentUserPosition
                     (moveState (RestorePosition nv (SavePosition nv filePosition rp0 gb s0)
                                   (Some gb') s1))) axis
        = Moves.at_ (Moves.currentUserPosition (moveState s1)) axis)
  /\ channelFeedRate (RestorePosition nv (SavePosition nv filePosition rp0 gb s0)
                        (Some gb') s1) gb'
     = channelFeedRate s0 gb
  /\ (forall c, c <> gb' ->
        channelFeedRate (RestorePosition nv (SavePosition nv filePosition rp0 gb s0)
                           (Some gb') s1) c
        = channelFeedRate s1 c)
  /\ Moves.laserPwm (Moves.raw (moveState
       (RestorePosition nv (SavePosition nv filePosition rp0 gb s0) (Some gb') s1)))
     = Moves.laserPwm (Moves.raw (moveState s0))
  /\ toolNumber (SavePosition nv filePosition rp0 gb s0) = currentToolNumber s0
  /\ currentToolNumber (RestorePosition nv (SavePosition nv filePosition rp0 gb s0)
                          (Some gb') s1)
     = currentToolNumber s1
  /\ Moves.initialUserC0 (Moves.raw (moveState
       (RestorePosition nv (SavePosition nv filePosition rp0 gb s0) (Some gb') s1)))
     = initialUserC0 rp0.
Proof.
  split; [| split; [| split; [| split; [| split; [| split; [| split]]]]]];
    try reflexivity.
  - intros axis Hnv Hrp Hcur. cbn.
    change (nth axis ?l F32.zero) with (Moves.at_ l axis).
    rewrite !copyAxes_at.
    unfold Restore.float, Moves.float in *.
    repeat match goal with
           | |- context [?a <? ?b] => destruct (Nat.ltb_spec a b); try lia
           end.
    reflexivity.
  - intros axis Hge. cbn.
    change (nth axis ?l F32.zero) with (Moves.at_ l axis).
    rewrite copyAxes_at.
    replace (axis <? nv) with false; [reflexivity |].
    symmetry. apply Nat.ltb_ge. exact Hge.
  - cbn. rewrite Nat.eqb_refl. reflexivity.
  - intros c Hc. cbn.
    destruct (Nat.eqb_spec c gb') as [-> | _]; [contradiction | reflexivity].
Qed.

Lemma save_restore_roundtrip_witness :
  0 < 3
  /\ 0 < length (moveCoords emptyRestorePoint)
  /\ 0 < length (Moves.currentUserPosition (moveState afterToolChange))
  /\ Moves.at_ (Moves.currentUserPosition
                  (moveState (RestorePosition 3 (SavePosition 3 0 emptyRestorePoint 1 beforePause)
                                (Some 1) afterToolChange))) 0
     = Moves.at_ (Moves.currentUserPosition (moveState beforePause)) 0.
Proof.
  assert (H1 : 0 < 3) by lia.
  assert (H2 : 0 < length (moveCoords emptyRestorePoint)) by (vm_compute; lia).
  assert (H3 : 0 < length (Moves.currentUserPosition (moveState afterToolChange)))
    by (vm_compute; lia).
  split; [exact H1 |]. split; [exact H2 |]. split; [exact H3 |].
  exact (proj1 (save_restore_roundtrip 3 0 emptyRestorePoint 1 1 beforePause afterToolChange)
           0 H1 H2 H3).
Defined.

(** Ending a simulation does bring the tool back: after SavePosition into
    the simulation restore point, EndSimulation leaves the tool number,
    the user coordinates of the visible axes and the feed rate as they
    were when the position was saved, and makes the virtually homed axes
    the homed ones. *)
Theorem EndSimulation_restores (env : Moves.Env) (filePosition : Z) (rp0 : RestorePoint)
    (gb : Channel) (s0 s1 : PrintState) :
  currentToolNumber
    (EndSimulation env (SavePosition (Moves.numVisibleAxes env) filePosition rp0 gb s0)
       (Some gb) s1)
  = currentToolNumber s0
  /\ channelFeedRate
       (EndSimulation env (SavePosition (Moves.numVisibleAxes env) filePosition rp0 gb s0)
          (Some gb) s1) gb
     = channelFeedRate s0 gb
  /\ axesVirtuallyHomed
       (EndSimulation env (SavePosition (Moves.numVisibleAxes env) filePosition rp0 gb s0)
          (Some gb) s1)
     = axesHomed s1
  /\ (forall axis,
        axis < Moves.numVisibleAxes env ->
        axis < length (moveCoords rp0) ->
        axis < length (Moves.currentUserPosition (moveState s1)) ->
        Moves.at_ (Moves.currentUserPosition
                     (moveState
                        (EndSimulation env
                           (SavePosition (Moves.numVisibleAxes env) filePosition rp0 gb s0)
                           (Some gb) s1))) axis
        = Moves.at_ (Moves.currentUserPosition (moveState s0)) axis).
Proof.
  split; [reflexivity |]. split; [| split; [reflexivity |]].
  - cbn. rewrite Nat.eqb_refl. reflexivity.
  - intros axis Hnv Hrp Hcur. cbn.
    change (nth axis ?l F32.zero) with (Moves.at_ l axis).
    rewrite !copyAxes_at.
    unfold Restore.float, Moves.float in *.
    repeat match goal with
           | |- context [?a <? ?b] => destruct (Nat.ltb_spec a b); try lia
           end.
    reflexivity.
Qed.

Lemma EndSimulation_restores_witness :
  0 < Moves.numVisibleAxes Moves.exampleEnv
  /\ 0 < length (moveCoords emptyRestorePoint)
  /\ 0 < length (Moves.currentUserPosition (moveState afterToolChange))
  /\ Moves.at_ (Moves.currentUserPosition
                  (moveState
                     (EndSimulation Moves.exampleEnv
                        (SavePosition (Moves.numVisibleAxes Moves.exampleEnv) 0
                           emptyRestorePoint 1 beforePause)
                        (Some 1) afterToolChange))) 0
     = Moves.at_ (Moves.currentUserPosition (moveState beforePause)) 0.
Proof.
  assert (H1 : 0 < Moves.numVisibleAxes Moves.exampleEnv) by (vm_compute; lia).
  assert (H2 : 0 < length (moveCoords emptyRestorePoint)) by (vm_compute; lia).
  assert (H3 : 0 < length (Moves.currentUserPosition (moveState afterToolChange)))
    by (vm_compute; lia).
  split; [exact H1 |]. split; [exact H2 |]. split; [exact H3 |].
  exact (proj2 (proj2 (proj2 (EndSimulation_restores Moves.exampleEnv 0 emptyRestorePoint 1
                                beforePause afterToolChange))) 0 H1 H2 H3).
Defined.

End RestoreFacts.

(* --------------------------------------------------------------------- *)
(** ** Resource locking: further properties                               *)
(* --------------------------------------------------------------------- *)

Lemma lockBit_setOwner s r o c j : lockBit (setOwner r o s) c j = lockBit s c j.
Proof. reflexivity. Qed.

(** Locks are not counted: however often a channel has locked a free
    resource, one UnlockResource frees it, with the lock bit cleared. *)
Theorem LockResource_not_counted (gb : Channel) (r : Resource) (n : nat) (s : LockState) :
  r < NumResources s ->
  owner s r = None ->
  let locked := Nat.iter (S n) (fun t => snd (LockResource gb r t)) s in
  owner locked r = Some gb
  /\ lockBit locked gb r = true
  /\ owner (UnlockResource gb r locked) r = None
  /\ lockBit (UnlockResource gb r locked) gb r = false
  /\ (forall r', r' <> r -> owner (UnlockResource gb r locked) r' = owner s r').
Proof.
  intros Hr Hfree.
  pose (f := fun t => snd (LockResource gb r t)).
  assert (Hiter : forall k,
            owner (Nat.iter (S k) f s) r = Some gb
            /\ lockBit (Nat.iter (S k) f s) gb r = true
            /\ (forall r', r' <> r -> owner (Nat.iter (S k) f s) r' = owner s r')
            /\ NumResources (Nat.iter (S k) f s) = NumResources s).
  { induction k as [| k IH].
    - change (Nat.iter 1 f s) with (f s). unfold f, LockResource.
      assert (ownedBy s r gb = false) as ->
        by (apply ownedBy_false; rewrite Hfree; discriminate).
      assert (isFree s r = true) as -> by (apply isFree_true; exact Hfree).
      cbn [snd]. repeat split.
      + rewrite owner_updLocked. apply owner_setOwner_eq. exact Hr.
      + rewrite lockBit_updLocked_set, !Nat.eqb_refl. reflexivity.
      + intros r' Hne. rewrite owner_updLocked. apply owner_setOwner_ne. congruence.
      + apply NumResources_setOwner.
    - destruct IH as (Ho & Hb & Hother & Hn).
      change (Nat.iter (S (S k)) f s) with (f (Nat.iter (S k) f s)).
      set (t := Nat.iter (S k) f s) in *.
      unfold f at 1 2 3 4, LockResource.
      assert (ownedBy t r gb = true) as -> by (apply ownedBy_true; exact Ho).
      cbn [snd]. repeat split; assumption. }
  intros locked. destruct (Hiter n) as (Ho & Hb & Hother & Hn).
  change (Nat.iter (S n) f s) with locked in Ho, Hb, Hother, Hn.
  split; [exact Ho |]. split; [exact Hb |].
  assert (Hown : ownedBy locked r gb = true) by (apply ownedBy_true; exact Ho).
  split; [| split].
  - rewrite UnlockResource_owner, Nat.eqb_refl, Hown. reflexivity.
  - unfold UnlockResource. rewrite Hown. rewrite lockBit_setOwner.
    rewrite lockBit_updLocked_clear, !Nat.eqb_refl. reflexivity.
  - intros r' Hne. rewrite UnlockResource_owner.
    destruct (Nat.eqb_spec r r') as [-> | _]; [contradiction |]. simpl. apply Hother. exact Hne.
Qed.

Lemma LockResource_not_counted_witness :
  MoveResource < NumResources initial
  /\ owner initial MoveResource = None
  /\ owner (UnlockResource 1 MoveResource
              (Nat.iter 3 (fun t => snd (LockResource 1 MoveResource t)) initial))
           MoveResource = None.
Proof.
  assert (H1 : MoveResource < NumResources initial) by (vm_compute; lia).
  assert (H2 : owner initial MoveResource = None) by reflexivity.
  split; [exact H1 |]. split; [exact H2 |].
  exact (proj1 (proj2 (proj2 (LockResource_not_counted 1 MoveResource 2 initial H1 H2)))).
Defined.

(** The mirror of the owner table in the machine states: if every owner
    has its lock bit set in its current frame, this is still so after any
    sequence of LockResource, UnlockResource, GrabResource and UnlockAll
    calls. *)
(** The effect of UnlockAll, from its loop invariant. *)
Lemma UnlockAll_effect gb s :
  (forall i,
      owner (UnlockAll gb s) i = if released gb s i then None else owner s i)
  /\ (forall c i,
        lockBit (UnlockAll gb s) c i =
        if Nat.eqb c gb && released gb s i then false else lockBit s c i)
  /\ (forall c,
        previous (machineState (UnlockAll gb s) c) = previous (machineState s c))
  /\ toBeHomed (UnlockAll gb s) =
     (if released gb s MoveResource then 0%N else toBeHomed s)
  /\ (forall i,
        released gb s i = true <->
        owner s i = Some gb /\ IsBitSet (resourcesToKeep gb s) i = false).
Proof.
  pose proof (UnlockAll_inv_final gb s) as [Hlen Hown Hbit Hprev Hhome].
  split; [| split; [| split; [| split]]].
  - apply UnlockAll_owner.
  - intros c i. rewrite Hbit.
    destruct (released gb s i) eqn:Hrel.
    + apply released_in_range in Hrel. apply Nat.ltb_lt in Hrel.
      rewrite Hrel. reflexivity.
    + rewrite !andb_false_r. reflexivity.
  - exact Hprev.
  - rewrite Hhome.
    destruct (released gb s MoveResource) eqn:Hrel.
    + apply released_in_range in Hrel. apply Nat.ltb_lt in Hrel.
      rewrite Hrel. reflexivity.
    + rewrite andb_false_r. reflexivity.
  - intros i. unfold released.
    rewrite andb_true_iff, negb_true_iff, ownedBy_true. tauto.
Qed.


Lemma step_ownersHaveBits s op :
  ownersHaveBits s -> ownersHaveBits (step s op).
Proof.
  intros Hinv r c. destruct op as [gb r0 | gb r0 | gb r0 | gb]; cbn [step].
  - unfold LockResource.
    destruct (ownedBy s r0 gb) eqn:Hown; [apply Hinv |].
    destruct (isFree s r0) eqn:Hfree; [| apply Hinv].
    cbn [snd]. rewrite owner_updLocked, lockBit_updLocked_set, lockBit_setOwner.
    destruct (Nat.eqb_spec r0 r) as [-> | Hne].
    + destruct (Nat.ltb_spec r (NumResources s)) as [Hlt | Hge].
      * rewrite owner_setOwner_eq by exact Hlt. intros [= <-].
        rewrite Nat.eqb_refl. reflexivity.
      * rewrite owner_out_of_range by (rewrite NumResources_setOwner; exact Hge).
        discriminate.
    + rewrite owner_setOwner_ne by exact Hne. intros Ho.
      rewrite andb_false_r. apply Hinv. exact Ho.
  - rewrite UnlockResource_owner. unfold UnlockResource.
    destruct (ownedBy s r0 gb) eqn:Hown.
    + destruct (Nat.eqb_spec r0 r) as [-> | Hne]; simpl; [discriminate |].
      intros Ho. rewrite lockBit_setOwner, lockBit_updLocked_clear.
      destruct (Nat.eqb_spec r0 r) as [-> | _]; [contradiction |].
      rewrite andb_false_r. apply Hinv. exact Ho.
    + rewrite andb_false_r. apply Hinv.
  - unfold GrabResource.
    destruct (ownedBy s r0 gb) eqn:Hown; cbn [negb]; [apply Hinv |].
    rewrite owner_updLocked, lockBit_updLocked_set, lockBit_setOwner.
    destruct (Nat.eqb_spec r0 r) as [-> | Hne].
    + destruct (Nat.ltb_spec r (NumResources s)) as [Hlt | Hge].
      * rewrite owner_setOwner_eq by exact Hlt. intros [= <-].
        rewrite Nat.eqb_refl. reflexivity.
      * rewrite owner_out_of_range by (rewrite NumResources_setOwner; exact Hge).
        discriminate.
    + rewrite owner_setOwner_ne by exact Hne. intros Ho.
      rewrite andb_false_r. apply Hinv. exact Ho.
  - rewrite UnlockAll_owner.
    destruct (UnlockAll_effect gb s) as (_ & Hbit & _).
    rewrite Hbit.
    destruct (released gb s r) eqn:Hrel; [discriminate |].
    rewrite andb_false_r. apply Hinv.
Qed.

Theorem ownersHaveBits_preserved (ops : list LockOp) (s : LockState) :
  ownersHaveBits s -> ownersHaveBits (run ops s).
Proof.
  revert s. induction ops as [| op ops IH]; intros s Hinv; [exact Hinv |].
  unfold run in *. simpl. apply IH. apply step_ownersHaveBits. exact Hinv.
Qed.

Lemma ownersHaveBits_initial : ownersHaveBits initial.
Proof. intros r c H. destruct r as [| [| r]]; discriminate H. Qed.

Lemma ownersHaveBits_preserved_witness :
  ownersHaveBits initial /\ ownersHaveBits (run exampleOps initial).
Proof.
  split; [exact ownersHaveBits_initial |].
  exact (ownersHaveBits_preserved exampleOps initial ownersHaveBits_initial).
Defined.

(** UnlockAll at top level (no parent frame) leaves the channel owning
    nothing; and in any frame a second UnlockAll changes nothing more:
    the owner table, every lock bit and the axes to be homed are as the
    first call left them. *)
Theorem UnlockAll_twice (gb : Channel) (s : LockState) :
  (previous (machineState s gb) = [] -> ownsNothing (UnlockAll gb s) gb)
  /\ (forall i, owner (UnlockAll gb (UnlockAll gb s)) i = owner (UnlockAll gb s) i)
  /\ (forall c i, lockBit (UnlockAll gb (UnlockAll gb s)) c i = lockBit (UnlockAll gb s) c i)
  /\ toBeHomed (UnlockAll gb (UnlockAll gb s)) = toBeHomed (UnlockAll gb s).
Proof.
  destruct (UnlockAll_effect gb s) as (Ho & Hb & Hp & Hh & Hrel).
  destruct (UnlockAll_effect gb (UnlockAll gb s)) as (Ho2 & Hb2 & Hp2 & Hh2 & Hrel2).
  assert (Hkeep : resourcesToKeep gb (UnlockAll gb s) = resourcesToKeep gb s).
  { unfold resourcesToKeep. rewrite Hp. reflexivity. }
  assert (Hnone : forall i, released gb (UnlockAll gb s) i = false).
  { intros i. destruct (released gb (UnlockAll gb s) i) eqn:Hr; [| reflexivity].
    apply Hrel2 in Hr as [Hown Hk]. rewrite Hkeep in Hk.
    rewrite Ho in Hown.
    destruct (released gb s i) eqn:Hr1; [discriminate |].
    assert (released gb s i = true) by (apply Hrel; split; assumption).
    congruence. }
  split; [| split; [| split]].
  - intros Htop r Hown. rewrite Ho in Hown.
    destruct (released gb s r) eqn:Hr; [discriminate |].
    assert (released gb s r = true).
    { apply Hrel. split; [exact Hown |].
      unfold resourcesToKeep. rewrite Htop. apply IsBitSet_zero. }
    congruence.
  - intros i. rewrite Ho2, Hnone. reflexivity.
  - intros c i. rewrite Hb2, Hnone, andb_false_r. reflexivity.
  - rewrite Hh2, Hnone. reflexivity.
Qed.

Lemma UnlockAll_twice_witness :
  previous (machineState heldByOne 1) = [] /\ ownsNothing (UnlockAll 1 heldByOne) 1.
Proof.
  assert (H : previous (machineState heldByOne 1) = []) by reflexivity.
  split; [exact H |].
  exact (proj1 (UnlockAll_twice 1 heldByOne) H).
Defined.

(* --------------------------------------------------------------------- *)
(** ** Taking segments: further properties                                *)
(* --------------------------------------------------------------------- *)

Lemma nextArcAngle_raw env ms :
  feedRate (raw (nextArcAngle env ms)) = feedRate (raw ms)
  /\ filePos (raw (nextArcAngle env ms)) = filePos (raw ms)
  /\ moveType (raw (nextArcAngle env ms)) = moveType (raw ms).
Proof. unfold nextArcAngle. destruct (doingArcMove ms); simpl; auto. Qed.

Lemma ReadMove_loop_progress env fuel : forall s,
  (1 <= segmentsLeft (moveState s) < 4294967296)%Z ->
  (segmentsLeft (moveState s) <= Z.of_nat fuel + 1)%Z ->
  readOutcome s (ReadMove_loop env fuel s).
Proof.
  induction fuel as [| fuel IH]; intros s [Hlo Hhi] Hfuel.
  - assert (Hone : segmentsLeft (moveState s) = 1%Z) by lia.
    simpl. rewrite Hone. simpl.
    repeat split; try lia;
      destruct (_ && _); destruct (doingArcMove (moveState s)); try reflexivity;
      intros; discriminate.
  - simpl.
    destruct (Z.eqb_spec (segmentsLeft (moveState s)) 1) as [Hone | Hmore].
    + simpl. rewrite Hone.
      repeat split; try lia;
        destruct (_ && _); destruct (doingArcMove (moveState s)); try reflexivity;
        intros; discriminate.
    + destruct (nextArcAngle_keeps env (moveState s)) as (Hd1 & Hc1 & Hs1).
      destruct (nextArcAngle_raw env (moveState s)) as (Hf1 & Hp1 & Ht1).
      destruct (fold_left (segmentEndpoint env (nextArcAngle env (moveState s)))
                  (seq 0 (numVisibleAxes env))
                  (initialCoords (nextArcAngle env (moveState s)),
                   coords (raw (moveState s)))) as [ic mc].
      cbn [segmentsLeft set_initialCoords]. rewrite Hs1.
      assert (Hdec : u32 (segmentsLeft (moveState s) - 1) = (segmentsLeft (moveState s) - 1)%Z)
        by (apply u32_small; lia).
      rewrite Hdec.
      destruct (Z.ltb_spec (segmentsLeftToStartAt s) (segmentsLeft (moveState s))) as [Hskip | Hgo].
      * match goal with
        | |- readOutcome s (ReadMove_loop env fuel ?s1) =>
            assert (Hsl : segmentsLeft (moveState s1) = (segmentsLeft (moveState s) - 1)%Z)
              by reflexivity;
            assert (Hst : segmentsLeftToStartAt s1 = segmentsLeftToStartAt s) by reflexivity;
            assert (Hraw : raw (moveState s1) = raw (nextArcAngle env (moveState s)))
              by reflexivity;
            assert (Hda : doingArcMove (moveState s1) = doingArcMove (moveState s))
              by (cbn; exact Hd1);
            pose proof (IH s1 ltac:(rewrite Hsl; lia) ltac:(rewrite Hsl; lia)) as Hout;
            destruct (ReadMove_loop env fuel s1) as [[m |] s']; unfold readOutcome in *
        end.
        -- destruct Hout as (Hr & Hk & Hf & Hp & Ht & Hc).
           rewrite Hsl in Hr. rewrite Hst in Hk. rewrite Hraw in Hf, Hp, Ht, Hc.
           rewrite Hf1 in Hf. rewrite Hp1 in Hp. rewrite Ht1 in Ht.
           rewrite Hc1, Hda in Hc.
           repeat split; try assumption; lia.
        -- exact Hout.
      * destruct (LimitPosition env mc None (axesVirtuallyHomed env) true) as [lp mc'].
        destruct lp; simpl; try (repeat split; reflexivity).
        repeat split; try lia; reflexivity.
Qed.

(** ReadMove makes progress.  With nothing in flight it answers false and
    changes nothing.  With a move in flight it either hands out a copy of
    the move record (same feed rate, file position and move type; same
    [canPauseAfter] unless the move is an arc) and leaves fewer segments,
    all of them below the segment at which a resumed print starts; or it
    aborts the move, leaving no segment. *)
Theorem ReadMove_progress (env : Env) (s : GCodes) :
  (segmentsLeft (moveState s) = 0%Z -> ReadMove env s = (None, s))
  /\ ((1 <= segmentsLeft (moveState s) < 4294967296)%Z -> readOutcome s (ReadMove env s)).
Proof.
  split.
  - intros Hz. unfold ReadMove. rewrite Hz. reflexivity.
  - intros Hin. unfold ReadMove.
    destruct (Z.eqb_spec (segmentsLeft (moveState s)) 0) as [Hz | _]; [lia |].
    apply ReadMove_loop_progress; [exact Hin | lia].
Qed.

Lemma ReadMove_progress_witness :
  (1 <= segmentsLeft (moveState arcPublished) < 4294967296)%Z
  /\ readOutcome arcPublished (ReadMove exampleEnv arcPublished).
Proof.
  assert (H : (1 <= segmentsLeft (moveState arcPublished) < 4294967296)%Z)
    by (vm_compute; split; [discriminate | reflexivity]).
  split; [exact H |].
  exact (proj2 (ReadMove_progress exampleEnv arcPublished) H).
Defined.

Lemma nextArcAngle_coords env ms :
  coords (raw (nextArcAngle env ms)) = coords (raw ms).
Proof. unfold nextArcAngle. destruct (doingArcMove ms); reflexivity. Qed.

Lemma ReadMove_loop_keeps env fuel : forall s,
  (1 <= segmentsLeft (moveState s) < 4294967296)%Z ->
  (segmentsLeft (moveState s) <= Z.of_nat fuel + 1)%Z ->
  readKeeps s (ReadMove_loop env fuel s).
Proof.
  assert (Hlast : forall s, segmentsLeft (moveState s) = 1%Z ->
            readKeeps s
              (Some
                 (let m1 :=
                    if (segmentsLeftToStartAt s =? 1)%Z
                       && F32.neqb (firstSegmentFractionToSkip s) F32.zero
                    then set_coords (skipExtrusion env (firstSegmentFractionToSkip s)
                                       (coords (raw (moveState s)))) (raw (moveState s))
                    else raw (moveState s) in
                  let m2 := set_proportionDone (F32.of_Z 1) m1 in
                  if doingArcMove (moveState s) then set_canPauseAfter true m2 else m2),
               final (ClearMove s))).
  { intros s _. split; [reflexivity |]. split; [reflexivity |]. intros _.
    split; [reflexivity |]. split.
    - cbv zeta. destruct (_ && _); destruct (doingArcMove (moveState s)); reflexivity.
    - intros Hno. rewrite Hno, andb_false_r. cbv zeta.
      destruct (doingArcMove (moveState s)); reflexivity. }
  induction fuel as [| fuel IH]; intros s [Hlo Hhi] Hfuel.
  - assert (Hone : segmentsLeft (moveState s) = 1%Z) by lia.
    simpl. rewrite Hone. cbn [Z.eqb Pos.eqb]. apply Hlast. exact Hone.
  - simpl.
    destruct (Z.eqb_spec (segmentsLeft (moveState s)) 1) as [Hone | Hmore].
    + apply Hlast. exact Hone.
    + destruct (nextArcAngle_keeps env (moveState s)) as (Hd1 & Hc1 & Hs1).
      pose proof (nextArcAngle_coords env (moveState s)) as Hco.
      destruct (fold_left (segmentEndpoint env (nextArcAngle env (moveState s)))
                  (seq 0 (numVisibleAxes env))
                  (initialCoords (nextArcAngle env (moveState s)),
                   coords (raw (moveState s)))) as [ic mc].
      cbn [segmentsLeft set_initialCoords]. rewrite Hs1.
      assert (Hdec : u32 (segmentsLeft (moveState s) - 1) = (segmentsLeft (moveState s) - 1)%Z)
        by (apply u32_small; lia).
      rewrite Hdec.
      destruct (Z.ltb_spec (segmentsLeftToStartAt s) (segmentsLeft (moveState s))) as [Hskip | Hgo].
      * match goal with
        | |- readKeeps s (ReadMove_loop env fuel ?s1) =>
            assert (Hsl : segmentsLeft (moveState s1) = (segmentsLeft (moveState s) - 1)%Z)
              by reflexivity;
            assert (Hfs : firstSegmentFractionToSkip s1 = firstSegmentFractionToSkip s)
              by reflexivity;
            assert (Hraw : coords (raw (moveState s1)) = coords (raw (moveState s)))
              by (cbn; exact Hco);
            pose proof (IH s1 ltac:(rewrite Hsl; lia) ltac:(rewrite Hsl; lia)) as Hout;
            destruct (ReadMove_loop env fuel s1) as [[m |] s']; unfold readKeeps in *
        end.
        -- rewrite Hraw, Hfs in Hout. exact Hout.
        -- exact Hout.
      * destruct (LimitPosition env mc None (axesVirtuallyHomed env) true) as [lp mc'].
        destruct lp; simpl; try reflexivity.
        split; [exact Hco |]. split; [reflexivity |]. intros Hz. lia.
Qed.

Lemma ReadMove_idle env s :
  segmentsLeft (moveState s) = 0%Z -> ReadMove env s = (None, s).
Proof. intros Hz. unfold ReadMove. rewrite Hz. reflexivity. Qed.

Lemma ReadMove_step env s :
  (1 <= segmentsLeft (moveState s) < 4294967296)%Z ->
  readOutcome s (ReadMove env s) /\ readKeeps s (ReadMove env s).
Proof.
  intros Hin. unfold ReadMove.
  destruct (Z.eqb_spec (segmentsLeft (moveState s)) 0) as [Hz | _]; [lia |].
  split; [apply ReadMove_loop_progress | apply ReadMove_loop_keeps]; try exact Hin; lia.
Qed.

(** Taking segments until none is left: a move of [n] segments is used up
    by at most [n] calls of ReadMove; and unless the move was aborted, the
    last copy handed out is the commanded end point itself (not a sum of
    per-segment steps), marked as the whole of the move. *)
Theorem drain_reaches_target (env : Env) (fuel : nat) (s : GCodes) :
  (0 <= segmentsLeft (moveState s) < 4294967296)%Z ->
  (segmentsLeft (moveState s) <= Z.of_nat fuel)%Z ->
  segmentsLeft (moveState (snd (drain env fuel s))) = 0%Z
  /\ (Z.of_nat (length (fst (drain env fuel s))) <= segmentsLeft (moveState s))%Z
  /\ ((1 <= segmentsLeft (moveState s))%Z ->
      segMoveState (moveState (snd (drain env fuel s))) <> aborted ->
      F32.neqb (firstSegmentFractionToSkip s) F32.zero = false ->
      exists pre m,
        fst (drain env fuel s) = pre ++ [m]
        /\ coords m = coords (raw (moveState s))
        /\ proportionDone m = F32.of_Z 1).
Proof.
  revert s. induction fuel as [| fuel IH]; intros s Hrange Hfuel.
  - assert (Hz : segmentsLeft (moveState s) = 0%Z) by lia.
    simpl. rewrite Hz. repeat split; try lia.
  - destruct (Z.eq_dec (segmentsLeft (moveState s)) 0%Z) as [Hz | Hnz].
    + simpl. rewrite (ReadMove_idle env s Hz). simpl. rewrite Hz.
      repeat split; try lia.
    + assert (Hin : (1 <= segmentsLeft (moveState s) < 4294967296)%Z) by lia.
      destruct (ReadMove_step env s Hin) as [Hout Hkeep].
      simpl. destruct (ReadMove env s) as [[m |] s1]; simpl in Hout, Hkeep.
      * destruct Hout as (Hr & _).
        destruct Hkeep as (Hco & Hfs & Hlast).
        specialize (IH s1 ltac:(lia) ltac:(lia)).
        destruct (drain env fuel s1) as [ms s2] eqn:Hd. simpl in IH |- *.
        destruct IH as (Hz2 & Hlen & Hend).
        split; [exact Hz2 |]. split; [lia |].
        intros _ Hna Hno.
        destruct (Z.eq_dec (segmentsLeft (moveState s1)) 0%Z) as [Hz1 | Hnz1].
        -- (* [m] was the last segment *)
           assert (Hms : ms = []).
           { destruct ms as [| x ms']; [reflexivity |]. simpl in Hlen. lia. }
           destruct (Hlast Hz1) as (_ & Hpd & Hcm).
           exists [], m. rewrite Hms. repeat split; auto.
        -- rewrite Hfs in Hend.
           destruct (Hend ltac:(lia) Hna Hno) as (pre & m' & Hms & Hcm & Hpd).
           exists (m :: pre), m'. rewrite Hms. rewrite <- Hco. repeat split; auto.
      * destruct Hout as (Hab & Hz1 & _). simpl.
        split; [exact Hz1 |]. split; [lia |].
        intros _ Hna. contradiction.
Qed.

Lemma drain_reaches_target_witness :
  (0 <= segmentsLeft (moveState arcPublished) < 4294967296)%Z
  /\ (segmentsLeft (moveState arcPublished) <= Z.of_nat 10)%Z
  /\ segmentsLeft (moveState (snd (drain exampleEnv 10 arcPublished))) = 0%Z.
Proof.
  assert (H1 : (0 <= segmentsLeft (moveState arcPublished) < 4294967296)%Z)
    by (vm_compute; split; [discriminate | reflexivity]).
  assert (H2 : (segmentsLeft (moveState arcPublished) <= Z.of_nat 10)%Z)
    by (vm_compute; discriminate).
  split; [exact H1 |]. split; [exact H2 |].
  exact (proj1 (drain_reaches_target exampleEnv 10 arcPublished H1 H2)).
Defined.

(* --------------------------------------------------------------------- *)
(** ** Waiting for standstill, and the travel to the start point          *)
(* --------------------------------------------------------------------- *)

Lemma with_locks_same s : with_locks (locks s) s = s.
Proof. destruct s; reflexivity. Qed.

(** LockMovementAndWaitForStandstill, Movement being a resource of the
    owner table.  When it answers true the caller owns
    Movement, no segment is in flight and the only thing recorded is that
    the channel's motion stopped.  When it answers false it records
    nothing and leaves the move record alone.  If another channel owns
    Movement it answers false and changes nothing at all.  If Movement is
    free, or already the caller's, the caller owns it afterwards whatever
    the answer: the lock is kept while the caller waits. *)
Theorem LockMovementAndWaitForStandstill_spec (env : Env) (gb : Channel) (s : GCodes) :
  MoveResource < NumResources (locks s) ->
  let r := LockMovementAndWaitForStandstill env gb s in
  (result r = true ->
     owner (locks (final r)) MoveResource = Some gb
     /\ segmentsLeft (moveState s) = 0%Z
     /\ segmentsLeft (moveState (final r)) = 0%Z
     /\ trace r = [EvMotionStopped gb])
  /\ (result r = false -> trace r = [] /\ moveState (final r) = moveState s)
  /\ (forall c, c <> gb -> owner (locks s) MoveResource = Some c ->
        result r = false /\ final r = s)
  /\ (owner (locks s) MoveResource = None \/ owner (locks s) MoveResource = Some gb ->
      owner (locks (final r)) MoveResource = Some gb).
Proof.
  intros Hin r.
  assert (Hlocks : locks (final r) = snd (LockMovement gb (locks s))).
  { unfold r, LockMovementAndWaitForStandstill. rewrite bind_get.
    destruct (fst (LockMovement gb (locks s))); [| reflexivity].
    destruct (segmentsLeft (moveState s) =? 0)%Z; [| reflexivity].
    destruct (WaitingForAllMovesFinished env); [| reflexivity].
    destruct (negb (gb =? queuedGCode env) && negb (IsCodeQueueIdle env)); [reflexivity |].
    destruct (inMainTask env); reflexivity. }
  assert (Howner : fst (LockMovement gb (locks s)) = true ->
                   owner (snd (LockMovement gb (locks s))) MoveResource = Some gb).
  { unfold LockMovement. intros Hok.
    pose proof (LockResource_owner gb MoveResource (locks s) MoveResource) as Ho.
    unfold LockResource in Hok, Ho |- *.
    destruct (ownedBy (locks s) MoveResource gb) eqn:Hown.
    - apply ownedBy_true in Hown. exact Hown.
    - destruct (isFree (locks s) MoveResource) eqn:Hfree; [| discriminate].
      cbn [snd] in Ho |- *. rewrite Ho. rewrite Nat.eqb_refl. cbn [andb].
      destruct (Nat.ltb_spec MoveResource (NumResources (locks s))) as [Hlt | Hge];
        [reflexivity | lia]. }
  split; [| split; [| split]].
  - intros Hres. rewrite Hlocks.
    unfold r, LockMovementAndWaitForStandstill in Hres |- *. rewrite bind_get in Hres |- *.
    destruct (fst (LockMovement gb (locks s))) eqn:Hok; [| discriminate].
    destruct (Z.eqb_spec (segmentsLeft (moveState s)) 0) as [Hz | Hnz]; [| discriminate].
    destruct (WaitingForAllMovesFinished env); [| discriminate].
    destruct (negb (gb =? queuedGCode env) && negb (IsCodeQueueIdle env)); [discriminate |].
    split; [apply Howner; reflexivity |]. split; [exact Hz |].
    destruct (inMainTask env); (split; [exact Hz | reflexivity]).
  - intros Hres.
    unfold r, LockMovementAndWaitForStandstill in Hres |- *. rewrite bind_get in Hres |- *.
    destruct (fst (LockMovement gb (locks s))); [| split; reflexivity].
    destruct (segmentsLeft (moveState s) =? 0)%Z; [| split; reflexivity].
    destruct (WaitingForAllMovesFinished env); [| split; reflexivity].
    destruct (negb (gb =? queuedGCode env) && negb (IsCodeQueueIdle env));
      [split; reflexivity |].
    destruct (inMainTask env); discriminate.
  - intros c Hne Hc.
    assert (Hfail : LockMovement gb (locks s) = (false, locks s)).
    { unfold LockMovement, LockResource.
      assert (ownedBy (locks s) MoveResource gb = false) as ->
        by (apply ownedBy_false; congruence).
      assert (isFree (locks s) MoveResource = false) as ->
        by (unfold isFree; apply bool_decide_eq_false; congruence).
      reflexivity. }
    unfold r, LockMovementAndWaitForStandstill. rewrite bind_get, Hfail.
    split; [reflexivity |]. apply with_locks_same.
  - intros Hfree. rewrite Hlocks.
    pose proof (LockResource_owner gb MoveResource (locks s) MoveResource) as Ho.
    unfold LockMovement. rewrite Ho, Nat.eqb_refl.
    apply Nat.ltb_lt in Hin. rewrite Hin.
    destruct Hfree as [Hnone | Hmine].
    + apply isFree_true in Hnone. rewrite Hnone. reflexivity.
    + destruct (isFree (locks s) MoveResource); [reflexivity | exact Hmine].
Qed.

Lemma LockMovementAndWaitForStandstill_spec_witness :
  MoveResource < NumResources (locks idle)
  /\ result (LockMovementAndWaitForStandstill exampleEnv 0 idle) = true
  /\ owner (locks (final (LockMovementAndWaitForStandstill exampleEnv 0 idle))) MoveResource
     = Some 0.
Proof.
  assert (H : MoveResource < NumResources (locks idle)) by (vm_compute; lia).
  assert (Hr : result (LockMovementAndWaitForStandstill exampleEnv 0 idle) = true)
    by reflexivity.
  split; [exact H |]. split; [exact Hr |].
  exact (proj1 (proj1 (LockMovementAndWaitForStandstill_spec exampleEnv 0 idle H) Hr)).
Defined.

(** TravelToStartPoint hands the Move task a move exactly when it answers
    true: then one single-segment move is published (total 1, barrier,
    segmentsLeft 1, notification, in that order, after the note that
    motion stopped), at the feed rate of the start point and with both
    kinds of axes taken as mentioned; when it answers false nothing is
    recorded and the move record is untouched. *)
Theorem TravelToStartPoint_single_segment (env : Env) (gb : Channel) (s : GCodes) :
  let r := TravelToStartPoint env gb s in
  result r = result (LockMovementAndWaitForStandstill env gb s)
  /\ (result r = true ->
      trace r = [EvMotionStopped gb; EvWrite (SetTotalSegments 1); EvDMB;
                 EvWrite (SetSegmentsLeft 1); EvMoveAvailable]
      /\ segmentsLeft (moveState s) = 0%Z
      /\ segmentsLeft (moveState (final r)) = 1%Z
      /\ totalSegments (moveState (final r)) = 1%Z
      /\ feedRate (raw (moveState (final r))) = startPointFeedRate env
      /\ linearAxesMentioned (raw (moveState (final r))) = true
      /\ rotationalAxesMentioned (raw (moveState (final r))) = true)
  /\ (result r = false -> trace r = [] /\ moveState (final r) = moveState s).
Proof.
  intros r. unfold r, TravelToStartPoint, LockMovementAndWaitForStandstill,
    NewSingleSegmentMoveAvailable.
  cbv [bind get modify ret emit write result final trace].
  destruct (fst (LockMovement gb (locks s)));
    [| split; [reflexivity | split; [discriminate | split; reflexivity]]].
  destruct (Z.eqb_spec (segmentsLeft (moveState s)) 0) as [Hz | Hnz];
    [| split; [reflexivity | split; [discriminate | split; reflexivity]]].
  destruct (WaitingForAllMovesFinished env);
    [| split; [reflexivity | split; [discriminate | split; reflexivity]]].
  destruct (negb (gb =? queuedGCode env) && negb (IsCodeQueueIdle env));
    [split; [reflexivity | split; [discriminate | split; reflexivity]] |].
  destruct (inMainTask env);
    (split; [reflexivity |]; split; [| discriminate]; intros _;
     repeat split; try reflexivity; exact Hz).
Qed.

Lemma TravelToStartPoint_single_segment_witness :
  result (TravelToStartPoint exampleEnv 0 idle) = true
  /\ segmentsLeft (moveState (final (TravelToStartPoint exampleEnv 0 idle))) = 1%Z.
Proof.
  assert (H : result (TravelToStartPoint exampleEnv 0 idle) = true) by reflexivity.
  split; [exact H |].
  exact (proj1 (proj2 (proj2
           (proj1 (proj2 (TravelToStartPoint_single_segment exampleEnv 0 idle)) H)))).
Defined.

(** A move of a cancelled object is never given to the Move task.  When
    the current object is cancelled FinaliseMove records only the pause
    flag and file position of the move record and that motion was
    commanded, turns the laser off on a laser machine (and only there),
    and leaves [segmentsLeft], [totalSegments], the segmentation state and
    every channel's state as they were. *)
Theorem FinaliseMove_cancelled_object (env : Env) (gb : Channel) (s : GCodes) :
  currentObjectCancelled s = true ->
  let r := FinaliseMove env gb s in
  forallb droppedMoveEvent (trace r) = true
  /\ (In (EvSetLaserPwm 0) (trace r) <-> machineType env = laser)
  /\ segmentsLeft (moveState (final r)) = segmentsLeft (moveState s)
  /\ totalSegments (moveState (final r)) = totalSegments (moveState s)
  /\ segMoveState (moveState (final r)) = segMoveState (moveState s)
  /\ doingArcMove (moveState (final r)) = doingArcMove (moveState s)
  /\ gbState (final r) = gbState s
  /\ locks (final r) = locks s.
Proof.
  intros Hc r. unfold r, FinaliseMove. rewrite bind_get, Hc.
  destruct (machineType env) eqn:Hm; cbn;
    repeat split; try reflexivity; try discriminate;
    try (intros [H | [H | [H | H]]]; try discriminate H; contradiction);
    try (intros; right; right; right; left; reflexivity).
Qed.

Lemma FinaliseMove_cancelled_object_witness :
  currentObjectCancelled arcOfCancelledObject = true
  /\ segmentsLeft (moveState (final (FinaliseMove exampleEnv 0 arcOfCancelledObject))) = 0%Z.
Proof.
  assert (H : currentObjectCancelled arcOfCancelledObject = true) by reflexivity.
  split; [exact H |].
  exact (proj1 (proj2 (proj2 (FinaliseMove_cancelled_object exampleEnv 0 arcOfCancelledObject H)))).
Defined.

(* --------------------------------------------------------------------- *)
(** ** What a move command leaves behind                                  *)
(* --------------------------------------------------------------------- *)

Lemma apply_event_frame e s :
  locks (apply_event s e) = locks s
  /\ firstMoveSincePrintingResumed (apply_event s e) = firstMoveSincePrintingResumed s
  /\ currentObjectCancelled (apply_event s e) = currentObjectCancelled s.
Proof.
  destruct e as [u | | | | |]; try (repeat split; reflexivity).
  destruct u; repeat split; reflexivity.
Qed.

Lemma replay_frame t s :
  locks (replay t s) = locks s
  /\ firstMoveSincePrintingResumed (replay t s) = firstMoveSincePrintingResumed s
  /\ currentObjectCancelled (replay t s) = currentObjectCancelled s.
Proof.
  revert s. induction t as [| e t IH]; intros s; [repeat split; reflexivity |].
  unfold replay in *. simpl.
  destruct (IH (apply_event s e)) as (H1 & H2 & H3).
  destruct (apply_event_frame e s) as (H4 & H5 & H6).
  rewrite H1, H2, H3, H4, H5, H6. repeat split; reflexivity.
Qed.

Lemma FinaliseMove_frame env gb s :
  locks (final (FinaliseMove env gb s)) = locks s
  /\ firstMoveSincePrintingResumed (final (FinaliseMove env gb s))
     = firstMoveSincePrintingResumed s
  /\ currentObjectCancelled (final (FinaliseMove env gb s)) = currentObjectCancelled s.
Proof. rewrite FinaliseMove_sound. apply replay_frame. Qed.

Lemma FinaliseMove_dropped env gb s :
  currentObjectCancelled s = true ->
  segmentsLeft (moveState (final (FinaliseMove env gb s))) = segmentsLeft (moveState s).
Proof.
  intros Hc. destruct (FinaliseMove_cancelled env gb s Hc) as [Hall Hfin].
  rewrite Hfin. apply replay_keepsCounters. exact Hall.
Qed.

Lemma keepsPauseFlags_checkEndstops e s :
  keepsPauseFlags e = true ->
  checkEndstops (raw (moveState (apply_event s e))) = checkEndstops (raw (moveState s)).
Proof.
  destruct e as [u | | | | |]; try (intros _; reflexivity).
  destruct u; simpl; try discriminate; intros _; reflexivity.
Qed.

Lemma FinaliseMove_checkEndstops env gb s :
  checkEndstops (raw (moveState (final (FinaliseMove env gb s))))
  = checkEndstops (raw (moveState s)).
Proof.
  unfold FinaliseMove. rewrite bind_get, final_bind.
  change (final (write ?u s)) with (apply_update u s). cbv beta.
  match goal with
  | |- context [final (?c (apply_update ?u s))] =>
      assert (HL : logsOnly keepsPauseFlags c) by logs;
      destruct (HL (apply_update u s)) as [H1 H2];
      rewrite H1;
      apply (replay_keeps
               (fun x => checkEndstops (raw (moveState x)) = checkEndstops (raw (moveState s)))
               keepsPauseFlags); [| exact H2 | reflexivity]
  end.
  intros e x He Hx. rewrite keepsPauseFlags_checkEndstops; assumption.
Qed.

Lemma arcSegments_range env arcRadius feedRate total :
  (1 <= arcSegments env arcRadius feedRate total < 4294967296)%Z.
Proof.
  unfold arcSegments, u32.
  match goal with
  | |- context [Z.modulo ?x 4294967296] =>
      pose proof (Z.mod_pos_bound x 4294967296 ltac:(lia))
  end.
  lia.
Qed.

(** What the hand-over at the end of a straight move leaves. *)
Lemma finishStraightMove_flight env gb sm s :
  let r := finishStraightMove env gb sm s in
  result r = MoveQueued
  /\ doingArcMove (moveState (final r)) = false
  /\ locks (final r) = UnlockAll gb (locks s)
  /\ canPauseAfter (raw (moveState (final r)))
     = negb (checkEndstops (raw (moveState (final r))))
  /\ checkEndstops (raw (moveState (final r))) = checkEndstops (raw (moveState s))
  /\ totalSegments (moveState (final r)) = totalSegments (moveState s)
  /\ (currentObjectCancelled s = false ->
      segmentsLeft (moveState (final r)) = totalSegments (moveState s))
  /\ (currentObjectCancelled s = true ->
      segmentsLeft (moveState (final r)) = segmentsLeft (moveState s)).
Proof.
  intros r. unfold r, finishStraightMove.
  rewrite !result_bind, !final_bind. cbv beta.
  change (final (write ?u ?x)) with (apply_update u x).
  change (final (modify ?f ?x)) with (f x).
  change (final (ret ?a ?x)) with x.
  change (result (ret ?a ?x)) with a.
  cbn [moveState with_locks locks].
  match goal with
  | |- context [FinaliseMove env gb ?s1] =>
      pose proof (FinaliseMove_totalSegments env gb s1) as Ht;
      destruct (FinaliseMove_frame env gb s1) as (Hl & _ & _);
      destruct (FinaliseMove_pauseFlags env gb s1) as [Hp Hd];
      pose proof (FinaliseMove_checkEndstops env gb s1) as Hce;
      pose proof (FinaliseMove_segmentsLeft env gb s1) as Hsl;
      pose proof (FinaliseMove_dropped env gb s1) as Hdr
  end.
  split; [reflexivity |].
  split; [rewrite Hd; reflexivity |].
  split; [rewrite Hl; reflexivity |].
  split; [rewrite Hp, Hce; cbn; apply andb_true_r |].
  split; [rewrite Hce; reflexivity |].
  split; [rewrite Ht; reflexivity |].
  split; intros Hc; [rewrite Hsl | rewrite Hdr]; try exact Hc; reflexivity.
Qed.

